(** * Solar gap analysis and interpolation engine

    A shallow embedding of the gap detector, the gap-length binning, the
    failure-pattern classifier, the solar-physics checks, the gap-impact
    assessment, the cross-equipment analysis, the pattern summary, the
    method recommender with its configuration section
    ([models/gap_analysis.py]) and of the configuration reader, the
    interpolator strategies and the interpolation engine
    ([models/interpolation.py]).

    Python integers are [Z]; Python floats are IEEE-754 binary64 values,
    taken from the kernel's executable specification [SpecFloat] at
    precision 53 and maximal exponent 1024; exceptions are an error monad;
    dictionaries are finite maps.  Routines of numpy's random generator,
    scipy, scikit-learn and lightgbm are not re-implemented: they are the
    fields of the classes [Statistics] and [Learners], and every statement
    below holds for each of their instances. *)

From Stdlib Require Import ZArith Bool Lia.
From Stdlib Require Import Floats.SpecFloat.
From stdpp Require Import gmap strings list fin_maps pretty sorting.

Open Scope Z_scope.

(** ** Python values, exceptions and calls *)

Module Py.

(** The exceptions the modelled code can raise. *)
Inductive exn :=
| ValueError (msg : string)
| TypeError (msg : string)
| KeyError (key : string)
| IndexError (msg : string)
| AttributeError (msg : string).

(** The outcome of a call: a value or a raised exception. *)
Inductive result (A : Type) :=
| Return (a : A)
| Raise (e : exn).
Arguments Return {A} a.
Arguments Raise {A} e.

#[global] Instance result_ret : MRet result := @Return.
#[global] Instance result_bind : MBind result :=
  fun A B f m => match m with Return a => f a | Raise e => Raise e end.
#[global] Instance result_fmap : FMap result :=
  fun A B f m => match m with Return a => Return (f a) | Raise e => Raise e end.

(** A loop that threads a state and stops at the first exception. *)
Fixpoint foldM {A B} (f : B -> A -> result B) (b : B) (l : list A) : result B :=
  match l with
  | [] => Return b
  | x :: l' => b' ← f b x; foldM f b' l'
  end.

(** A call signature: the parameter names after [self], of which the
    first [required] have no default value. *)
Record signature := { params : list string; required : nat }.

(** [bind_call sg npos kws] binds a call that passes [npos] positional
    arguments and the keyword arguments named [kws]; it is Python's
    argument binding for functions without [*args] and [**kwargs]. *)
Definition bind_call (fname : string) (sg : signature) (npos : nat)
    (kws : list string) : result unit :=
  (* the counts of the message include [self] *)
  if decide (length (params sg) < npos)%nat then
    Raise (TypeError (fname +:+ "() takes " +:+ pretty (S (length (params sg)))
                        +:+ " positional arguments but " +:+ pretty (S npos)
                        +:+ " were given"))
  else match list_find (fun k => k ∉ params sg) kws with
  | Some (_, k) =>
      Raise (TypeError (fname +:+ "() got an unexpected keyword argument '" +:+ k +:+ "'"))
  | None =>
    match list_find (fun k => k ∈ take npos (params sg)) kws with
    | Some (_, k) =>
        Raise (TypeError (fname +:+ "() got multiple values for argument '" +:+ k +:+ "'"))
    | None =>
      match list_find (fun p => p ∉ kws) (drop npos (take (required sg) (params sg))) with
      | Some (_, p) =>
          Raise (TypeError (fname +:+ "() missing required argument '" +:+ p +:+ "'"))
      | None => Return tt
      end
    end
  end.

End Py.
Import Py.

(** ** binary64 arithmetic *)

Module Float64.

Definition prec : Z := 53.
Definition emax : Z := 1024.

Abbreviation float := spec_float.

(** [float(z)] for a Python integer, rounded to nearest even. *)
Definition of_int (z : Z) : float := binary_normalize prec emax z 0 false.

Definition mul : float -> float -> float := SFmul prec emax.
Definition div : float -> float -> float := SFdiv prec emax.

(** The literal [n/d] written in decimal in the source: the binary64
    number nearest to the quotient, as correctly rounded division of
    the two integers gives it. *)
Definition literal (n d : Z) : float := div (of_int n) (of_int d).

Definition nan : float := S754_nan.
Definition zero : float := S754_zero false.

Definition isna (x : float) : bool :=
  match x with S754_nan => true | _ => false end.
Definition notna (x : float) : bool := negb (isna x).

(** Comparisons; each is false as soon as one side is NaN. *)
Definition ltb : float -> float -> bool := SFltb.
Definition leb : float -> float -> bool := SFleb.
Definition gtb (x y : float) : bool := ltb y x.
Definition geb (x y : float) : bool := leb y x.

(** [int(x)]: truncation toward zero; NaN and the infinities raise. *)
Definition to_int (x : float) : result Z :=
  match x with
  | S754_zero _ => Return 0
  | S754_finite s m e =>
      let a := if decide (0 <= e) then Z.pos m * 2 ^ e
               else Z.pos m / 2 ^ (- e) in
      Return (if s then - a else a)
  | S754_infinity _ => Raise (ValueError "cannot convert float infinity to integer")
  | S754_nan => Raise (ValueError "cannot convert float NaN to integer")
  end.

(** [z > x] for an integer [z] and a float [x]: Python compares the two
    exactly, without rounding [z]. *)
Definition int_gtb (z : Z) (x : float) : bool :=
  match x with
  | S754_nan => false
  | S754_infinity s => s
  | S754_zero _ => bool_decide (0 < z)
  | S754_finite s m e =>
      let v := if s then Z.neg m else Z.pos m in
      if decide (0 <= e) then bool_decide (v * 2 ^ e < z)
      else bool_decide (v < z * 2 ^ (- e))
  end.

End Float64.
Import Float64.

(** ** JSON-like documents *)

(** The gap-analysis document as [json.load] returns it. *)
#[warnings="-register-all"]
Inductive pyval :=
| PNone
| PBool (b : bool)
| PInt (z : Z)
| PFloat (x : float)
| PStr (s : string)
| PList (l : list pyval)
| PDict (d : gmap string pyval).

(** Truth value of a Python object. *)
Definition truthy (v : pyval) : bool :=
  match v with
  | PNone => false
  | PBool b => b
  | PInt z => negb (z =? 0)
  | PFloat x => match x with S754_zero _ => false | _ => true end
  | PStr s => negb (String.eqb s "")
  | PList l => match l with [] => false | _ => true end
  | PDict d => negb (bool_decide (d = ∅))
  end.

(** [v.get(key, dflt)]; only dictionaries have the method. *)
Definition py_get (v : pyval) (key : string) (dflt : pyval) : result pyval :=
  match v with
  | PDict d => Return (default dflt (d !! key))
  | _ => Raise (AttributeError "object has no attribute 'get'")
  end.

Definition isinstance_list (v : pyval) : bool :=
  match v with PList _ => true | _ => false end.

(** [v[0]] for a list [v]. *)
Definition py_item0 (v : pyval) : result pyval :=
  match v with
  | PList (x :: _) => Return x
  | PList [] => Raise (IndexError "list index out of range")
  | PStr (String c _) => Return (PStr (String c ""))
  | PStr EmptyString => Raise (IndexError "string index out of range")
  | PDict _ => Raise (KeyError "0")
  | _ => Raise (TypeError "object is not subscriptable")
  end.

(** ** Data frames *)

Module Frame.

(** A timestamp in nanoseconds since the epoch; [None] is NaT. *)
Abbreviation timestamp := (option Z).

(** A column holds timestamps or floats; a missing float is NaN. *)
Inductive column :=
| TimeCol (ts : list timestamp)
| NumCol (xs : list float).

Inductive cell :=
| CTime (t : timestamp)
| CNum (x : float).

(** A frame over the default index [0 .. nrows-1]: its columns by name,
    in order.  Column names are pairwise distinct, and every column of a
    frame read from a file has [nrows] entries. *)
Record DataFrame := { nrows : nat; cols : list (string * column) }.

Fixpoint col_lookup (c : string) (cs : list (string * column)) : option column :=
  match cs with
  | [] => None
  | (k, v) :: cs' => if decide (k = c) then Some v else col_lookup c cs'
  end.

(** [df[c] = v]: replaces the column in place, or appends it. *)
Fixpoint col_set (c : string) (v : column) (cs : list (string * column))
    : list (string * column) :=
  match cs with
  | [] => [(c, v)]
  | (k, w) :: cs' =>
      if decide (k = c) then (k, v) :: cs' else (k, w) :: col_set c v cs'
  end.

(** [df.drop(c, axis=1)] on the column list. *)
Fixpoint col_drop (c : string) (cs : list (string * column))
    : list (string * column) :=
  match cs with
  | [] => []
  | (k, w) :: cs' =>
      if decide (k = c) then col_drop c cs' else (k, w) :: col_drop c cs'
  end.

Definition col_isna (v : column) : list bool :=
  match v with
  | TimeCol ts => map (fun t => bool_decide (t = None)) ts
  | NumCol xs => map isna xs
  end.

(** [df.iloc[i][c]] within a column. *)
Definition cell_at (v : column) (i : nat) : cell :=
  match v with
  | TimeCol ts => CTime (default None (ts !! i))
  | NumCol xs => CNum (default nan (xs !! i))
  end.

(** [.dt.hour] of a timestamp. *)
Definition hour_of (t : Z) : Z := (t `div` 3600000000000) `mod` 24.

(** The timestamp of a float: the nanoseconds since the epoch that the
    conversion to a 64-bit integer gives, the fraction dropped.  NaN, the
    infinities and every value outside the 64-bit range convert to the
    smallest 64-bit integer, which is NaT. *)
Definition float_to_timestamp (x : float) : timestamp :=
  match to_int x with
  | Return z =>
      if decide (- 9223372036854775808 < z < 9223372036854775808) then Some z
      else None
  | Raise _ => None
  end.

(** [pd.to_datetime] of a column: timestamps are kept; floats are read
    as nanoseconds since the epoch, NaN and the values out of range
    becoming NaT. *)
Definition to_datetime (v : column) : result (list timestamp) :=
  match v with
  | TimeCol ts => Return ts
  | NumCol xs => Return (map float_to_timestamp xs)
  end.

End Frame.
Import Frame.

(** ** Library routines taken as parameters *)

(** The pandas and numpy statistics the classifier and the engine call.
    Interval lists are differences of timestamps in nanoseconds. *)
Class Statistics := {
  (** mean of [time_diffs.dt.total_seconds() / 3600] *)
  intervals_mean_hours : list Z -> float;
  (** sample standard deviation of the same series *)
  intervals_std_hours : list Z -> float;
  (** [np.corrcoef(x, y)[0, 1]] *)
  np_corrcoef : list Z -> list Z -> float;
  (** [np.random.choice(a, size, replace=False)] right after
      [np.random.seed(42)] *)
  np_random_choice : list Z -> nat -> result (list Z)
}.

(** ** Gap analysis ([models/gap_analysis.py]) *)

Module Gap.
(** One gap record, the dictionary [gap_info] of the detector. *)
Record t := {
  start_index : Z;
  end_index : Z;
  length : Z;
  start_time : option cell;
  end_time : option cell
}.
End Gap.

Module GapAnalysis.

Record Config := {
  gap_length_bins : list Z;
  gap_length_labels : list string;
  min_gap_size : Z;
  max_gap_size : Z
}.

Definition _default_config : Config := {|
  gap_length_bins := [1; 2; 3; 6; 12; 24; 48; 168; 1000];
  gap_length_labels := ["1h"; "2h"; "3h"; "6h"; "12h"; "1d"; "2d"; "1w"; ">1w"];
  min_gap_size := 1;
  max_gap_size := 1000
|}.

(** *** Gap detector *)

(** [s.shift(1).fillna(False)] on a boolean series. *)
Definition shift1 (l : list bool) : list bool :=
  take (List.length l) (false :: l).

(** [pd.to_numeric(s, errors='coerce').isna()]: a timestamp column is
    converted to its integer values, none of which is missing. *)
Definition to_numeric_isna (v : column) : list bool :=
  match v with
  | TimeCol ts => map (fun _ => false) ts
  | NumCol xs => map isna xs
  end.

(** The loop state: [current_gap_start], [current_gap_length], [gaps]. *)
Definition scan_state : Type := option nat * Z * list Gap.t.

Definition time_at (df : DataFrame) (time_col : string) (i : nat) : option cell :=
  (fun v => cell_at v i) <$> col_lookup time_col (cols df).

Definition mk_gap (df : DataFrame) (time_col : string)
    (s : nat) (e : Z) (len : Z) : Gap.t :=
  {| Gap.start_index := Z.of_nat s;
     Gap.end_index := e;
     Gap.length := len;
     Gap.start_time := time_at df time_col s;
     Gap.end_time := time_at df time_col (Z.to_nat e) |}.

(** One iteration of the loop over
    [enumerate(zip(is_missing, gap_starts, gap_ends))]. *)
Definition scan_step (df : DataFrame) (time_col : string) (st : scan_state)
    (it : nat * (bool * bool * bool)) : scan_state :=
  let '(cur, len, gaps) := st in
  let '(i, (missing, gap_start, gap_end)) := it in
  if gap_start then (Some i, 1, gaps)
  else if missing && bool_decide (is_Some cur) then (cur, len + 1, gaps)
  else if gap_end && bool_decide (is_Some cur) then
    match cur with
    | Some s => (None, 0, gaps ++ [mk_gap df time_col s (Z.of_nat i - 1) len])
    | None => st
    end
  else st.

Definition enumerate {A} (l : list A) : list (nat * A) := imap pair l.

Definition find_gaps_generic (df : DataFrame) (column time_col : string)
    : list Gap.t :=
  match col_lookup column (cols df) with
  | None => []
  | Some series =>
      let is_missing := to_numeric_isna series in
      let is_not_missing := map negb is_missing in
      let gap_starts := zip_with andb is_missing (shift1 is_not_missing) in
      let gap_ends := zip_with andb is_not_missing (shift1 is_missing) in
      let '(cur, len, gaps) :=
        foldl (scan_step df time_col) (None, 0, [])
              (enumerate (zip (zip is_missing gap_starts) gap_ends)) in
      match cur with
      | Some s =>
          gaps ++ [mk_gap df time_col s (Z.of_nat (nrows df) - 1) len]
      | None => gaps
      end
  end.

(** *** Gap-length binning *)

Definition count_in (P : Z -> bool) (a : list Z) : Z :=
  Z.of_nat (List.length (List.filter P a)).

(** [np.histogram(a, bins=bins)[0]] for increasing bin edges: every bin
    is closed on the left and open on the right, the last one is closed
    on both sides. *)
Fixpoint np_histogram (a : list Z) (bins : list Z) : list Z :=
  match bins with
  | lo :: (hi :: rest) as bins' =>
      match rest with
      | [] => [count_in (fun x => (lo <=? x) && (x <=? hi)) a]
      | _ => count_in (fun x => (lo <=? x) && (x <? hi)) a :: np_histogram a bins'
      end
  | _ => []
  end.

Definition _bin_gap_lengths (config : Config) (gap_lengths : list Z)
    : result (gmap string Z) :=
  let bins := gap_length_bins config in
  let labels := gap_length_labels config in
  let hist := np_histogram gap_lengths bins in
  foldM (fun (distribution : gmap string Z) i =>
           match labels !! i, hist !! i with
           | Some label, Some h => Return (<[label := h]> distribution)
           | _, _ => Raise (IndexError "list index out of range")
           end)
        ∅ (seq 0 (List.length bins - 1)).

(** *** Failure-pattern classifier, one column *)

Inductive label :=
| unknown | low | moderate | high | detected | improving | stable
| weekly | monthly | regular.

Record Patterns := {
  randomness : label;
  systematic : label;
  degradation : label;
  maintenance_like : label;
  weather_correlated : label
}.

Definition set_randomness (l : label) (p : Patterns) : Patterns :=
  {| randomness := l; systematic := systematic p; degradation := degradation p;
     maintenance_like := maintenance_like p;
     weather_correlated := weather_correlated p |}.
Definition set_systematic (l : label) (p : Patterns) : Patterns :=
  {| randomness := randomness p; systematic := l; degradation := degradation p;
     maintenance_like := maintenance_like p;
     weather_correlated := weather_correlated p |}.
Definition set_degradation (l : label) (p : Patterns) : Patterns :=
  {| randomness := randomness p; systematic := systematic p; degradation := l;
     maintenance_like := maintenance_like p;
     weather_correlated := weather_correlated p |}.
Definition set_maintenance_like (l : label) (p : Patterns) : Patterns :=
  {| randomness := randomness p; systematic := systematic p;
     degradation := degradation p; maintenance_like := l;
     weather_correlated := weather_correlated p |}.

(** [s.diff().dropna()] on a series of timestamps. *)
Fixpoint diff (ts : list Z) : list Z :=
  match ts with
  | a :: (b :: _) as ts' => (b - a) :: diff ts'
  | _ => []
  end.

Section Classifier.
Context {stats : Statistics}.

Definition _analyze_column_failure_pattern
    (gap_times : list Z) (gap_lengths : list Z) : Patterns :=
  let patterns :=
    {| randomness := unknown; systematic := unknown; degradation := unknown;
       maintenance_like := unknown; weather_correlated := unknown |} in
  if decide (length gap_times < 3)%nat then patterns else
  let time_diffs := diff gap_times in
  let mean := intervals_mean_hours time_diffs in
  let std := intervals_std_hours time_diffs in
  let patterns :=
    if decide (1 < length time_diffs)%nat then
      let cv := if gtb mean (of_int 0) then div std mean else of_int 0 in
      if gtb cv (literal 15 10) then set_randomness high patterns
      else if ltb cv (literal 5 10) then set_systematic high patterns
      else set_randomness moderate patterns
    else patterns in
  let patterns :=
    if decide (5 < length gap_lengths)%nat then
      let correlation := np_corrcoef gap_times gap_lengths in
      if gtb correlation (literal 3 10) then set_degradation detected patterns
      else if ltb correlation (SFopp (literal 3 10)) then
        set_degradation improving patterns
      else set_degradation stable patterns
    else patterns in
  if decide (4 < length gap_times)%nat then
    if decide (2 < length time_diffs)%nat then
      if ltb (div std mean) (literal 3 10) then
        if ltb (of_int 160) mean && ltb mean (of_int 200) then
          set_maintenance_like weekly patterns
        else if ltb (of_int 700) mean && ltb mean (of_int 800) then
          set_maintenance_like monthly patterns
        else set_maintenance_like regular patterns
      else patterns
    else patterns
  else patterns.

End Classifier.

(** *** Method recommender *)

(** The [pattern_summary] of [classify_failure_patterns]. *)
Record PatternSummary := {
  primary_pattern : string;
  secondary_patterns : list string
}.

Record Recommendations := {
  primary_method : string;
  method_parameters : gmap string bool;
  reasoning : list string;
  gap_specific_recommendations : gmap string string
}.

(** [gap_dist.get(k, 0)] *)
Definition dist_get (gap_dist : gmap string Z) (k : string) : Z :=
  default 0 (gap_dist !! k).

(** [sum(gap_dist.values())] *)
Definition dist_total (gap_dist : gmap string Z) : Z :=
  map_fold (fun _ v acc => v + acc) 0 gap_dist.

(** [n > total * c] as Python evaluates it: the product is a binary64
    product, the comparison of the integer with it is exact. *)
Definition exceeds (n total : Z) (c : float) : bool :=
  int_gtb n (mul (of_int total) c).

(** The selection of [recommend_methods_generic], from the pattern summary
    and the overall gap-length distribution that the function reads out of
    the analysis.  The function reaches it after its early returns: an
    analysis that holds an error, or for which the classification
    returns one (no column was analysed), gets the dictionary
    [{'error': ...}] and no method; those returns are in
    [SolarGapAnalyzer.recommend_methods_of_analysis], which ends in this
    selection. *)
Definition recommend_methods_generic (pattern_summary : PatternSummary)
    (gap_dist : gmap string Z) : Recommendations :=
  let short_gaps :=
    dist_get gap_dist "1h" + dist_get gap_dist "2h" + dist_get gap_dist "3h" in
  let medium_gaps :=
    dist_get gap_dist "6h" + dist_get gap_dist "12h" + dist_get gap_dist "1d" in
  let long_gaps :=
    dist_get gap_dist "2d" + dist_get gap_dist "1w" + dist_get gap_dist ">1w" in
  let total_gaps := dist_total gap_dist in
  if decide (total_gaps = 0) then
    {| primary_method := "unknown"; method_parameters := ∅;
       reasoning := ["No gaps found - no interpolation needed"];
       gap_specific_recommendations := ∅ |}
  else
  let '(method, parameters, reason) :=
    if decide (primary_pattern pattern_summary = "system_wide_failures") then
      ("system_level_interpolation",
       {[ "use_system_correlation" := true; "model_backup_power" := true;
          "include_grid_status" := true ]},
       ["System-wide failures detected - use system-level interpolation with backup power modeling"])
    else if decide (primary_pattern pattern_summary = "individual_equipment_failures") then
      if decide ("equipment_degradation" ∈ secondary_patterns pattern_summary) then
        ("degradation_aware_interpolation",
         {[ "use_degradation_curves" := true; "model_equipment_age" := true;
            "include_performance_trends" := true ]},
         ["Equipment degradation detected - use degradation-aware interpolation with performance trends"])
      else if decide ("maintenance_patterns" ∈ secondary_patterns pattern_summary) then
        ("maintenance_aware_interpolation",
         {[ "use_maintenance_schedules" := true; "model_planned_outages" := true;
            "include_preventive_maintenance" := true ]},
         ["Maintenance patterns detected - use maintenance-aware interpolation with scheduled outages"])
      else if decide ("random_failures" ∈ secondary_patterns pattern_summary) then
        ("equipment_specific_interpolation",
         {[ "model_individual_equipment" := true; "use_equipment_correlation" := false;
            "include_equipment_specs" := true ]},
         ["Random individual failures detected - use equipment-specific interpolation"])
      else
        ("multi_output_regression",
         {[ "model_equipment_independently" := true;
            "use_equipment_correlation" := true ]},
         ["Individual equipment failures detected - use multi-output regression"])
    else
      if exceeds short_gaps total_gaps (literal 7 10) then
        ("spline_interpolation", ∅,
         ["Mostly short gaps (1-3 hours) - spline interpolation recommended"])
      else if exceeds medium_gaps total_gaps (literal 3 10) then
        ("gaussian_process", ∅,
         ["Significant medium gaps (6-24 hours) - Gaussian Process recommended"])
      else if exceeds long_gaps total_gaps (literal 2 10) then
        ("physics_based_model", ∅,
         ["Many long gaps (>24 hours) - physics-based models recommended"])
      else ("unknown", ∅, []) in
  {| primary_method := method;
     method_parameters := <["apply_solar_constraints" := true]> parameters;
     reasoning := reason ++ ["Apply solar physics constraints (nighttime = 0, etc.)"];
     gap_specific_recommendations :=
       {[ "short_gaps" :=
            if exceeds short_gaps total_gaps (literal 5 10)
            then "spline_interpolation" else "multi_output_regression";
          "medium_gaps" :=
            if exceeds medium_gaps total_gaps (literal 3 10)
            then "multi_output_regression" else "gaussian_process";
          "long_gaps" :=
            if exceeds long_gaps total_gaps (literal 2 10)
            then "physics_based_model" else "multi_output_regression" ]} |}.

End GapAnalysis.

(** ** Interpolation ([models/interpolation.py]) *)

Module Interpolation.

(** *** InterpolationConfig *)

Record InterpolationConfig := {
  gap_analysis : pyval;
  recommendations : pyval;
  config : pyval
}.

Definition new_InterpolationConfig (gap_analysis : pyval) : result InterpolationConfig :=
  recommendations ← py_get gap_analysis "recommendations" (PDict ∅);
  config ← py_get recommendations "configuration" (PDict ∅);
  Return {| gap_analysis := gap_analysis; recommendations := recommendations;
            config := config |}.

Definition get_method_config (self : InterpolationConfig) (method_name : string)
    : result pyval :=
  py_get (config self) method_name (PDict ∅).

(** *** The solar-constraint post-processor *)

(** [df_result[time_column].dt.hour], NaN at NaT. *)
Definition hour_column (ts : list timestamp) : list float :=
  map (fun t => match t with Some z => of_int (hour_of z) | None => nan end) ts.

(** [(hour <= 5) | (hour >= 19)], false at NaT. *)
Definition night (t : timestamp) : bool :=
  match t with
  | Some z => (hour_of z <=? 5) || (19 <=? hour_of z)
  | None => false
  end.

(** [s[mask] = v] on the values of a column. *)
Fixpoint set_where (mask : list bool) (v : float) (xs : list float) : list float :=
  match xs, mask with
  | x :: xs', b :: mask' => (if b then v else x) :: set_where mask' v xs'
  | _, _ => xs
  end.

(** [s.clip(lower=0)]: missing values stay missing. *)
Definition clip_lower (xs : list float) : list float :=
  map (fun x => if isna x || geb x zero then x else zero) xs.

(** The body of the loop over the power columns:
    [df_result.loc[night_mask, col] = 0] and
    [df_result[col] = df_result[col].clip(lower=0)].  The assignment
    creates a missing column, filled with NaN elsewhere, unless the frame
    is empty; a timestamp column accepts neither step. *)
Definition constrain_column (n : nat) (night_mask : list bool)
    (cs : list (string * column)) (col : string) : result (list (string * column)) :=
  match col_lookup col cs with
  | Some (NumCol xs) =>
      Return (col_set col (NumCol (clip_lower (set_where night_mask zero xs))) cs)
  | Some (TimeCol _) =>
      Raise (TypeError "'>=' not supported between instances of 'Timestamp' and 'int'")
  | None =>
      if decide (n = 0%nat) then
        Raise (ValueError "cannot set a frame with no defined index and a scalar")
      else
        Return (col_set col
                  (NumCol (clip_lower (set_where night_mask zero (replicate n nan)))) cs)
  end.

(** [df[time_column]], converted by [pd.to_datetime]. *)
Definition datetime_of (cs : list (string * column)) (time_column : string)
    : result (list timestamp) :=
  match col_lookup time_column cs with
  | Some v => to_datetime v
  | None => Raise (KeyError time_column)
  end.

Definition apply_solar_constraints (df : DataFrame) (power_columns : list string)
    (time_column : string) : result DataFrame :=
  ts ← datetime_of (cols df) time_column;
  let cs := col_set time_column (TimeCol ts) (cols df) in
  let cs := col_set "hour" (NumCol (hour_column ts)) cs in
  let night_mask := map night ts in
  cs ← foldM (constrain_column (nrows df) night_mask) cs power_columns;
  Return {| nrows := nrows df; cols := col_drop "hour" cs |}.

(** *** Strategies *)

Inductive strategy :=
| SplineInterpolator
| GaussianProcessInterpolator
| PhysicsBasedInterpolator
| MultiOutputRegressionInterpolator.

(** The attribute [self.model] of the multi-output strategy: [None], a
    dictionary of per-column models of one of the two independent modes,
    or the single joint model. *)
Inductive mo_model (M : Type) :=
| ModelNone
| ModelWithCorrelation (ms : gmap string M)
| ModelIndependent (ms : gmap string M)
| ModelJoint (m : M).
Arguments ModelNone {M}.
Arguments ModelWithCorrelation {M} ms.
Arguments ModelIndependent {M} ms.
Arguments ModelJoint {M} m.

(** [not self.model] *)
Definition model_is_empty {M} (m : mo_model M) : bool :=
  match m with
  | ModelNone => true
  | ModelWithCorrelation ms | ModelIndependent ms => bool_decide (ms = ∅)
  | ModelJoint _ => false
  end.

(** The scipy, scikit-learn and lightgbm routines of the strategies, and
    the computations built on them. *)
Class Learners := {
  (** the weather frame *)
  weather : Type;
  (** the feature columns that [create_features] derives from the
      timestamps (hour, day of year, month, ..., sine and cosine
      encodings) and, when weather data is given, from the weather join *)
  feature_columns :
    list timestamp -> option weather -> result (list (string * column));
  (** [interpolate.interp1d(x, y, kind='cubic', fill_value='extrapolate')] *)
  interp1d_cubic : list Z -> list float -> result (list Z -> list float);
  (** a fitted Gaussian-process regressor with its scaler *)
  gp_model : Type;
  gp_train : list (string * column) -> list bool -> string -> result gp_model;
  gp_predict : gp_model -> list (string * column) -> list bool -> result (list float);
  (** the estimated parameters of a column, and the theoretical curve *)
  system_parameter : Type;
  estimate_parameters : list (nat * float) -> system_parameter;
  calculate_theoretical_solar_curve : list float -> system_parameter -> list float;
  (** a trained gradient-boosted model with its scaler *)
  lgb_model : Type;
  (** training of one target column in the mode with correlation
      features; [None] when fewer than 50 clean rows remain *)
  train_with_correlation :
    list (string * column) -> list string -> string -> pyval ->
    result (option lgb_model);
  (** training of one model per column on the complete rows *)
  train_independent :
    list (string * column) -> list string -> list bool ->
    result (gmap string lgb_model);
  (** training of the single joint model on the complete rows *)
  train_joint :
    list (string * column) -> list string -> list bool -> pyval -> result lgb_model;
  (** the prediction path of the multi-output strategy: features,
      predictions for the missing rows and the configured constraints *)
  predict_missing :
    mo_model lgb_model -> option InterpolationConfig -> DataFrame ->
    list string -> string -> option weather -> result DataFrame;
  (** [InterpolationMetrics.calculate_metrics] *)
  calculate_metrics : list cell -> list cell -> string -> pyval;
  (** the cross-column averages of the validation metrics *)
  average_metrics : gmap string pyval -> pyval
}.

Definition count_true (mask : list bool) : nat :=
  length (List.filter (fun b => b) mask).

(** [s[mask]] *)
Fixpoint select {A} (mask : list bool) (l : list A) : list A :=
  match l, mask with
  | x :: l', b :: mask' => if b then x :: select mask' l' else select mask' l'
  | _, _ => []
  end.

(** [s[mask] = values], the values taken in order. *)
Fixpoint fill_where (mask : list bool) (values : list float) (xs : list float)
    : list float :=
  match xs, mask with
  | x :: xs', true :: mask' =>
      match values with
      | v :: values' => v :: fill_where mask' values' xs'
      | [] => x :: fill_where mask' [] xs'
      end
  | x :: xs', false :: mask' => x :: fill_where mask' values xs'
  | _, _ => xs
  end.

(** [df_result.loc[mask, col] = values] *)
Definition assign_where (n : nat) (mask : list bool) (values : list float)
    (col : string) (cs : list (string * column)) : result (list (string * column)) :=
  match col_lookup col cs with
  | Some (NumCol xs) => Return (col_set col (NumCol (fill_where mask values xs)) cs)
  | Some (TimeCol _) => Raise (TypeError "invalid value for a datetime column")
  | None => Return (col_set col (NumCol (fill_where mask values (replicate n nan))) cs)
  end.

(** [pd.to_numeric] of a timestamp: NaT is the smallest 64-bit integer. *)
Definition to_numeric_time (t : timestamp) : Z := default (-9223372036854775808) t.

Section Strategies.
Context {learn : Learners}.

(** The state of a strategy instance. *)
Record interpolator := {
  cls : strategy;
  is_fitted : bool;
  metadata : list (string * pyval);
  interp_config : option InterpolationConfig;
  gp_models : gmap string gp_model;
  system_parameters : gmap string system_parameter;
  model : mo_model lgb_model
}.

(** The signatures of [__init__], [fit] and [interpolate] of each class;
    only the multi-output strategy overrides the constructor and takes
    the weather frame. *)
Definition init_signature (c : strategy) : signature :=
  match c with
  | MultiOutputRegressionInterpolator =>
      {| params := ["config"; "interpolation_config"]; required := 0 |}
  | _ => {| params := ["config"]; required := 0 |}
  end.

Definition fit_signature (c : strategy) : signature :=
  match c with
  | MultiOutputRegressionInterpolator =>
      {| params := ["df"; "power_columns"; "time_column"; "weather_data"];
         required := 3 |}
  | _ => {| params := ["df"; "power_columns"; "time_column"]; required := 3 |}
  end.

Definition interpolate_signature (c : strategy) : signature := fit_signature c.

Definition kwarg (k : string) (kwargs : list (string * InterpolationConfig))
    : option InterpolationConfig :=
  (fun p => p.2.2) <$> list_find (fun p => p.1 = k) kwargs.

(** The constructor call with keyword arguments: a fresh, unfitted instance. *)
Definition construct (c : strategy) (kwargs : list (string * InterpolationConfig))
    : result interpolator :=
  _ ← bind_call "__init__" (init_signature c) 0 (kwargs.*1);
  Return {| cls := c; is_fitted := false; metadata := [];
            interp_config := kwarg "interpolation_config" kwargs;
            gp_models := ∅; system_parameters := ∅; model := ModelNone |}.

Definition fitted (self : interpolator) (metadata : list (string * pyval))
    : interpolator :=
  {| cls := cls self; is_fitted := true; metadata := metadata;
     interp_config := interp_config self; gp_models := gp_models self;
     system_parameters := system_parameters self; model := model self |}.

Definition create_features (df : DataFrame) (time_column : string)
    (weather_data : option weather) : result DataFrame :=
  ts ← datetime_of (cols df) time_column;
  fcs ← feature_columns ts weather_data;
  Return {| nrows := nrows df;
            cols := foldl (fun cs kv => col_set kv.1 kv.2 cs)
                          (col_set time_column (TimeCol ts) (cols df)) fcs |}.

(** **** SplineInterpolator *)

Definition Spline_fit (self : interpolator) : interpolator :=
  fitted self [("method", PStr "cubic_spline"); ("interpolation_order", PInt 3);
               ("extrapolation", PStr "constant")].

Definition Spline_interpolate (self : interpolator) (df : DataFrame)
    (power_columns : list string) (time_column : string) : result DataFrame :=
  ts ← datetime_of (cols df) time_column;
  let time_numeric := map to_numeric_time ts in
  cs ← foldM (fun cs col =>
                match col_lookup col cs with
                | Some (NumCol xs) =>
                    let mask := map notna xs in
                    if decide (3 < count_true mask)%nat then
                      spline ← interp1d_cubic (select mask time_numeric) (select mask xs);
                      let missing_mask := map isna xs in
                      if decide (0 < count_true missing_mask)%nat then
                        assign_where (nrows df) missing_mask
                          (spline (select missing_mask time_numeric)) col cs
                      else Return cs
                    else Return cs
                | Some (TimeCol ts') =>
                    if decide (3 < count_true (map negb (col_isna (TimeCol ts'))))%nat
                    then Raise (TypeError "datetime values cannot be interpolated")
                    else Return cs
                | None => Return cs
                end)
             (col_set time_column (TimeCol ts) (cols df)) power_columns;
  apply_solar_constraints {| nrows := nrows df; cols := cs |} power_columns time_column.

(** **** GaussianProcessInterpolator *)

Definition GP_fit (self : interpolator) (df : DataFrame)
    (power_columns : list string) (time_column : string) : result interpolator :=
  df_features ← create_features df time_column None;
  models ← foldM (fun (models : gmap string gp_model) col =>
                    match col_lookup col (cols df_features) with
                    | Some v =>
                        let complete_mask := map negb (col_isna v) in
                        if decide (10 < count_true complete_mask)%nat then
                          gp ← gp_train (cols df_features) complete_mask col;
                          Return (<[col := gp]> models)
                        else Return models
                    | None => Return models
                    end)
                 (gp_models self) power_columns;
  Return {| cls := cls self; is_fitted := true;
            metadata := [("method", PStr "gaussian_process");
                         ("models_trained", PInt (Z.of_nat (size models)));
                         ("kernel_type", PStr "RBF + Matern + WhiteNoise")];
            interp_config := interp_config self; gp_models := models;
            system_parameters := system_parameters self; model := model self |}.

Definition not_fitted : exn := ValueError "Must call fit() before interpolate()".

Definition GP_interpolate (self : interpolator) (df : DataFrame)
    (power_columns : list string) (time_column : string) : result DataFrame :=
  if negb (is_fitted self) then Raise not_fitted else
  df_features ← create_features df time_column None;
  cs ← foldM (fun cs col =>
                match gp_models self !! col, col_lookup col (cols df_features) with
                | Some gp, Some v =>
                    let missing_mask := col_isna v in
                    if decide (0 < count_true missing_mask)%nat then
                      y_pred ← gp_predict gp (cols df_features) missing_mask;
                      assign_where (nrows df) missing_mask y_pred col cs
                    else Return cs
                | _, _ => Return cs
                end)
             (cols df) power_columns;
  apply_solar_constraints {| nrows := nrows df; cols := cs |} power_columns time_column.

(** **** PhysicsBasedInterpolator *)

(** [(hour >= 6) & (hour <= 18)] *)
Definition daytime (t : timestamp) : bool :=
  match t with
  | Some z => (6 <=? hour_of z) && (hour_of z <=? 18)
  | None => false
  end.

(** [df_temp.loc[daytime_mask, col].dropna()], with the row labels. *)
Definition daytime_data (daytime_mask : list bool) (xs : list float)
    : list (nat * float) :=
  List.filter (fun p => notna p.2) (select daytime_mask (imap pair xs)).

Definition Physics_fit (self : interpolator) (df : DataFrame)
    (power_columns : list string) (time_column : string) : result interpolator :=
  ts ← datetime_of (cols df) time_column;
  let cs := col_set "hour" (NumCol (hour_column ts))
              (col_set time_column (TimeCol ts) (cols df)) in
  let daytime_mask := map daytime ts in
  parameters ←
    foldM (fun (parameters : gmap string system_parameter) col =>
             match col_lookup col cs with
             | Some (NumCol xs) =>
                 let data := daytime_data daytime_mask xs in
                 if decide (0 < length data)%nat then
                   Return (<[col := estimate_parameters data]> parameters)
                 else Return parameters
             | Some (TimeCol ts') =>
                 if decide (0 < count_true (select daytime_mask
                                              (map negb (col_isna (TimeCol ts')))))%nat
                 then Raise (TypeError "float() argument must be a number, not 'Timestamp'")
                 else Return parameters
             | None => Return parameters
             end)
          (system_parameters self) power_columns;
  Return {| cls := cls self; is_fitted := true;
            metadata := [("method", PStr "physics_based");
                         ("estimated_parameters", PInt (Z.of_nat (size parameters)))];
            interp_config := interp_config self; gp_models := gp_models self;
            system_parameters := parameters; model := model self |}.

Definition Physics_interpolate (self : interpolator) (df : DataFrame)
    (power_columns : list string) (time_column : string) : result DataFrame :=
  if negb (is_fitted self) then Raise not_fitted else
  ts ← datetime_of (cols df) time_column;
  let cs := col_set "hour" (NumCol (hour_column ts))
              (col_set time_column (TimeCol ts) (cols df)) in
  cs ← foldM (fun cs col =>
                match system_parameters self !! col, col_lookup col cs with
                | Some parameters, Some v =>
                    let missing_mask := col_isna v in
                    if decide (0 < count_true missing_mask)%nat then
                      match col_lookup "hour" cs with
                      | Some (NumCol hours) =>
                          assign_where (nrows df) missing_mask
                            (calculate_theoretical_solar_curve
                               (select missing_mask hours) parameters) col cs
                      | _ => Raise (KeyError "hour")
                      end
                    else Return cs
                | _, _ => Return cs
                end)
             cs power_columns;
  apply_solar_constraints {| nrows := nrows df; cols := col_drop "hour" cs |}
    power_columns time_column.

(** **** MultiOutputRegressionInterpolator *)

(** [df[power_columns].notna().all(axis=1)] *)
Definition complete_mask (df : DataFrame) (power_columns : list string)
    : result (list bool) :=
  foldM (fun mask col =>
           match col_lookup col (cols df) with
           | Some v => Return (zip_with andb mask (map negb (col_isna v)))
           | None => Raise (KeyError col)
           end)
        (replicate (nrows df) true) power_columns.

Definition with_model (self : interpolator) (m : mo_model lgb_model)
    (metadata : list (string * pyval)) : interpolator :=
  {| cls := cls self; is_fitted := true; metadata := metadata;
     interp_config := interp_config self; gp_models := gp_models self;
     system_parameters := system_parameters self; model := m |}.

Definition _fit_independent_with_correlation (self : interpolator) (df : DataFrame)
    (power_columns : list string) (time_column : string)
    (weather_data : option weather) (method_config : pyval) : result interpolator :=
  df_features ← create_features df time_column weather_data;
  models ←
    foldM (fun (models : gmap string lgb_model) target_col =>
             match col_lookup target_col (cols df_features) with
             | Some v =>
                 if decide (count_true (map negb (col_isna v)) < 50)%nat
                 then Return models
                 else
                   trained ← train_with_correlation (cols df_features)
                               power_columns target_col method_config;
                   match trained with
                   | Some m => Return (<[target_col := m]> models)
                   | None => Return models
                   end
             | None => Raise (KeyError target_col)
             end)
          ∅ power_columns;
  Return (with_model self (ModelWithCorrelation models)
            [("method", PStr "multi_output_lgb_with_safe_correlation");
             ("models_trained", PInt (Z.of_nat (size models)));
             ("correlation_features_used", PBool true);
             ("leakage_prevention", PStr "historical_features_only")]).

Definition _fit_independent_models (self : interpolator) (df : DataFrame)
    (power_columns : list string) (time_column : string)
    (weather_data : option weather) (method_config : pyval) : result interpolator :=
  df_features ← create_features df time_column weather_data;
  mask ← complete_mask df_features power_columns;
  m ← (if decide (100 < count_true mask)%nat then
         ModelIndependent <$> train_independent (cols df_features) power_columns mask
       else Return (model self));
  Return (with_model self m
            [("method", PStr "multi_output_lgb");
             ("models_trained",
              PInt (match m with
                    | ModelWithCorrelation ms | ModelIndependent ms => Z.of_nat (size ms)
                    | _ => 0
                    end));
             ("training_samples", PInt (Z.of_nat (count_true mask)))]).

Definition _fit_multi_output_model (self : interpolator) (df : DataFrame)
    (power_columns : list string) (time_column : string)
    (weather_data : option weather) (method_config : pyval) : result interpolator :=
  df_features ← create_features df time_column weather_data;
  mask ← complete_mask df_features power_columns;
  m ← (if decide (100 < count_true mask)%nat then
         ModelJoint <$> train_joint (cols df_features) power_columns mask method_config
       else Return (model self));
  Return (with_model self m
            [("method", PStr "multi_output_lgb_single_model");
             ("models_trained", PInt 1);
             ("training_samples", PInt (Z.of_nat (count_true mask)))]).

Definition MO_fit (self : interpolator) (df : DataFrame)
    (power_columns : list string) (time_column : string)
    (weather_data : option weather) : result interpolator :=
  method_config ←
    match interp_config self with
    | Some ic => get_method_config ic "multi_output_regression"
    | None => Return (PDict ∅)
    end;
  model_independently ←
    py_get method_config "model_equipment_independently" (PBool true);
  use_correlation ← py_get method_config "use_equipment_correlation" (PBool false);
  if truthy model_independently && truthy use_correlation then
    _fit_independent_with_correlation self df power_columns time_column
      weather_data method_config
  else if truthy model_independently then
    _fit_independent_models self df power_columns time_column
      weather_data method_config
  else
    _fit_multi_output_model self df power_columns time_column
      weather_data method_config.

(** **** Method calls *)

(** [self.fit(df, power_columns, time_column, *extra)]: the arguments
    are bound to the signature of the class, then the body runs. *)
Definition fit (self : interpolator) (df : DataFrame) (power_columns : list string)
    (time_column : string) (extra : list (option weather)) : result interpolator :=
  _ ← bind_call "fit" (fit_signature (cls self)) (3 + length extra) [];
  match cls self with
  | SplineInterpolator => Return (Spline_fit self)
  | GaussianProcessInterpolator => GP_fit self df power_columns time_column
  | PhysicsBasedInterpolator => Physics_fit self df power_columns time_column
  | MultiOutputRegressionInterpolator =>
      MO_fit self df power_columns time_column (default None (head extra))
  end.

(** The fallback branch of [interpolate]: a new spline strategy, fitted
    and applied with the weather frame passed on to both calls. *)
Definition spline_fallback (df : DataFrame) (power_columns : list string)
    (time_column : string) (weather_data : option weather) : result DataFrame :=
  spline_interpolator ← construct SplineInterpolator [];
  spline_interpolator ←
    fit spline_interpolator df power_columns time_column [weather_data];
  _ ← bind_call "interpolate" (interpolate_signature (cls spline_interpolator)) 4 [];
  Spline_interpolate spline_interpolator df power_columns time_column.

Definition MO_interpolate (self : interpolator) (df : DataFrame)
    (power_columns : list string) (time_column : string)
    (weather_data : option weather) : result DataFrame :=
  if negb (is_fitted self) || model_is_empty (model self) then
    spline_fallback df power_columns time_column weather_data
  else
    predict_missing (model self) (interp_config self) df power_columns
      time_column weather_data.

Definition interpolate (self : interpolator) (df : DataFrame)
    (power_columns : list string) (time_column : string)
    (extra : list (option weather)) : result DataFrame :=
  _ ← bind_call "interpolate" (interpolate_signature (cls self)) (3 + length extra) [];
  match cls self with
  | SplineInterpolator => Spline_interpolate self df power_columns time_column
  | GaussianProcessInterpolator => GP_interpolate self df power_columns time_column
  | PhysicsBasedInterpolator => Physics_interpolate self df power_columns time_column
  | MultiOutputRegressionInterpolator =>
      MO_interpolate self df power_columns time_column (default None (head extra))
  end.

End Strategies.

(** *** InterpolationEngine *)

(** The registry [self.interpolators]. *)
Definition interpolators : gmap string strategy :=
  {[ "spline_interpolation" := SplineInterpolator;
     "gaussian_process" := GaussianProcessInterpolator;
     "physics_based_model" := PhysicsBasedInterpolator;
     "multi_output_regression" := MultiOutputRegressionInterpolator;
     "system_level_interpolation" := MultiOutputRegressionInterpolator;
     "degradation_aware_interpolation" := GaussianProcessInterpolator;
     "maintenance_aware_interpolation" := PhysicsBasedInterpolator;
     "equipment_specific_interpolation" := SplineInterpolator ]}.

Record Structure := {
  time_column : pyval;
  power_columns : pyval;
  time_frequency : pyval;
  total_rows : pyval
}.

Definition extract_data_structure (gap_analysis : pyval) : result Structure :=
  structure ← py_get gap_analysis "structure" (PDict ∅);
  time_column ← py_get structure "time_column" PNone;
  power_columns ← py_get structure "power_columns" (PList []);
  time_frequency ← py_get structure "time_frequency" PNone;
  total_rows ← py_get structure "total_rows" PNone;
  Return {| time_column := time_column; power_columns := power_columns;
            time_frequency := time_frequency; total_rows := total_rows |}.

(** The conditional expression of the source is, by Python's grammar,
    [(a or b[0]) if c else 'spline_interpolation'] with
    [a = recommendations.get('primary_method')],
    [b = recommendations.get('primary_methods', ['spline_interpolation'])]
    and [c = isinstance(recommendations.get('primary_methods'), list)];
    the condition [c] is evaluated first. *)
Definition get_recommended_method (gap_analysis : pyval) (user_method : option string)
    : result pyval :=
  if truthy (from_option PStr PNone user_method) then
    Return (from_option PStr PNone user_method)
  else
    recommendations ← py_get gap_analysis "recommendations" (PDict ∅);
    is_list ← isinstance_list <$> py_get recommendations "primary_methods" PNone;
    if is_list : bool then
      primary_method ← py_get recommendations "primary_method" PNone;
      if truthy primary_method then Return primary_method
      else
        primary_methods ← py_get recommendations "primary_methods"
                            (PList [PStr "spline_interpolation"]);
        py_item0 primary_methods
    else Return (PStr "spline_interpolation").

(** [method not in self.interpolators] followed by
    [self.interpolators[method]]. *)
Definition lookup_method (method : pyval) : result (string * strategy) :=
  match method with
  | PStr name =>
      match interpolators !! name with
      | Some c => Return (name, c)
      | None => Raise (ValueError ("Unknown interpolation method: " +:+ name))
      end
  | PList _ | PDict _ => Raise (TypeError "unhashable type")
  | _ => Raise (ValueError "Unknown interpolation method")
  end.

Inductive validation_info :=
| ValidationError (error : string)
| ValidationInfo (validation_indices : list Z)
                 (validation_data : gmap string (list cell))
                 (n_validation_points : Z).

(** [max(10, int(n * validation_ratio))] *)
Definition n_validation (n : nat) (validation_ratio : float) : result Z :=
  k ← to_int (mul (of_int (Z.of_nat n)) validation_ratio);
  Return (Z.max 10 k).

(** The labels of the rows selected by a mask. *)
Definition indices_where (mask : list bool) : list Z :=
  select mask (seqZ 0 (Z.of_nat (length mask))).

(** [df.loc[labels, col]] within a column of [n] rows. *)
Definition loc_cells (v : column) (n : nat) (labels : list Z) : result (list cell) :=
  mapM (fun i => if decide (0 <= i < Z.of_nat n) then Return (cell_at v (Z.to_nat i))
                 else Raise (KeyError "row label")) labels.

(** [df.loc[labels, col] = np.nan] within a column. *)
Definition set_missing (labels : list Z) (v : column) : column :=
  match v with
  | NumCol xs => NumCol (foldl (fun xs i => <[Z.to_nat i := nan]> xs) xs labels)
  | TimeCol ts => TimeCol (foldl (fun ts i => <[Z.to_nat i := None]> ts) ts labels)
  end.

Section Engine.
Context {stats : Statistics} {learn : Learners}.

Definition create_validation_split (df : DataFrame) (power_columns : list string)
    (validation_ratio : float) : result (DataFrame * validation_info) :=
  mask ← complete_mask df power_columns;
  let complete_indices := indices_where mask in
  if decide (length complete_indices < 20)%nat then
    Return (df, ValidationError "Insufficient complete data for validation")
  else
    n ← n_validation (length complete_indices) validation_ratio;
    validation_indices ← np_random_choice complete_indices (Z.to_nat n);
    validation_data ←
      foldM (fun (data : gmap string (list cell)) col =>
               match col_lookup col (cols df) with
               | Some v =>
                   cells ← loc_cells v (nrows df) validation_indices;
                   Return (<[col := cells]> data)
               | None => Raise (KeyError col)
               end)
            ∅ power_columns;
    let cs :=
      foldl (fun cs col =>
               match col_lookup col cs with
               | Some v => col_set col (set_missing validation_indices v) cs
               | None => cs
               end)
            (cols df) power_columns in
    Return ({| nrows := nrows df; cols := cs |},
            ValidationInfo validation_indices validation_data
                           (Z.of_nat (length validation_indices))).

Record Results := {
  method_used : string;
  data_structure : Structure;
  validation_metrics : option (gmap string pyval);
  overall_metrics : option pyval;
  final_frame : DataFrame;
  interpolator_metadata : list (string * pyval);
  missing_values_filled : gmap string Z
}.

(** The column names the structure section declares; a document that
    declares anything else makes the first frame access fail. *)
Definition as_name (v : pyval) : result string :=
  match v with
  | PStr name => Return name
  | PList _ | PDict _ => Raise (TypeError "unhashable type")
  | _ => Raise (KeyError "column label")
  end.

Definition as_names (v : pyval) : result (list string) :=
  match v with
  | PList l => mapM as_name l
  | _ => Raise (TypeError "power_columns is not a list of column names")
  end.

(** [InterpolationConfig.validate_configuration]; its report is only
    printed. *)
Definition validate_configuration (self : InterpolationConfig) (method_name : string)
    : result unit :=
  method_config ← get_method_config self method_name;
  if negb (truthy method_config) then Return tt
  else
    _ ← (if decide (method_name = "multi_output_regression") then
           match method_config with
           | PDict _ | PList _ | PStr _ => Return tt
           | _ => Raise (TypeError "argument is not iterable")
           end
         else Return tt);
    _ ← py_get method_config "solar_constraints" (PDict ∅);
    Return tt.

Definition count_missing (df : DataFrame) (col : string) : option Z :=
  (fun v => Z.of_nat (count_true (col_isna v))) <$> col_lookup col (cols df).

(** [run_interpolation] on the loaded frame, gap-analysis document and
    weather frame; the files it writes are left out. *)
Definition run_interpolation (df : DataFrame) (gap_analysis : pyval)
    (method_name : option string) (validate : bool)
    (weather_data : option weather) : result Results :=
  structure ← extract_data_structure gap_analysis;
  if negb (truthy (time_column structure)) || negb (truthy (power_columns structure))
  then Raise (ValueError "Could not extract data structure from gap analysis")
  else
  method ← get_recommended_method gap_analysis method_name;
  resolved ← lookup_method method;
  let method := resolved.1 in
  let interpolator_class := resolved.2 in
  tc ← as_name (time_column structure);
  pcs ← as_names (power_columns structure);
  validation ←
    (if validate then
       split ← create_validation_split df pcs (literal 15 100);
       match split.2 with
       | ValidationError _ => Return None
       | ValidationInfo validation_indices validation_data _ =>
           interp_config ← new_InterpolationConfig gap_analysis;
           interpolator ←
             construct interpolator_class [("interpolation_config", interp_config)];
           interpolator ← fit interpolator split.1 pcs tc [weather_data];
           df_interpolated ← interpolate interpolator split.1 pcs tc [weather_data];
           metrics ←
             foldM (fun (metrics : gmap string pyval) col =>
                      match validation_data !! col with
                      | Some y_true =>
                          match col_lookup col (cols df_interpolated) with
                          | Some v =>
                              y_pred ← loc_cells v (nrows df_interpolated)
                                         validation_indices;
                              Return (<[col := calculate_metrics y_true y_pred
                                                  (method +:+ "_" +:+ col)]> metrics)
                          | None => Raise (KeyError col)
                          end
                      | None => Return metrics
                      end)
                   ∅ pcs;
           Return (Some metrics)
       end
     else Return None);
  interp_config ← new_InterpolationConfig gap_analysis;
  interpolator ← construct interpolator_class [("interpolation_config", interp_config)];
  _ ← validate_configuration interp_config method;
  interpolator ← fit interpolator df pcs tc [weather_data];
  df_final ← interpolate interpolator df pcs tc [weather_data];
  Return {|
    method_used := method;
    data_structure := structure;
    validation_metrics := validation;
    overall_metrics :=
      match validation with
      | Some metrics =>
          if bool_decide (metrics = ∅) then None else Some (average_metrics metrics)
      | None => None
      end;
    final_frame := df_final;
    interpolator_metadata := metadata interpolator;
    missing_values_filled :=
      foldl (fun (filled : gmap string Z) col =>
               match count_missing df col, count_missing df_final col with
               | Some original_missing, Some final_missing =>
                   <[col := original_missing - final_missing]> filled
               | _, _ => filled
               end)
            ∅ pcs
  |}.

End Engine.

End Interpolation.

(** ** Instances for evaluation

    The closed examples below run the model on concrete inputs.  They use a
    statistics instance whose random choice takes the first elements of the
    population and whose correlation is constantly 1, and a learner
    instance that trains nothing: none of the examples reaches a learner. *)

Definition sample_statistics : Statistics := {|
  intervals_mean_hours := fun _ => nan;
  intervals_std_hours := fun _ => nan;
  np_corrcoef := fun _ _ => of_int 1;
  np_random_choice := fun population size => Return (take size population)
|}.

Definition no_learners : Interpolation.Learners := {|
  Interpolation.weather := unit;
  Interpolation.feature_columns := fun _ _ => Return [];
  Interpolation.interp1d_cubic := fun _ _ => Raise (ValueError "no spline library");
  Interpolation.gp_model := unit;
  Interpolation.gp_train := fun _ _ _ => Raise (ValueError "no regressor");
  Interpolation.gp_predict := fun _ _ _ => Raise (ValueError "no regressor");
  Interpolation.system_parameter := unit;
  Interpolation.estimate_parameters := fun _ => tt;
  Interpolation.calculate_theoretical_solar_curve := fun hours _ => map (fun _ => nan) hours;
  Interpolation.lgb_model := unit;
  Interpolation.train_with_correlation := fun _ _ _ _ => Raise (ValueError "no regressor");
  Interpolation.train_independent := fun _ _ _ => Raise (ValueError "no regressor");
  Interpolation.train_joint := fun _ _ _ _ => Raise (ValueError "no regressor");
  Interpolation.predict_missing := fun _ _ _ _ _ _ => Raise (ValueError "no regressor");
  Interpolation.calculate_metrics := fun _ _ _ => PNone;
  Interpolation.average_metrics := fun _ => PNone
|}.

(** Sample inputs: an hourly frame with one power column, starting at the
    hour [start] of 1970-01-01, a gap-analysis document around a
    recommendations section, and a frame whose time column is named
    [hour]. *)

Definition hours (h : Z) : timestamp := Some (h * 3600000000000).

Definition sample_frame (start : Z) (power : list float) : DataFrame :=
  {| nrows := length power;
     cols := [("Time", TimeCol (map hours (seqZ start (Z.of_nat (length power)))));
              ("power", NumCol power)] |}.

Definition sample_document (recommendations : gmap string pyval) : pyval :=
  PDict {[ "structure" := PDict {[ "time_column" := PStr "Time";
                                   "power_columns" := PList [PStr "power"] ]};
           "recommendations" := PDict recommendations ]}.

Definition hour_frame : DataFrame :=
  {| nrows := 2;
     cols := [("hour", TimeCol [hours 3; hours 12]);
              ("power", NumCol [of_int 5; SFopp (of_int 3)])] |}.

(** ** Predicates of the statements and of the proofs *)

(** The contract of numpy's choice without replacement: as many elements
    as asked for, all of the population, distinct when the population is. *)
Definition choice_without_replacement (stats : Statistics) : Prop :=
  forall (population : list Z) (size : nat),
    (size <= length population)%nat ->
    exists chosen,
      np_random_choice population size = Return chosen
      /\ length chosen = size
      /\ chosen ⊆ population
      /\ (NoDup population -> NoDup chosen).

(** The state of a scan of the gap detector in which no gap begins at the
    first row. *)
Definition starts_later (st : GapAnalysis.scan_state) : Prop :=
  match st with
  | (cur, _, gaps) =>
      (forall s, cur = Some s -> (0 < s)%nat)
      /\ Forall (fun g => 0 < Gap.start_index g) gaps
  end.

(** The values of a power column after the post-processor. *)
Definition constrained (night_mask : list bool) (xs : list float) : list float :=
  Interpolation.clip_lower (Interpolation.set_where night_mask zero xs).

(** A column that the post-processor leaves as it is. *)
Definition settled (night_mask : list bool) (cs : list (string * column))
    (col : string) : Prop :=
  exists xs, col_lookup col cs = Some (NumCol xs) /\ constrained night_mask xs = xs.

(** The state of the shift register of a rounding after [k] shifts of
    [P]: the quotient by [2^k], and the position of the remainder with
    respect to one half of [2^k]. *)
Definition shifted (P k : Z) (mrs : shr_record) : Prop :=
  0 <= shr_m mrs
  /\ exists rem, P = shr_m mrs * 2 ^ k + rem /\ 0 <= rem < 2 ^ k
     /\ match shr_r mrs, shr_s mrs with
        | false, false => rem = 0
        | false, true => 0 < rem /\ 2 * rem < 2 ^ k
        | true, false => 2 * rem = 2 ^ k
        | true, true => 2 ^ k < 2 * rem
        end.

Import GapAnalysis Interpolation.

(** ** Enhanced analysis ([models/gap_analysis.py]) *)

Module SolarGapAnalyzer.

(** *** Values of a row *)

(** [pd.notna(v)] of a cell. *)
Definition cell_notna (c : cell) : bool :=
  match c with
  | CTime t => bool_decide (t <> None)
  | CNum x => notna x
  end.

(** [p > z] and [p < z] for a cell [p] that is not missing and an integer
    [z]: a timestamp does not compare with an integer. *)
Definition cell_gt (z : Z) (p : cell) : result bool :=
  match p with
  | CNum x => Return (gtb x (of_int z))
  | CTime _ =>
      Raise (TypeError "'>' not supported between instances of 'Timestamp' and 'int'")
  end.

Definition cell_lt (z : Z) (p : cell) : result bool :=
  match p with
  | CNum x => Return (ltb x (of_int z))
  | CTime _ =>
      Raise (TypeError "'<' not supported between instances of 'Timestamp' and 'int'")
  end.

(** [p == 0]: true for both zeros, false for a timestamp. *)
Definition cell_is_zero (p : cell) : bool :=
  match p with
  | CNum (S754_zero _) => true
  | _ => false
  end.

(** [any(f(p) for p in l)]: stops at the first [True], or at the first
    exception. *)
Fixpoint any {A} (f : A -> result bool) (l : list A) : result bool :=
  match l with
  | [] => Return false
  | p :: l' => b ← f p; if b : bool then Return true else any f l'
  end.

(** *** Solar-physics violations *)

Record Violations := {
  nighttime_data_present : Z;
  daytime_zero_unexpected : Z;
  power_exceeds_capacity : Z;
  negative_power : Z;
  total_violations : Z
}.

Definition no_violations : Violations :=
  {| nighttime_data_present := 0; daytime_zero_unexpected := 0;
     power_exceeds_capacity := 0; negative_power := 0; total_violations := 0 |}.

Definition count (b : bool) : Z := if b then 1 else 0.

(** [row[col]] in the row [i] of the frame. *)
Definition row_value (cs : list (string * column)) (i : nat) (col : string)
    : result cell :=
  match col_lookup col cs with
  | Some v => Return (cell_at v i)
  | None => Raise (KeyError col)
  end.

(** [9 <= hour <= 15], false at NaT. *)
Definition midday (t : timestamp) : bool :=
  match t with
  | Some z => (9 <=? hour_of z) && (hour_of z <=? 15)
  | None => false
  end.

(** The body of the loop over the rows, for the row [i]; [row['hour']] is
    the hour of the time [t] of the row. *)
Definition check_row (cs : list (string * column)) (ts : list timestamp)
    (power_columns : list string) (violations : Violations) (i : nat)
    : result Violations :=
  let t := default None (ts !! i) in
  values ← mapM (row_value cs i) power_columns;
  let power_vals := List.filter cell_notna values in
  match power_vals with
  | [] => Return violations
  | _ =>
      at_night ← (if night t then any (cell_gt 10) power_vals else Return false);
      let zero_by_day := midday t && forallb cell_is_zero power_vals in
      negative ← any (cell_lt 0) power_vals;
      exceeding ← any (cell_gt 10000) power_vals;
      Return {| nighttime_data_present := nighttime_data_present violations + count at_night;
                daytime_zero_unexpected :=
                  daytime_zero_unexpected violations + count zero_by_day;
                power_exceeds_capacity :=
                  power_exceeds_capacity violations + count exceeding;
                negative_power := negative_power violations + count negative;
                total_violations := total_violations violations |}
  end.

(** The time column is the one named [Time], whatever the detected
    structure; the scratch column [hour] is written into the copy. *)
Definition _analyze_solar_physics_violations (df : DataFrame)
    (power_columns : list string) : result Violations :=
  match col_lookup "Time" (cols df) with
  | None => Return no_violations
  | Some v =>
      ts ← to_datetime v;
      let cs := col_set "hour" (NumCol (hour_column ts))
                  (col_set "Time" (TimeCol ts) (cols df)) in
      violations ← foldM (check_row cs ts power_columns) no_violations
                      (seq 0 (nrows df));
      Return {| nighttime_data_present := nighttime_data_present violations;
                daytime_zero_unexpected := daytime_zero_unexpected violations;
                power_exceeds_capacity := power_exceeds_capacity violations;
                negative_power := negative_power violations;
                total_violations :=
                  nighttime_data_present violations + daytime_zero_unexpected violations
                  + power_exceeds_capacity violations + negative_power violations
                  + total_violations violations |}
  end.

(** *** Gap impact *)

Inductive impact_level := impact_low | impact_medium | impact_high.

Record Impact := {
  daily_energy_calculation : impact_level;
  peak_power_analysis : impact_level;
  performance_ratio_calculation : impact_level;
  fault_detection : impact_level;
  overall_impact : impact_level
}.

(** The truth value of [gap.get('start_time')]: [None] is false, a
    timestamp is true, NaT included, a number is true unless it is 0. *)
Definition has_start_time (g : Gap.t) : bool :=
  match Gap.start_time g with
  | None => false
  | Some (CTime _) => true
  | Some (CNum (S754_zero _)) => false
  | Some (CNum _) => true
  end.

(** [pd.to_datetime(gap['start_time'])] *)
Definition start_timestamp (g : Gap.t) : result timestamp :=
  match Gap.start_time g with
  | Some (CTime t) => Return t
  | Some (CNum x) => ts ← to_datetime (NumCol [x]); Return (default None (head ts))
  | None => Return None
  end.

(** [10 <= start_hour <= 14 or (start_hour < 10 and start_hour + length > 10)];
    the hour of NaT is NaN, which makes every comparison false. *)
Definition in_peak_hours (t : timestamp) (length : Z) : bool :=
  match t with
  | Some z =>
      let start_hour := hour_of z in
      ((10 <=? start_hour) && (start_hour <=? 14))
      || ((start_hour <? 10) && (10 <? start_hour + length))
  | None => false
  end.

(** The body of the loop over the gaps: the counts of the gaps at peak
    hours, of a day or more, and of two rows or fewer. *)
Definition tally_gap (counts : Z * Z * Z) (gap : Gap.t) : result (Z * Z * Z) :=
  let '(peak_hour_gaps, full_day_gaps, short_gaps) := counts in
  if negb (has_start_time gap) then Return counts
  else
    t ← start_timestamp gap;
    let length := Gap.length gap in
    Return (peak_hour_gaps + count (in_peak_hours t length),
            full_day_gaps + count (24 <=? length),
            short_gaps + count (length <=? 2)).

Definition is_high (l : impact_level) : bool :=
  match l with impact_high => true | _ => false end.

Definition _assess_gap_impact (gaps : list Gap.t) (df : DataFrame) : result Impact :=
  let impact := {| daily_energy_calculation := impact_low;
                   peak_power_analysis := impact_low;
                   performance_ratio_calculation := impact_low;
                   fault_detection := impact_low;
                   overall_impact := impact_low |} in
  match gaps, col_lookup "Time" (cols df) with
  | [], _ | _, None => Return impact
  | _, Some v =>
      _ ← to_datetime v;
      counts ← foldM tally_gap (0, 0, 0) gaps;
      let '(peak_hour_gaps, full_day_gaps, short_gaps) := counts in
      let n := Z.of_nat (length gaps) in
      let peak := if exceeds peak_hour_gaps n (literal 3 10)
                  then impact_high else impact_low in
      let performance := if exceeds full_day_gaps n (literal 1 10)
                         then impact_high else impact_low in
      let fault := if exceeds short_gaps n (literal 5 10)
                   then impact_high else impact_low in
      let high_impacts :=
        count (is_high peak) + count (is_high peak) + count (is_high performance)
        + count (is_high fault) + count (is_high impact_low) in
      Return {| daily_energy_calculation := peak;
                peak_power_analysis := peak;
                performance_ratio_calculation := performance;
                fault_detection := fault;
                overall_impact :=
                  if 2 <=? high_impacts then impact_high
                  else if high_impacts =? 1 then impact_medium
                  else impact_low |}
  end.

(** *** Cross-equipment correlation and pattern summary *)

Record CrossCorrelation := {
  simultaneous_failures : label;
  independent_failures : label;
  cascading_failures : label
}.

Record TemporalClustering := {
  clustered : label;
  distributed : label;
  seasonal : label
}.

(** The analysed columns: the dictionary [analysis['columns']], in
    insertion order, with the stored gaps of each column. *)
Definition Columns : Type := list (string * list Gap.t).

(** The start times of the gaps of a column that have one. *)
Definition gap_start_times (gaps : list Gap.t) : result (list timestamp) :=
  mapM start_timestamp (List.filter has_start_time gaps).

(** [abs((t1 - t2).total_seconds()) < 3600]: the two times are less
    than an hour apart; false when one of them is NaT.  The difference
    of two timestamps is a Timedelta, a 64-bit number of nanoseconds:
    pandas raises when it does not fit (OutOfBoundsTimedelta, a
    ValueError; an OverflowError in older versions). *)
Definition within_hour (t1 t2 : timestamp) : result bool :=
  match t1, t2 with
  | Some a, Some b =>
      if decide (- 9223372036854775808 < a - b < 9223372036854775808) then
        Return (Z.abs (a - b) <? 3600000000000)
      else Raise (ValueError "Result is too large for pandas.Timedelta")
  | _, _ => Return false
  end.

(** The body of the inner loop, on the counters
    [(simultaneous_count, total_overlaps)]. *)
Definition count_pair (t1 : timestamp) (counters : Z * Z) (t2 : timestamp)
    : result (Z * Z) :=
  simultaneous ← within_hour t1 t2;
  Return (counters.1 + count simultaneous, counters.2 + 1).

(** The two nested loops over the times of two columns. *)
Definition count_pairs (col1_times col2_times : list timestamp) (counters : Z * Z)
    : result (Z * Z) :=
  foldM (fun counters t1 => foldM (count_pair t1) counters col2_times)
        counters col1_times.

(** The loops over the pairs of columns [i < j]. *)
Fixpoint count_all_pairs (all_gap_times : list (list timestamp)) (counters : Z * Z)
    : result (Z * Z) :=
  match all_gap_times with
  | [] => Return counters
  | col1_times :: rest =>
      counters ← foldM (fun counters col2_times =>
                          count_pairs col1_times col2_times counters)
                       counters rest;
      count_all_pairs rest counters
  end.

Definition _analyze_cross_equipment_correlation (columns : Columns)
    : result CrossCorrelation :=
  let correlation_analysis :=
    {| simultaneous_failures := unknown; independent_failures := unknown;
       cascading_failures := unknown |} in
  if decide (length columns < 2)%nat then Return correlation_analysis else
  all_gap_times ← mapM (fun kv => gap_start_times kv.2) columns;
  counters ← count_all_pairs all_gap_times (0, 0);
  let '(simultaneous_count, total_overlaps) := counters in
  if 0 <? total_overlaps then
    let overlap_ratio := div (of_int simultaneous_count) (of_int total_overlaps) in
    if gtb overlap_ratio (literal 3 10) then
      Return {| simultaneous_failures := high; independent_failures := unknown;
                cascading_failures := unknown |}
    else if gtb overlap_ratio (literal 1 10) then
      Return {| simultaneous_failures := moderate; independent_failures := unknown;
                cascading_failures := unknown |}
    else
      Return {| simultaneous_failures := unknown; independent_failures := high;
                cascading_failures := unknown |}
  else Return correlation_analysis.

Definition label_is (l l' : label) : bool :=
  match l, l' with
  | unknown, unknown | low, low | moderate, moderate | high, high
  | detected, detected | improving, improving | stable, stable
  | weekly, weekly | monthly, monthly | regular, regular => true
  | _, _ => false
  end.

(** The summary and its [interpolation_complexity]. *)
Definition _generate_pattern_summary (cross_corr : CrossCorrelation)
    (temporal : TemporalClustering) (failure_types : list (string * Patterns))
    : PatternSummary * string :=
  let '(primary_pattern, interpolation_complexity) :=
    if label_is (simultaneous_failures cross_corr) high then
      ("system_wide_failures", "high")
    else if label_is (independent_failures cross_corr) high then
      ("individual_equipment_failures", "medium")
    else ("unknown", "unknown") in
  let secondary_patterns :=
    (if label_is (clustered temporal) high then ["temporal_clustering"] else [])
    ++ (if label_is (seasonal temporal) high then ["seasonal_patterns"] else [])
    ++ concat (map (fun kv : string * Patterns =>
                      (if label_is (degradation kv.2) detected
                       then ["equipment_degradation"] else [])
                      ++ (if negb (label_is (maintenance_like kv.2) unknown)
                          then ["maintenance_patterns"] else [])
                      ++ (if label_is (randomness kv.2) high
                          then ["random_failures"] else []))
                   failure_types) in
  ({| primary_pattern := primary_pattern; secondary_patterns := secondary_patterns |},
   interpolation_complexity).

(** *** The entry of the classifier and of the recommender *)

(** What [classify_failure_patterns] and [recommend_methods_generic] read
    of the analysis: the [error] entry when the analysis has one, the
    analysed columns ([analysis.get('columns', {})], in which the
    analysis puts the columns that have gaps) and the overall gap-length
    distribution ([overall_stats.gap_length_distribution], empty when
    absent). *)
Record Analysis := {
  analysis_error : option string;
  analysis_columns : Columns;
  gap_length_distribution : gmap string Z
}.

(** What either function returns: the dictionary [{'error': ...}], or
    its result. *)
Inductive outcome (A : Type) :=
| ErrorDict (error : string)
| Done (a : A).
Arguments ErrorDict {A} error.
Arguments Done {A} a.

Section Recommender.

(** The loop of [classify_failure_patterns] that classifies the columns
    one by one, and [_analyze_temporal_clustering], are parameters: they
    work on calendar dates and on series of timestamps that may hold
    NaT. *)
Variable classify_columns : Columns -> result (list (string * Patterns)).
Variable _analyze_temporal_clustering : Columns -> result TemporalClustering.

(** [classify_failure_patterns], with the pattern summary of the
    patterns it returns. *)
Definition classify_failure_patterns (analysis : Analysis)
    : result (outcome PatternSummary) :=
  match analysis_error analysis with
  | Some error => Return (ErrorDict error)
  | None =>
      let columns := analysis_columns analysis in
      match columns with
      | [] => Return (ErrorDict "No column data available for pattern analysis")
      | _ =>
          failure_types ← classify_columns columns;
          cross_corr ← _analyze_cross_equipment_correlation columns;
          temporal ← _analyze_temporal_clustering columns;
          Return (Done (_generate_pattern_summary cross_corr temporal failure_types).1)
      end
  end.

(** [recommend_methods_generic(analysis)]: the early returns of the
    function, then the selection [GapAnalysis.recommend_methods_generic]
    from the pattern summary and the distribution. *)
Definition recommend_methods_of_analysis (analysis : Analysis)
    : result (outcome Recommendations) :=
  match analysis_error analysis with
  | Some error => Return (ErrorDict error)
  | None =>
      patterns ← classify_failure_patterns analysis;
      match patterns with
      | ErrorDict error => Return (ErrorDict error)
      | Done pattern_summary =>
          Return (Done (recommend_methods_generic pattern_summary
                          (gap_length_distribution analysis)))
      end
  end.

End Recommender.

End SolarGapAnalyzer.

(** ** Configuration ([models/gap_analysis.py], [models/interpolation.py]) *)

Module Configuration.

(** The [configuration] section that the recommender adds to its
    recommendations, from the method parameters it has chosen and the
    number of analysed columns. *)
Definition configuration (method_parameters : gmap string bool) (n_columns : nat)
    : pyval :=
  let solar_constraints : gmap string pyval :=
    {[ "nighttime_zero" := PBool true; "negative_clipping" := PBool true ]} in
  PDict {[
    "multi_output_regression" := PDict {[
      "model_equipment_independently" :=
        PBool (default true (method_parameters !! "model_equipment_independently"));
      "use_equipment_correlation" :=
        PBool (default true (method_parameters !! "use_equipment_correlation"));
      "correlation_features" :=
        PList (if decide (3 <= n_columns)%nat
               then [PStr "inverter_1"; PStr "inverter_2"; PStr "inverter_3"] else []);
      "shared_features" := PList [PStr "weather_data"; PStr "time_features"];
      "apply_solar_constraints" := PBool true;
      "solar_constraints" := PDict {[
        "nighttime_zero" := PBool true;
        "max_power_limits" := PDict {[ "inverter_1" := PInt 1500;
                                       "inverter_2" := PInt 1500;
                                       "inverter_3" := PInt 1500 ]};
        "negative_clipping" := PBool true;
        "max_efficiency" := PFloat (literal 95 100) ]};
      "model_parameters" := PDict {[
        "n_estimators" := PInt 200; "max_depth" := PInt 6;
        "learning_rate" := PFloat (literal 1 10);
        "feature_fraction" := PFloat (literal 9 10);
        "random_state" := PInt 42 ]} ]};
    "spline_interpolation" := PDict {[
      "method" := PStr "cubic"; "fill_value" := PStr "extrapolate";
      "apply_solar_constraints" := PBool true;
      "solar_constraints" := PDict solar_constraints ]};
    "gaussian_process" := PDict {[
      "kernel" := PStr "rbf"; "alpha" := PFloat (literal 1 1000000);
      "apply_solar_constraints" := PBool true;
      "solar_constraints" := PDict solar_constraints ]};
    "physics_based_model" := PDict {[
      "use_solar_position" := PBool true; "use_weather_correlation" := PBool true;
      "apply_solar_constraints" := PBool true;
      "solar_constraints" := PDict (<["max_efficiency" := PFloat (literal 95 100)]>
                                      solar_constraints) ]} ]}.

(** The report of [InterpolationConfig.validate_configuration]. *)
Record Validation := {
  valid : bool;
  warnings : list string;
  errors : list string
}.

Definition validate_configuration (self : InterpolationConfig) (method_name : string)
    : result Validation :=
  method_config ← get_method_config self method_name;
  if negb (truthy method_config) then
    Return {| valid := false; warnings := [];
              errors := ["No configuration found for method: " +:+ method_name] |}
  else
    match method_config with
    | PDict d =>
        let missing :=
          if decide (method_name = "multi_output_regression") then
            omap (fun param => match d !! param with
                               | None => Some ("Missing parameter: " +:+ param)
                               | Some _ => None
                               end)
                 ["model_equipment_independently"; "use_equipment_correlation"]
          else [] in
        let solar_constraints := default (PDict ∅) (d !! "solar_constraints") in
        Return {| valid := true;
                  warnings := missing ++ (if negb (truthy solar_constraints)
                                          then ["No solar constraints specified"]
                                          else []);
                  errors := [] |}
    | PList _ | PStr _ => Raise (AttributeError "object has no attribute 'get'")
    | _ =>
        if decide (method_name = "multi_output_regression")
        then Raise (TypeError "argument is not iterable")
        else Raise (AttributeError "object has no attribute 'get'")
    end.

End Configuration.

Import SolarGapAnalyzer.

(** ** Predicates and sample inputs of the further properties *)

(** The missing cell of a column: NaT or NaN. *)
Definition missing_cell (v : column) : cell :=
  match v with TimeCol _ => CTime None | NumCol _ => CNum nan end.

(** A gap record that describes a maximal run of missing rows after a
    known value: the row before its first row is known, its rows are
    missing, and the row after its last row is known or does not exist. *)
Definition missing_run (is_missing : list bool) (g : Gap.t) : Prop :=
  1 <= Gap.start_index g <= Gap.end_index g
  /\ Gap.length g = Gap.end_index g - Gap.start_index g + 1
  /\ is_missing !! Z.to_nat (Gap.start_index g - 1) = Some false
  /\ (forall j : nat, Gap.start_index g <= Z.of_nat j <= Gap.end_index g ->
        is_missing !! j = Some true)
  /\ (is_missing !! Z.to_nat (Gap.end_index g + 1) = Some false
      \/ Gap.end_index g + 1 = Z.of_nat (length is_missing)).

(** The times of a gap record are the cells of the time column at its
    first and last row, when the frame has that column. *)
Definition gap_times (df : DataFrame) (time_col : string) (g : Gap.t) : Prop :=
  Gap.start_time g = time_at df time_col (Z.to_nat (Gap.start_index g))
  /\ Gap.end_time g = time_at df time_col (Z.to_nat (Gap.end_index g)).

(** [sum(gap['length'] for gap in gaps)], the [total_missing_values] that
    the analysis reports for a column. *)
Definition total_missing_values (gaps : list Gap.t) : Z :=
  foldr (fun g total => Gap.length g + total) 0 gaps.

(** The number of missing rows that come after a known value. *)
Fixpoint missing_after_known (is_missing : list bool) : nat :=
  match is_missing with
  | [] => 0
  | true :: l => missing_after_known l
  | false :: l => count_true l
  end.

(** The state of the scan of the detector after [i] rows. *)
Definition scanned (df : DataFrame) (time_col : string) (is_missing : list bool)
    (i : nat) (st : scan_state) : Prop :=
  match st with
  | (cur, len, gaps) =>
      Forall (fun g => missing_run is_missing g /\ gap_times df time_col g
                       /\ Gap.end_index g + 1 < Z.of_nat i) gaps
      /\ StronglySorted (fun g h => Gap.end_index g + 1 < Gap.start_index h) gaps
      /\ match cur with
         | Some s =>
             (1 <= s < i)%nat /\ len = Z.of_nat i - Z.of_nat s
             /\ is_missing !! (s - 1)%nat = Some false
             /\ (forall j, (s <= j < i)%nat -> is_missing !! j = Some true)
             /\ Forall (fun g => Gap.end_index g + 1 < Z.of_nat s) gaps
         | None =>
             i = 0%nat \/ is_missing !! (i - 1)%nat = Some false
             \/ (forall j, (j < i)%nat -> is_missing !! j = Some true)
         end
      /\ (forall j, (j < i)%nat -> is_missing !! j = Some true ->
            (exists k, (k < j)%nat /\ is_missing !! k = Some false) ->
            (exists g, g ∈ gaps
                       /\ Gap.start_index g <= Z.of_nat j <= Gap.end_index g)
            \/ (exists s, cur = Some s /\ (s <= j)%nat))
      /\ total_missing_values gaps + match cur with Some _ => len | None => 0 end
         = Z.of_nat (missing_after_known (take i is_missing))
  end.

(** The value of the row before row [i], [false] for the first row. *)
Definition before (l : list bool) (i : nat) : bool :=
  match i with O => false | S k => default false (l !! k) end.

(** A value that the post-processor can leave in the row of time [t]. *)
Definition admissible (t : timestamp) (c : cell) : Prop :=
  exists y, c = CNum y
    /\ (isna y = true \/ ((night t = true -> y = zero) /\ geb y zero = true)).

(** A gap that starts in the hours 10 to 14. *)
Definition starts_at_peak (g : Gap.t) : Prop :=
  exists z, Gap.start_time g = Some (CTime (Some z)) /\ 10 <= hour_of z <= 14.

(** Every gap of a column starts an hour or more from every gap of
    another column (or has no time), the differences being Timedeltas. *)
Fixpoint apart (all_gap_times : list (list timestamp)) : Prop :=
  match all_gap_times with
  | [] => True
  | col1_times :: rest =>
      Forall (fun col2_times =>
                forall t1 t2, t1 ∈ col1_times -> t2 ∈ col2_times ->
                  within_hour t1 t2 = Return false) rest
      /\ apart rest
  end.

(** The number of pairs of gaps of two different columns. *)
Fixpoint n_pairs (all_gap_times : list (list timestamp)) : Z :=
  match all_gap_times with
  | [] => 0
  | col1_times :: rest =>
      Z.of_nat (length col1_times) * Z.of_nat (length (concat rest)) + n_pairs rest
  end.

(** One analysed column with one gap, and a temporal analysis that
    found nothing. *)
Definition one_column : Columns :=
  [("power", [ {| Gap.start_index := 1; Gap.end_index := 1; Gap.length := 1;
                  Gap.start_time := Some (CTime (hours 1));
                  Gap.end_time := Some (CTime (hours 1)) |} ])].

Definition no_clustering : TemporalClustering :=
  {| clustered := unknown; distributed := unknown; seasonal := unknown |}.

(** Two columns with one gap each, four hours apart. *)
Definition two_columns : Columns :=
  [("inverter_1", [ {| Gap.start_index := 1; Gap.end_index := 1; Gap.length := 1;
                       Gap.start_time := Some (CTime (hours 1));
                       Gap.end_time := Some (CTime (hours 1)) |} ]);
   ("inverter_2", [ {| Gap.start_index := 5; Gap.end_index := 6; Gap.length := 2;
                       Gap.start_time := Some (CTime (hours 5));
                       Gap.end_time := Some (CTime (hours 6)) |} ])].

(** The columns [cs] hold the known values of the columns [cs0]: every
    column of numbers of [cs0] is in [cs] with the same length and the
    same values where [cs0] has one, and every column of timestamps is
    unchanged. *)
Definition keeps_known (cs0 cs : list (string * column)) : Prop :=
  forall col,
    match col_lookup col cs0 with
    | Some (NumCol xs) =>
        exists zs, col_lookup col cs = Some (NumCol zs)
          /\ length zs = length xs
          /\ forall i x, xs !! i = Some x -> notna x = true -> zs !! i = Some x
    | Some (TimeCol ts) => col_lookup col cs = Some (TimeCol ts)
    | None => True
    end.

(** A physics-based instance that holds the parameters of an earlier fit
    on a column named [old]. *)
Definition fitted_on_old : interpolator (learn := no_learners) :=
  {| cls := PhysicsBasedInterpolator; is_fitted := true; metadata := [];
     interp_config := None; gp_models := ∅;
     system_parameters := {[ "old" := tt ]}; model := ModelNone |}.

(** A pattern summary of random individual failures, the recommendations
    for it, and a gap-analysis document that holds them with their
    configuration section. *)
Definition random_failures : PatternSummary :=
  {| primary_pattern := "individual_equipment_failures";
     secondary_patterns := ["random_failures"] |}.

Definition configured_recommendations : gmap string pyval :=
  {[ "configuration" :=
       Configuration.configuration
         (method_parameters (recommend_methods_generic random_failures {[ "1h" := 1 ]}))
         1 ]}.

Definition configured_document : gmap string pyval :=
  {[ "recommendations" := PDict configured_recommendations ]}.

Definition configured_interpolator : interpolator (learn := no_learners) :=
  {| cls := MultiOutputRegressionInterpolator; is_fitted := false; metadata := [];
     interp_config :=
       Some {| gap_analysis := PDict configured_document;
               recommendations := PDict configured_recommendations;
               config := Configuration.configuration
                           (method_parameters
                              (recommend_methods_generic random_failures {[ "1h" := 1 ]}))
                           1 |};
     gp_models := ∅; system_parameters := ∅; model := ModelNone |}.

(** * Properties *)

(** Settles every integer comparison of the goal that [lia] decides. *)
Ltac decide_comparisons :=
  repeat match goal with
  | |- context [?a <=? ?b] =>
      first [ rewrite (proj2 (Z.leb_le a b)) by lia
            | rewrite (proj2 (Z.leb_gt a b)) by lia ]
  | |- context [?a <? ?b] =>
      first [ rewrite (proj2 (Z.ltb_lt a b)) by lia
            | rewrite (proj2 (Z.ltb_ge a b)) by lia ]
  end.

(** ** Gap-length binning *)

Section Binning.

Lemma dist_total_insert (m : gmap string Z) (k : string) (v : Z) :
m !! k = None -> dist_total (<[k := v]> m) = v + dist_total m.
Proof.
intros Hk. unfold dist_total.
apply (map_fold_insert_L (fun _ v acc => v + acc)); [|exact Hk].
intros; lia.
Qed.

Lemma dist_total_empty : dist_total ∅ = 0.
Proof. unfold dist_total. apply map_fold_empty. Qed.

Lemma count_in_cons P x a :
count_in P (x :: a) = (if P x then 1 else 0) + count_in P a.
Proof. unfold count_in. simpl. destruct (P x); simpl length; lia. Qed.

Lemma count_in_bounds P a : 0 <= count_in P a <= Z.of_nat (length a).
Proof.
induction a as [|x a IH]; [unfold count_in; simpl; lia|].
rewrite count_in_cons. simpl length. destruct (P x); lia.
Qed.

(** The eight bins partition the range from 1 to 1000. *)
Lemma bins_partition (a : list Z) :
count_in (fun x => (1 <=? x) && (x <? 2)) a
+ count_in (fun x => (2 <=? x) && (x <? 3)) a
+ count_in (fun x => (3 <=? x) && (x <? 6)) a
+ count_in (fun x => (6 <=? x) && (x <? 12)) a
+ count_in (fun x => (12 <=? x) && (x <? 24)) a
+ count_in (fun x => (24 <=? x) && (x <? 48)) a
+ count_in (fun x => (48 <=? x) && (x <? 168)) a
+ count_in (fun x => (168 <=? x) && (x <=? 1000)) a
= count_in (fun x => (1 <=? x) && (x <=? 1000)) a.
Proof.
induction a as [|x a IH]; [reflexivity|].
rewrite !count_in_cons.
assert (Hx : x < 1 \/ 1 <= x < 2 \/ 2 <= x < 3 \/ 3 <= x < 6 \/ 6 <= x < 12
             \/ 12 <= x < 24 \/ 24 <= x < 48 \/ 48 <= x < 168
             \/ 168 <= x <= 1000 \/ 1000 < x) by lia.
repeat destruct Hx as [Hx|Hx]; decide_comparisons; simpl; lia.
Qed.

End Binning.

(** C10.  For every list of gap lengths, the binning with the default
    configuration returns a distribution whose keys are exactly the eight
    labels 1h, 2h, 3h, 6h, 12h, 1d, 2d and 1w; the ninth configured label
    >1w is never a key.  Every bin counts the lengths from its left edge
    (included) to its right edge (excluded), except the last one, 1w, which
    counts the lengths from 168 to 1000, both included: a gap of 6 is
    counted in 6h, one of 168 in 1w.  The counts add up to the number of
    lengths between 1 and 1000, which may be smaller than the number of
    gaps. *)
Theorem C10_bin_gap_lengths (gap_lengths : list Z) :
  exists distribution : gmap string Z,
    _bin_gap_lengths _default_config gap_lengths = Return distribution
    /\ dom distribution
       = ({[ "1h"; "2h"; "3h"; "6h"; "12h"; "1d"; "2d"; "1w" ]} : gset string)
    /\ distribution !! ">1w" = None
    /\ distribution !! "1h" = Some (count_in (fun x => (1 <=? x) && (x <? 2)) gap_lengths)
    /\ distribution !! "2h" = Some (count_in (fun x => (2 <=? x) && (x <? 3)) gap_lengths)
    /\ distribution !! "3h" = Some (count_in (fun x => (3 <=? x) && (x <? 6)) gap_lengths)
    /\ distribution !! "6h" = Some (count_in (fun x => (6 <=? x) && (x <? 12)) gap_lengths)
    /\ distribution !! "12h" = Some (count_in (fun x => (12 <=? x) && (x <? 24)) gap_lengths)
    /\ distribution !! "1d" = Some (count_in (fun x => (24 <=? x) && (x <? 48)) gap_lengths)
    /\ distribution !! "2d" = Some (count_in (fun x => (48 <=? x) && (x <? 168)) gap_lengths)
    /\ distribution !! "1w" = Some (count_in (fun x => (168 <=? x) && (x <=? 1000)) gap_lengths)
    /\ dist_total distribution
       = count_in (fun x => (1 <=? x) && (x <=? 1000)) gap_lengths
    /\ dist_total distribution <= Z.of_nat (length gap_lengths).
Proof.
  eexists. split; [reflexivity|].
  split; [rewrite !dom_insert_L, dom_empty_L; set_solver|].
  split; [reflexivity|].
  do 8 (split; [reflexivity|]).
  assert (Hsum : dist_total
    (<["1w":=count_in (fun x => (168 <=? x) && (x <=? 1000)) gap_lengths]>
     (<["2d":=count_in (fun x => (48 <=? x) && (x <? 168)) gap_lengths]>
      (<["1d":=count_in (fun x => (24 <=? x) && (x <? 48)) gap_lengths]>
       (<["12h":=count_in (fun x => (12 <=? x) && (x <? 24)) gap_lengths]>
        (<["6h":=count_in (fun x => (6 <=? x) && (x <? 12)) gap_lengths]>
         (<["3h":=count_in (fun x => (3 <=? x) && (x <? 6)) gap_lengths]>
          (<["2h":=count_in (fun x => (2 <=? x) && (x <? 3)) gap_lengths]>
           (<["1h":=count_in (fun x => (1 <=? x) && (x <? 2)) gap_lengths]> ∅))))))))
    = count_in (fun x => (1 <=? x) && (x <=? 1000)) gap_lengths).
  { rewrite !dist_total_insert by reflexivity.
    rewrite dist_total_empty, <- bins_partition. lia. }
  split; [exact Hsum|].
  etransitivity; [apply Z.eq_le_incl, Hsum|]. apply count_in_bounds.
Qed.

(** The two boundary values of the binning: a single gap of length 6 is in
    the bin 6h, a single gap of length 168 in the bin 1w. *)
Example bin_boundaries :
  (d ← _bin_gap_lengths _default_config [6]; Return (d !! "6h", d !! "3h"))
  = Return (Some 1, Some 0)
  /\ (d ← _bin_gap_lengths _default_config [168]; Return (d !! "1w", d !! "2d"))
     = Return (Some 1, Some 0)
  /\ (d ← _bin_gap_lengths _default_config [1001; 0]; Return (dist_total d))
     = Return 0.
Proof. repeat split. Qed.

(** ** Gap detector *)

Section GapDetector.
Variables (df : DataFrame) (time_col : string).

(** Without a start flag, a scan that is outside a gap stays outside. *)
Lemma scan_step_idle len gaps i missing gap_end :
  scan_step df time_col (None, len, gaps) (i, (missing, false, gap_end))
  = (None, len, gaps).
Proof. unfold scan_step. simpl. rewrite !andb_false_r. reflexivity. Qed.

Lemma scan_idle items len gaps :
  Forall (fun it : nat * (bool * bool * bool) => it.2.1.2 = false) items ->
  foldl (scan_step df time_col) (None, len, gaps) items = (None, len, gaps).
Proof.
  induction 1 as [|[i [[m s] e]] items Hs _ IH]; [reflexivity|].
  simpl in Hs. subst s. cbn [foldl]. rewrite scan_step_idle. exact IH.
Qed.

Lemma scan_step_starts_later st it :
  (it.2.1.2 = true -> (0 < it.1)%nat) ->
  starts_later st -> starts_later (scan_step df time_col st it).
Proof.
  destruct st as [[cur len] gaps], it as [i [[m s] e]]. simpl.
  intros Hi [Hcur Hgaps]. unfold scan_step.
  destruct s; [split; [intros ? [= <-]; auto|exact Hgaps]|].
  destruct (m && _); [split; assumption|].
  destruct (e && _); [|split; assumption].
  destruct cur as [s|]; [|split; assumption].
  split; [discriminate|].
  apply Forall_app. split; [exact Hgaps|].
  constructor; [|constructor]. simpl. specialize (Hcur s eq_refl). lia.
Qed.

Lemma scan_starts_later items st :
  Forall (fun it : nat * (bool * bool * bool) => it.2.1.2 = true -> (0 < it.1)%nat) items ->
  starts_later st -> starts_later (foldl (scan_step df time_col) st items).
Proof.
  intros H. revert st.
  induction H as [|it items Hit _ IH]; intros st Hst; [exact Hst|].
  simpl. apply IH. apply scan_step_starts_later; assumption.
Qed.

End GapDetector.

(** The start flag of the first row is never set: the shifted series
    begins with [False]. *)
Lemma gap_starts_first (is_missing : list bool) :
  head (zip_with andb is_missing (shift1 (map negb is_missing))) = None
  \/ head (zip_with andb is_missing (shift1 (map negb is_missing))) = Some false.
Proof.
  destruct is_missing as [|b l]; [left; reflexivity|right].
  unfold shift1. simpl. rewrite andb_false_r. reflexivity.
Qed.

Lemma enumerate_starts (is_missing gap_starts gap_ends : list bool) :
  (head gap_starts = None \/ head gap_starts = Some false) ->
  Forall (fun it : nat * (bool * bool * bool) => it.2.1.2 = true -> (0 < it.1)%nat)
         (enumerate (zip (zip is_missing gap_starts) gap_ends)).
Proof.
  intros Hhd. apply Forall_forall. intros [i [[m s] e]] Hin. simpl.
  apply list_elem_of_lookup in Hin. destruct Hin as [j Hj].
  unfold enumerate in Hj. rewrite list_lookup_imap in Hj.
  destruct (zip (zip is_missing gap_starts) gap_ends !! j) as [[[m' s'] e']|] eqn:Hz;
    [|discriminate].
  simpl in Hj. injection Hj as <- <- <- <-.
  intros ->. destruct j as [|j]; [|lia].
  destruct is_missing as [|m0 im], gap_starts as [|s0 gs], gap_ends as [|e0 ge];
    try discriminate.
  simpl in Hz. injection Hz as _ -> _.
  destruct Hhd as [Hhd|Hhd]; simpl in Hhd; congruence.
Qed.

(** A series without any value yields no gap at all. *)
Lemma find_gaps_all_missing (df : DataFrame) (column time_col : string) (n : nat) :
  col_lookup column (cols df) = Some (NumCol (replicate n nan)) ->
  find_gaps_generic df column time_col = [].
Proof.
  intros Hcol. unfold find_gaps_generic. rewrite Hcol.
  rewrite scan_idle; [reflexivity|].
  apply Forall_forall. intros [i [[m s] e]] Hin. simpl.
  apply list_elem_of_lookup in Hin. destruct Hin as [j Hj].
  unfold enumerate in Hj. rewrite list_lookup_imap in Hj.
  destruct (zip _ _ !! j) as [[[m' s'] e']|] eqn:Hz; [|discriminate].
  simpl in Hj. injection Hj as <- <- <- <-.
  apply lookup_zip_with_Some in Hz. destruct Hz as (x & y & Hxy & Hx & Hy).
  injection Hxy as <- <-.
  apply lookup_zip_with_Some in Hx. destruct Hx as (a & b & Hab & Ha & Hb).
  injection Hab as <- <-.
  apply lookup_zip_with_Some in Hb. destruct Hb as (c & d & -> & Hc & Hd).
  assert (d = false) as ->; [|apply andb_false_r].
  unfold shift1 in Hd. apply lookup_take_Some in Hd. destruct Hd as [Hd _].
  destruct j as [|j]; [simpl in Hd; congruence|].
  simpl in Hd. rewrite list_lookup_fmap in Hd.
  unfold to_numeric_isna in Hd. rewrite list_lookup_fmap in Hd.
  destruct (replicate n nan !! j) as [z|] eqn:Hz; [|discriminate].
  apply lookup_replicate in Hz. destruct Hz as [-> _].
  simpl in Hd. congruence.
Qed.

Lemma find_gaps_empty (df : DataFrame) (column time_col : string) :
  col_lookup column (cols df) = Some (NumCol []) ->
  find_gaps_generic df column time_col = [].
Proof. intros H. unfold find_gaps_generic. rewrite H. reflexivity. Qed.

(** A trailing run is reported, and so is an inner one; a leading run is
    not. *)
Example find_gaps_runs :
  find_gaps_generic (sample_frame 0 [of_int 1; nan; nan]) "power" "Time"
  = [ {| Gap.start_index := 1; Gap.end_index := 2; Gap.length := 2;
         Gap.start_time := Some (CTime (hours 1));
         Gap.end_time := Some (CTime (hours 2)) |} ]
  /\ find_gaps_generic (sample_frame 0 [nan; nan; of_int 1]) "power" "Time" = []
  /\ find_gaps_generic (sample_frame 0 [nan; nan; nan]) "power" "Time" = [].
Proof. repeat split. Qed.

(** C3 (code).  The detector never reports a gap that starts at the first
    row, whatever the frame and the column: a row starts a gap only when
    the row before it holds a value, and the first row has none before it.
    So a series that begins with a missing run yields no gap starting at
    index 0, where the claim asks for one. *)
Theorem C3_leading_run_not_reported (df : DataFrame) (column time_col : string) :
  Forall (fun g => 0 < Gap.start_index g) (find_gaps_generic df column time_col).
Proof.
  unfold find_gaps_generic.
  destruct (col_lookup column (cols df)) as [series|]; [|constructor].
  pose proof (scan_starts_later df time_col
    (enumerate (zip (zip (to_numeric_isna series)
       (zip_with andb (to_numeric_isna series) (shift1 (map negb (to_numeric_isna series)))))
       (zip_with andb (map negb (to_numeric_isna series)) (shift1 (to_numeric_isna series)))))
    (None, 0, [])) as H.
  destruct (foldl _ _ _) as [[cur len] gaps].
  destruct H as [Hcur Hgaps].
  - apply enumerate_starts, gap_starts_first.
  - split; [discriminate|constructor].
  - destruct cur as [s|]; [|exact Hgaps].
    apply Forall_app. split; [exact Hgaps|].
    constructor; [|constructor]. simpl. specialize (Hcur s eq_refl). lia.
Qed.

(** ** Method recommender *)

(** The fallback branch tests the three thresholds in order, the first
    match winning; each test is the binary64 comparison of the source. *)
Lemma recommend_fallback_order (ps : PatternSummary) (gap_dist : gmap string Z) :
  primary_pattern ps <> "system_wide_failures" ->
  primary_pattern ps <> "individual_equipment_failures" ->
  dist_total gap_dist <> 0 ->
  let short_gaps :=
    dist_get gap_dist "1h" + dist_get gap_dist "2h" + dist_get gap_dist "3h" in
  let medium_gaps :=
    dist_get gap_dist "6h" + dist_get gap_dist "12h" + dist_get gap_dist "1d" in
  let long_gaps :=
    dist_get gap_dist "2d" + dist_get gap_dist "1w" + dist_get gap_dist ">1w" in
  primary_method (recommend_methods_generic ps gap_dist)
  = if exceeds short_gaps (dist_total gap_dist) (literal 7 10) then "spline_interpolation"
    else if exceeds medium_gaps (dist_total gap_dist) (literal 3 10) then "gaussian_process"
    else if exceeds long_gaps (dist_total gap_dist) (literal 2 10) then "physics_based_model"
    else "unknown".
Proof.
  intros Hs Hi Ht. unfold recommend_methods_generic.
  destruct (decide (dist_total gap_dist = 0)); [contradiction|].
  destruct (decide (primary_pattern ps = "system_wide_failures")); [contradiction|].
  destruct (decide (primary_pattern ps = "individual_equipment_failures")); [contradiction|].
  cbv zeta.
  destruct (exceeds _ _ (literal 7 10)); [reflexivity|].
  destruct (exceeds _ _ (literal 3 10)); [reflexivity|].
  destruct (exceeds _ _ (literal 2 10)); reflexivity.
Qed.

(** C7 (code).  With 63 short gaps and 27 long gaps the short gaps are
    exactly 70% of the 90 gaps, which does not exceed 70%, and the long gaps
    are 30%, above 20%: by the claim the method is physics_based_model.  The
    code selects spline_interpolation, because the binary64 product
    [90 * 0.7] is 62.99999999999999, below 63.  The same share, 7 short gaps
    of 10, is not taken to exceed the threshold. *)
Theorem C7_threshold_at_exact_share :
  primary_method
    (recommend_methods_generic {| primary_pattern := "unknown"; secondary_patterns := [] |}
       {[ "1h" := 63; "2d" := 27 ]})
  = "spline_interpolation"
  /\ exceeds 63 90 (literal 7 10) = true
  /\ exceeds 7 10 (literal 7 10) = false.
Proof. repeat split; vm_compute; reflexivity. Qed.

(** ** Failure-pattern classifier *)

Section Degradation.
Context {stats : Statistics}.

Lemma degradation_set_randomness l p : degradation (set_randomness l p) = degradation p.
Proof. reflexivity. Qed.
Lemma degradation_set_systematic l p : degradation (set_systematic l p) = degradation p.
Proof. reflexivity. Qed.
Lemma degradation_set_maintenance_like l p :
  degradation (set_maintenance_like l p) = degradation p.
Proof. reflexivity. Qed.

(** C8 (amended).  For every column whose gap times and gap lengths
    have the same number of entries, the degradation label is computed
    exactly when there are more than 5 gaps: it is detected when the
    correlation of start time and length is above 0.3, improving when it
    is below -0.3 and stable otherwise; with 5 gaps or fewer the label
    stays unknown. *)
Theorem C8_degradation_from_six_gaps (gap_times gap_lengths : list Z) :
  length gap_times = length gap_lengths ->
  let correlation := np_corrcoef gap_times gap_lengths in
  ((5 < length gap_lengths)%nat ->
     degradation (_analyze_column_failure_pattern gap_times gap_lengths)
     = if gtb correlation (literal 3 10) then detected
       else if ltb correlation (SFopp (literal 3 10)) then improving
       else stable)
  /\ ((length gap_lengths <= 5)%nat ->
        degradation (_analyze_column_failure_pattern gap_times gap_lengths) = unknown).
Proof.
  intros Hlen correlation. unfold _analyze_column_failure_pattern.
  fold correlation. rewrite Hlen.
  split; intros Hn.
  - destruct (decide (length gap_lengths < 3)%nat); [lia|].
    destruct (decide (5 < length gap_lengths)%nat); [|lia].
    repeat match goal with
    | |- context [if ?b then _ else _] =>
        lazymatch b with
        | gtb correlation _ => fail
        | ltb correlation _ => fail
        | _ => destruct b
        end
    end;
    destruct (gtb correlation _); try reflexivity;
    destruct (ltb correlation _); reflexivity.
  - destruct (decide (5 < length gap_lengths)%nat); [lia|].
    repeat match goal with
    | |- context [if ?b then _ else _] => destruct b
    end; reflexivity.
Qed.

End Degradation.

(** Six gaps whose correlation is 1: the label is detected. *)
Lemma C8_witness :
  degradation (_analyze_column_failure_pattern (stats := sample_statistics)
                 [0; 10; 20; 30; 40; 50] [1; 2; 3; 4; 5; 6]) = detected.
Proof.
  destruct (C8_degradation_from_six_gaps (stats := sample_statistics)
              [0; 10; 20; 30; 40; 50] [1; 2; 3; 4; 5; 6] eq_refl) as [H _].
  rewrite H by (simpl; lia). reflexivity.
Defined.

(** C8 as stated fails with five gaps: their correlation is above 0.3 and
    the label stays unknown. *)
Lemma C8_five_gaps_stay_unknown :
  (5 <= length [1; 2; 3; 4; 5])%nat
  /\ gtb (np_corrcoef (Statistics := sample_statistics) [0; 10; 20; 30; 40] [1; 2; 3; 4; 5])
         (literal 3 10) = true
  /\ degradation (_analyze_column_failure_pattern (stats := sample_statistics)
                    [0; 10; 20; 30; 40] [1; 2; 3; 4; 5]) = unknown.
Proof. repeat split. simpl. lia. Qed.


(** ** Columns of a frame *)

Section Columns.
Implicit Types (c k : string) (v w : column) (cs : list (string * column)).

Lemma col_lookup_set_eq c v cs : col_lookup c (col_set c v cs) = Some v.
Proof.
  induction cs as [|[k w] cs IH]; simpl.
  - destruct (decide (c = c)); congruence.
  - destruct (decide (k = c)) as [->|Hk]; simpl.
    + destruct (decide (c = c)); congruence.
    + destruct (decide (k = c)); [contradiction|exact IH].
Qed.

Lemma col_lookup_set_ne c k v cs :
  c <> k -> col_lookup k (col_set c v cs) = col_lookup k cs.
Proof.
  intros Hne. induction cs as [|[k' w] cs IH]; simpl.
  - destruct (decide (c = k)); [contradiction|reflexivity].
  - destruct (decide (k' = c)) as [->|Hk]; simpl.
    + destruct (decide (c = k)); [contradiction|reflexivity].
    + destruct (decide (k' = k)); [reflexivity|exact IH].
Qed.

Lemma col_set_same c v cs : col_lookup c cs = Some v -> col_set c v cs = cs.
Proof.
  induction cs as [|[k w] cs IH]; simpl; [discriminate|].
  destruct (decide (k = c)) as [->|Hk].
  - intros [= ->]. reflexivity.
  - intros H. rewrite IH by exact H. reflexivity.
Qed.

Lemma col_set_absent c v cs : col_lookup c cs = None -> col_set c v cs = cs ++ [(c, v)].
Proof.
  induction cs as [|[k w] cs IH]; simpl; [reflexivity|].
  destruct (decide (k = c)); [discriminate|].
  intros H. rewrite IH by exact H. reflexivity.
Qed.

Lemma col_lookup_drop_eq c cs : col_lookup c (col_drop c cs) = None.
Proof.
  induction cs as [|[k w] cs IH]; simpl; [reflexivity|].
  destruct (decide (k = c)) as [->|Hk]; [exact IH|].
  simpl. destruct (decide (k = c)); [contradiction|exact IH].
Qed.

Lemma col_lookup_drop_ne c k cs :
  c <> k -> col_lookup k (col_drop c cs) = col_lookup k cs.
Proof.
  intros Hne. induction cs as [|[k' w] cs IH]; simpl; [reflexivity|].
  destruct (decide (k' = c)) as [->|Hk]; simpl.
  - destruct (decide (c = k)); [contradiction|exact IH].
  - destruct (decide (k' = k)); [reflexivity|exact IH].
Qed.

Lemma col_drop_absent c cs : col_lookup c cs = None -> col_drop c cs = cs.
Proof.
  induction cs as [|[k w] cs IH]; simpl; [reflexivity|].
  destruct (decide (k = c)); [discriminate|].
  intros H. rewrite IH by exact H. reflexivity.
Qed.

Lemma col_drop_app c cs cs' : col_drop c (cs ++ cs') = col_drop c cs ++ col_drop c cs'.
Proof.
  induction cs as [|[k w] cs IH]; simpl; [reflexivity|].
  destruct (decide (k = c)); [exact IH|]. simpl. rewrite IH. reflexivity.
Qed.

Lemma col_lookup_app k cs cs' :
  col_lookup k (cs ++ cs')
  = match col_lookup k cs with Some v => Some v | None => col_lookup k cs' end.
Proof.
  induction cs as [|[k' w] cs IH]; simpl; [reflexivity|].
  destruct (decide (k' = k)); [reflexivity|exact IH].
Qed.

Lemma col_set_app_l c v w cs cs' :
  col_lookup c cs = Some w -> col_set c v (cs ++ cs') = col_set c v cs ++ cs'.
Proof.
  induction cs as [|[k u] cs IH]; simpl; [discriminate|].
  destruct (decide (k = c)); [reflexivity|].
  intros H. rewrite IH by exact H. reflexivity.
Qed.

Lemma col_set_app_r c v cs cs' :
  col_lookup c cs = None -> col_set c v (cs ++ cs') = cs ++ col_set c v cs'.
Proof.
  induction cs as [|[k u] cs IH]; simpl; [reflexivity|].
  destruct (decide (k = c)); [discriminate|].
  intros H. rewrite IH by exact H. reflexivity.
Qed.

End Columns.

(** ** The solar-constraint post-processor *)

Section SolarConstraints.

Lemma clip_value_idem (x : float) :
  let y := if isna x || geb x zero then x else zero in
  (if isna y || geb y zero then y else zero) = y.
Proof.
  simpl. destruct (isna x || geb x zero) eqn:Hx; [rewrite Hx|]; reflexivity.
Qed.

Lemma constrained_idem night_mask xs :
  constrained night_mask (constrained night_mask xs) = constrained night_mask xs.
Proof.
  unfold constrained, clip_lower.
  revert night_mask. induction xs as [|x xs IH]; intros [|b mask]; simpl;
    try reflexivity.
  - rewrite (clip_value_idem x). f_equal.
    specialize (IH []). destruct xs; simpl in *; exact IH.
  - destruct b; simpl.
    + f_equal. apply IH.
    + destruct (isna x || geb x zero) eqn:Hx.
      * rewrite Hx. f_equal. apply IH.
      * simpl. f_equal. apply IH.
Qed.

End SolarConstraints.

Section Idempotence.
Variables (n : nat) (night_mask : list bool).

Lemma constrain_column_num cs col xs :
  col_lookup col cs = Some (NumCol xs) ->
  constrain_column n night_mask cs col
  = Return (col_set col (NumCol (constrained night_mask xs)) cs).
Proof. intros H. unfold constrain_column. rewrite H. reflexivity. Qed.

Lemma constrain_column_Return cs col cs' :
  constrain_column n night_mask cs col = Return cs' ->
  settled night_mask cs' col
  /\ (forall k, k <> col -> col_lookup k cs' = col_lookup k cs).
Proof.
  unfold constrain_column.
  destruct (col_lookup col cs) as [[ts|xs]|] eqn:Hcol.
  - discriminate.
  - intros [= <-]. split.
    + exists (constrained night_mask xs).
      split; [apply col_lookup_set_eq|apply constrained_idem].
    + intros k Hk. apply col_lookup_set_ne. congruence.
  - destruct (decide (n = 0%nat)); [discriminate|].
    intros [= <-]. split.
    + exists (constrained night_mask (replicate n nan)).
      split; [apply col_lookup_set_eq|apply constrained_idem].
    + intros k Hk. apply col_lookup_set_ne. congruence.
Qed.

Lemma settled_preserved cs col cs' k :
  constrain_column n night_mask cs col = Return cs' ->
  settled night_mask cs k -> settled night_mask cs' k.
Proof.
  intros Hstep Hk. destruct (constrain_column_Return _ _ _ Hstep) as [Hcol Hother].
  destruct (decide (k = col)) as [->|Hne]; [exact Hcol|].
  destruct Hk as (xs & Hxs & Hidem). exists xs.
  rewrite Hother by exact Hne. auto.
Qed.

(** After a pass over the power columns, each of them is settled and the
    other columns are untouched. *)
Lemma constrain_columns_Return power_columns cs cs' :
  foldM (constrain_column n night_mask) cs power_columns = Return cs' ->
  (forall k, settled night_mask cs k -> settled night_mask cs' k)
  /\ (forall col, col ∈ power_columns -> settled night_mask cs' col)
  /\ (forall k, k ∉ power_columns -> col_lookup k cs' = col_lookup k cs).
Proof.
  revert cs. induction power_columns as [|col pcs IH]; intros cs; simpl.
  - intros [= <-]. split; [auto|]. split; [|auto].
    intros col Hcol. inversion Hcol.
  - destruct (constrain_column n night_mask cs col) as [cs1|e] eqn:Hstep;
      [|discriminate].
    simpl. intros Hrest. destruct (IH _ Hrest) as (Hkeep & Hall & Hother).
    destruct (constrain_column_Return _ _ _ Hstep) as [Hcol Hother1].
    split; [|split].
    + intros k Hk. apply Hkeep. eapply settled_preserved; eauto.
    + intros c Hc. apply elem_of_cons in Hc. destruct Hc as [->|Hc]; auto.
    + intros k Hk. apply not_elem_of_cons in Hk. destruct Hk as [Hk1 Hk2].
      rewrite Hother by exact Hk2. apply Hother1. exact Hk1.
Qed.

(** A pass over columns that are all settled, except for the scratch
    column [hour] at the end, changes the scratch column only. *)
Lemma constrain_columns_settled power_columns cs h :
  col_lookup "hour" cs = None ->
  (forall col, col ∈ power_columns -> col <> "hour" -> settled night_mask cs col) ->
  exists h',
    foldM (constrain_column n night_mask) (cs ++ [("hour", NumCol h)]) power_columns
    = Return (cs ++ [("hour", NumCol h')]).
Proof.
  intros Hhour. revert h.
  induction power_columns as [|col pcs IH]; intros h Hall; cbn [foldM].
  - exists h. reflexivity.
  - destruct (decide (col = "hour")) as [->|Hne].
    + rewrite (constrain_column_num _ _ h).
      2:{ rewrite col_lookup_app, Hhour. apply (col_lookup_set_eq "hour" _ []). }
      rewrite col_set_app_r by exact Hhour.
      change (col_set "hour" ?v [("hour", ?w)]) with (col_set "hour" v (col_set "hour" w [])).
      cbn [mbind result_bind].
      apply IH. intros c Hc. apply Hall. apply elem_of_cons. auto.
    + destruct (Hall col) as (xs & Hxs & Hidem);
        [apply elem_of_cons; auto|exact Hne|].
      rewrite (constrain_column_num _ _ xs) by (rewrite col_lookup_app, Hxs; reflexivity).
      rewrite Hidem.
      rewrite (col_set_app_l _ _ (NumCol xs)) by exact Hxs.
      rewrite col_set_same by exact Hxs.
      cbn [mbind result_bind].
      apply IH. intros c Hc. apply Hall. apply elem_of_cons. auto.
Qed.

End Idempotence.

Lemma settled_drop night_mask cs col :
  col <> "hour" -> settled night_mask cs col ->
  settled night_mask (col_drop "hour" cs) col.
Proof.
  intros Hne (xs & Hxs & Hidem). exists xs.
  rewrite col_lookup_drop_ne by congruence. auto.
Qed.

Lemma constrain_column_time n night_mask cs col ts cs' :
  col_lookup col cs = Some (TimeCol ts) ->
  constrain_column n night_mask cs col <> Return cs'.
Proof. intros H. unfold constrain_column. rewrite H. discriminate. Qed.

(** A successful pass does not contain a timestamp column among the power
    columns. *)
Lemma constrain_columns_not_time n night_mask power_columns cs cs' k ts :
  foldM (constrain_column n night_mask) cs power_columns = Return cs' ->
  col_lookup k cs = Some (TimeCol ts) ->
  col_lookup k cs' = Some (TimeCol ts).
Proof.
  revert cs. induction power_columns as [|col pcs IH]; intros cs; simpl.
  - intros [= <-]. auto.
  - destruct (constrain_column n night_mask cs col) as [cs1|e] eqn:Hstep; [|discriminate].
    simpl. intros Hrest Hk. apply (IH _ Hrest).
    destruct (decide (k = col)) as [->|Hne].
    + exfalso. eapply constrain_column_time; eauto.
    + destruct (constrain_column_Return _ _ _ _ _ Hstep) as [_ Hother].
      rewrite Hother by exact Hne. exact Hk.
Qed.

(** For every frame, list of power columns and time column that is not
    named hour, applying the solar-constraint post-processor twice gives
    what applying it once gives: the same frame, or the same exception. *)
Theorem solar_constraints_idempotent
    (df : DataFrame) (power_columns : list string) (time_column : string) :
  time_column <> "hour" ->
  (df' ← apply_solar_constraints df power_columns time_column;
   apply_solar_constraints df' power_columns time_column)
  = apply_solar_constraints df power_columns time_column.
Proof.
  intros Htc. unfold apply_solar_constraints at 2 3.
  destruct (datetime_of (cols df) time_column) as [ts|e] eqn:Hts; [|reflexivity].
  simpl.
  destruct (foldM _ _ power_columns) as [cs1|e] eqn:Hloop; [|reflexivity].
  simpl. unfold apply_solar_constraints. simpl.
  destruct (constrain_columns_Return _ _ _ _ _ Hloop) as (_ & Hall & _).
  assert (Htime : col_lookup time_column cs1 = Some (TimeCol ts)).
  { eapply constrain_columns_not_time; [exact Hloop|].
    rewrite col_lookup_set_ne by congruence. apply col_lookup_set_eq. }
  assert (Htime' : col_lookup time_column (col_drop "hour" cs1) = Some (TimeCol ts)).
  { rewrite col_lookup_drop_ne by congruence. exact Htime. }
  unfold datetime_of. rewrite Htime'. simpl.
  rewrite (col_set_same _ _ _ Htime').
  rewrite col_set_absent by apply col_lookup_drop_eq.
  destruct (constrain_columns_settled (nrows df) (map night ts) power_columns
              (col_drop "hour" cs1) (hour_column ts)) as [h' Hh'].
  - apply col_lookup_drop_eq.
  - intros col Hcol Hne. apply settled_drop; auto.
  - rewrite Hh'. simpl. f_equal. f_equal.
    rewrite col_drop_app. simpl.
    rewrite col_drop_absent by apply col_lookup_drop_eq.
    apply app_nil_r.
Qed.

(** An hourly frame from 4 to 7 o'clock: night until 5, day from 6. *)
Example solar_constraints_twice :
  (df' ← apply_solar_constraints (sample_frame 4 [of_int 5; of_int 7; SFopp (of_int 3); nan])
           ["power"] "Time";
   apply_solar_constraints df' ["power"] "Time")
  = Return (sample_frame 4 [zero; zero; zero; nan]).
Proof.
  rewrite solar_constraints_idempotent by discriminate.
  vm_compute. reflexivity.
Qed.

(** C9 (code).  On a frame whose time column is named hour the
    post-processor is not idempotent: it writes its scratch column, which
    it names hour, over the time column and drops it, so the frame it
    returns has lost the time column and a second application raises a
    KeyError where the first returned a frame. *)
Theorem C9_time_column_named_hour :
  apply_solar_constraints hour_frame ["power"] "hour"
  = Return {| nrows := 2; cols := [("power", NumCol [zero; zero])] |}
  /\ (df' ← apply_solar_constraints hour_frame ["power"] "hour";
      apply_solar_constraints df' ["power"] "hour")
     = Raise (KeyError "hour").
Proof. split; vm_compute; reflexivity. Qed.

(** ** Strategies *)

Section FitPrecondition.
Context {learn : Learners}.

Lemma construct_unfitted c kwargs self :
  construct c kwargs = Return self ->
  cls self = c /\ is_fitted self = false /\ model self = ModelNone.
Proof.
  unfold construct. destruct (bind_call _ _ _ _); [|discriminate].
  simpl. intros [= <-]. auto.
Qed.

(** A loop raises only what one of its steps raises. *)
Lemma foldM_Raise {A B} (P : exn -> Prop) (f : B -> A -> result B) (l : list A) :
  (forall b x e, f b x = Raise e -> P e) ->
  forall b e, foldM f b l = Raise e -> P e.
Proof.
  intros Hstep. induction l as [|x l IH]; intros b e; cbn [foldM]; [discriminate|].
  destruct (f b x) as [b'|e'] eqn:Hf; cbn [mbind result_bind].
  - apply IH.
  - intros [= <-]. exact (Hstep _ _ _ Hf).
Qed.

(** The post-processor has no fit precondition: whatever it raises, it
    is not the fit-precondition error. *)
Lemma solar_constraints_not_unfitted (df : DataFrame) (power_columns : list string)
    (time_column : string) :
  apply_solar_constraints df power_columns time_column <> Raise not_fitted.
Proof.
  unfold apply_solar_constraints, datetime_of.
  destruct (col_lookup time_column (cols df)) as [v|]; [|discriminate].
  destruct (to_datetime v) as [ts|e] eqn:Hts; [|destruct v; discriminate].
  cbn [mbind result_bind].
  destruct (foldM _ _ power_columns) as [cs|e] eqn:Hloop; [discriminate|].
  cbn [mbind result_bind]. intros [= ->].
  refine (foldM_Raise (fun e => e <> not_fitted) _ _ _ _ _ Hloop eq_refl).
  intros cs x e. unfold constrain_column.
  destruct (col_lookup x cs) as [[ts'|xs]|].
  - intros [= <-]. discriminate.
  - discriminate.
  - destruct (decide _); [|discriminate]. intros [= <-]. discriminate.
Qed.

(** Neither has the spline strategy, fitted or not, as long as the
    spline routine of the library does not raise that error itself. *)
Lemma spline_not_unfitted (self : interpolator) (df : DataFrame)
    (power_columns : list string) (time_column : string) :
  (forall x y, interp1d_cubic x y <> Raise not_fitted) ->
  Spline_interpolate self df power_columns time_column <> Raise not_fitted.
Proof.
  intros Hlib. unfold Spline_interpolate, datetime_of.
  destruct (col_lookup time_column (cols df)) as [v|]; [|discriminate].
  destruct (to_datetime v) as [ts|e] eqn:Hts;
    [|destruct v; discriminate].
  cbn [mbind result_bind].
  destruct (foldM _ _ power_columns) as [cs|e] eqn:Hloop; cbn [mbind result_bind].
  - apply solar_constraints_not_unfitted.
  - intros [= ->].
    refine (foldM_Raise (fun e => e <> not_fitted) _ _ _ _ _ Hloop eq_refl).
    intros cs x e.
    destruct (col_lookup x cs) as [[ts'|xs]|] eqn:Hx; [| |discriminate].
    + destruct (decide _); [|discriminate]. intros [= <-]. discriminate.
    + destruct (decide (3 < _)%nat); [|discriminate].
      destruct (interp1d_cubic _ _) as [spline|e'] eqn:Hspline; cbn [mbind result_bind].
      * destruct (decide (0 < _)%nat); [|discriminate].
        unfold assign_where. rewrite Hx. discriminate.
      * intros [= <-] ->. exact (Hlib _ _ Hspline).
Qed.

(** C4 (amended).  On a freshly constructed instance, [interpolate]
    raises the fit-precondition error for the Gaussian-process and the
    physics-based strategy.  The spline strategy has no such
    precondition: it does not raise that error (the spline routine of the
    library not raising it itself), and it does what it does after [fit].
    The multi-output strategy does not raise the fit-precondition error
    either: its result is that of its spline fallback, which is the
    TypeError of the call of the spline strategy's [fit] with the weather
    frame. *)
Theorem C4_fit_precondition (c : strategy) kwargs self df power_columns time_column :
  (forall x y, interp1d_cubic x y <> Raise not_fitted) ->
  construct c kwargs = Return self ->
  match c with
  | GaussianProcessInterpolator | PhysicsBasedInterpolator =>
      interpolate self df power_columns time_column [] = Raise not_fitted
  | SplineInterpolator =>
      interpolate self df power_columns time_column [] <> Raise not_fitted
      /\ interpolate self df power_columns time_column []
         = (fitted_self ← fit self df power_columns time_column [];
            interpolate fitted_self df power_columns time_column [])
  | MultiOutputRegressionInterpolator =>
      interpolate self df power_columns time_column []
      = spline_fallback df power_columns time_column None
      /\ spline_fallback df power_columns time_column None
         = Raise (TypeError "fit() takes 4 positional arguments but 5 were given")
  end.
Proof.
  intros Hlib Hc. destruct (construct_unfitted _ _ _ Hc) as (Hcls & Hfit & Hmodel).
  unfold interpolate, fit. rewrite Hcls. destruct c; simpl.
  - rewrite Hcls. split; [apply spline_not_unfitted; exact Hlib|reflexivity].
  - unfold GP_interpolate. rewrite Hfit. reflexivity.
  - unfold Physics_interpolate. rewrite Hfit. reflexivity.
  - unfold MO_interpolate. rewrite Hfit. simpl. split; reflexivity.
Qed.

End FitPrecondition.

(** A fresh Gaussian-process instance refuses to interpolate. *)
Lemma C4_witness :
  (self ← construct (learn := no_learners) GaussianProcessInterpolator [];
   interpolate self (sample_frame 10 [of_int 5; nan; SFopp (of_int 3)]) ["power"] "Time" [])
  = Raise not_fitted.
Proof.
  destruct (construct (learn := no_learners) GaussianProcessInterpolator []) as [self|e] eqn:Hc;
    [|discriminate].
  assert (Hlib : forall x y,
             interp1d_cubic (Learners := no_learners) x y <> Raise not_fitted)
    by (intros x y; discriminate).
  exact (C4_fit_precondition GaussianProcessInterpolator [] self
           (sample_frame 10 [of_int 5; nan; SFopp (of_int 3)]) ["power"] "Time" Hlib Hc).
Defined.

(** C4 as stated fails for the spline strategy: a fresh instance returns a
    frame, here with the negative value clipped and the missing one left
    (fewer than four points are known). *)
Lemma C4_spline_returns_unfitted :
  (self ← construct (learn := no_learners) SplineInterpolator [];
   interpolate self (sample_frame 10 [of_int 5; nan; SFopp (of_int 3)]) ["power"] "Time" [])
  = Return (sample_frame 10 [of_int 5; nan; zero]).
Proof. vm_compute. reflexivity. Qed.

Section Fallback.
Context {learn : Learners}.

(** The fallback of the multi-output strategy passes the weather frame
    to the [fit] of the spline strategy, which does not take it. *)
Lemma MO_interpolate_fallback (self : interpolator) df pcs tc w :
  negb (is_fitted self) || model_is_empty (model self) = true ->
  MO_interpolate self df pcs tc w
  = Raise (TypeError "fit() takes 4 positional arguments but 5 were given").
Proof. intros H. unfold MO_interpolate. rewrite H. reflexivity. Qed.

(** C5 (code).  With 100 complete rows or fewer, each of the two modes
    that train on the complete rows returns with an empty model and the
    instance marked as fitted, and the following [interpolate] raises a
    TypeError instead of returning the spline-interpolated frame: the
    fallback calls [fit] of the spline strategy with the weather frame
    as a fourth argument. *)
Theorem C5_fallback_raises (self : interpolator) (df : DataFrame)
    (power_columns : list string) (time_column : string)
    (weather_data : option weather) (method_config : pyval)
    (df_features : DataFrame) (mask : list bool) :
  cls self = MultiOutputRegressionInterpolator ->
  model self = ModelNone ->
  create_features df time_column weather_data = Return df_features ->
  complete_mask df_features power_columns = Return mask ->
  (count_true mask <= 100)%nat ->
  Forall (fun fit_mode =>
            exists fitted_self,
              fit_mode self df power_columns time_column weather_data method_config
              = Return fitted_self
              /\ is_fitted fitted_self = true
              /\ model fitted_self = ModelNone
              /\ interpolate fitted_self df power_columns time_column [weather_data]
                 = Raise (TypeError "fit() takes 4 positional arguments but 5 were given"))
         [_fit_independent_models; _fit_multi_output_model].
Proof.
  intros Hcls Hmodel Hf Hm Hc.
  repeat constructor;
    [unfold _fit_independent_models|unfold _fit_multi_output_model];
    rewrite Hf; cbn [mbind result_bind]; rewrite Hm; cbn [mbind result_bind];
    (destruct (decide (100 < count_true mask)%nat); [lia|]);
    cbn [mbind result_bind]; eexists;
    (split; [reflexivity|]); (split; [reflexivity|]); (split; [exact Hmodel|]);
    unfold interpolate; cbn [cls with_model]; rewrite Hcls;
    cbn [mbind result_bind interpolate_signature fit_signature bind_call];
    apply MO_interpolate_fallback; cbn [model with_model]; rewrite Hmodel;
    apply orb_true_r.
Qed.

End Fallback.

(** A fresh instance has no configuration, so [fit] takes the independent
    mode; the frame has two complete rows. *)
Lemma C5_witness :
  exists self : interpolator (learn := no_learners),
    (s ← construct MultiOutputRegressionInterpolator [];
     fit s (sample_frame 0 [of_int 1; nan; of_int 3]) ["power"] "Time" [None]) = Return self
    /\ is_fitted self = true
    /\ model self = ModelNone
    /\ interpolate self (sample_frame 0 [of_int 1; nan; of_int 3]) ["power"] "Time" [None]
       = Raise (TypeError "fit() takes 4 positional arguments but 5 were given").
Proof.
  pose proof (C5_fallback_raises (learn := no_learners)
    {| cls := MultiOutputRegressionInterpolator; is_fitted := false; metadata := [];
       interp_config := None; gp_models := ∅; system_parameters := ∅;
       model := ModelNone |}
    (sample_frame 0 [of_int 1; nan; of_int 3]) ["power"] "Time" None (PDict ∅)
    (sample_frame 0 [of_int 1; nan; of_int 3]) [true; false; true]
    eq_refl eq_refl eq_refl eq_refl ltac:(vm_compute; lia)) as H.
  apply Forall_cons in H. destruct H as [(self & Hfit & Hfitted & Hmodel & Hint) _].
  exists self. repeat split; assumption.
Defined.


(** ** Engine *)

(** C1 (code).  Without an override, a document whose recommendations
    hold a primary_method but no list under primary_methods resolves to
    spline_interpolation, whatever primary_method names: the conditional
    expression returns its default as soon as primary_methods is not a
    list, without looking at primary_method. *)
Theorem C1_primary_method_needs_list (d r : gmap string pyval) (method : pyval) :
  d !! "recommendations" = Some (PDict r) ->
  r !! "primary_method" = Some method ->
  isinstance_list (default PNone (r !! "primary_methods")) = false ->
  get_recommended_method (PDict d) None = Return (PStr "spline_interpolation").
Proof.
  intros Hd _ Hr. unfold get_recommended_method. simpl. rewrite Hd. simpl.
  rewrite Hr. reflexivity.
Qed.

(** The recommender's own output: gaussian_process as primary_method and
    no primary_methods. *)
Lemma C1_witness :
  get_recommended_method
    (sample_document {[ "primary_method" := PStr "gaussian_process" ]}) None
  = Return (PStr "spline_interpolation").
Proof.
  apply (C1_primary_method_needs_list _ {[ "primary_method" := PStr "gaussian_process" ]}
           (PStr "gaussian_process")); reflexivity.
Defined.

Lemma get_recommended_method_override gap_analysis (m : string) :
  m <> "" -> get_recommended_method gap_analysis (Some m) = Return (PStr m).
Proof.
  intros Hm. unfold get_recommended_method. simpl.
  destruct (String.eqb_spec m ""); [contradiction|reflexivity].
Qed.

Lemma get_recommended_method_with_list (d r : gmap string pyval) l m :
  d !! "recommendations" = Some (PDict r) ->
  r !! "primary_methods" = Some (PList l) ->
  r !! "primary_method" = Some m -> truthy m = true ->
  get_recommended_method (PDict d) None = Return m.
Proof.
  intros Hd Hl Hm Ht. unfold get_recommended_method. simpl. rewrite Hd. simpl.
  rewrite Hl. simpl. rewrite Hm. simpl. rewrite Ht. reflexivity.
Qed.

Lemma lookup_method_unknown (name : string) :
  interpolators !! name = None ->
  lookup_method (PStr name) = Raise (ValueError ("Unknown interpolation method: " +:+ name)).
Proof. intros H. unfold lookup_method. rewrite H. reflexivity. Qed.

(** The registered names and the classes that take the configuration and
    the weather frame. *)
Lemma registry_classes (name : string) (c : strategy) :
  interpolators !! name = Some c ->
  c = MultiOutputRegressionInterpolator
  <-> name = "multi_output_regression" \/ name = "system_level_interpolation".
Proof.
  intros H. apply elem_of_map_to_list in H.
  let l := eval vm_compute in (map_to_list interpolators) in
  change (map_to_list interpolators) with l in H.
  repeat (apply elem_of_cons in H; destruct H as [[= -> ->]|H]);
    [..|inversion H];
    (split; [intros Hc; try discriminate Hc; auto
            |intros [Hn|Hn]; try discriminate Hn; reflexivity]).
Qed.

Lemma construct_with_config (learn : Learners) (c : strategy) (ic : InterpolationConfig) :
  construct c [("interpolation_config", ic)]
  = match c with
    | MultiOutputRegressionInterpolator =>
        Return {| cls := c; is_fitted := false; metadata := [];
                  interp_config := Some ic; gp_models := ∅;
                  system_parameters := ∅; model := ModelNone |}
    | _ => Raise (TypeError
             "__init__() got an unexpected keyword argument 'interpolation_config'")
    end.
Proof. destruct c; reflexivity. Qed.

Lemma fit_with_weather (learn : Learners) (self : interpolator) df pcs tc w :
  cls self <> MultiOutputRegressionInterpolator ->
  fit self df pcs tc [w]
  = Raise (TypeError "fit() takes 4 positional arguments but 5 were given").
Proof. intros H. unfold fit. destruct (cls self); [reflexivity..|contradiction]. Qed.

Lemma interpolate_with_weather (learn : Learners) (self : interpolator) df pcs tc w :
  cls self <> MultiOutputRegressionInterpolator ->
  interpolate self df pcs tc [w]
  = Raise (TypeError "interpolate() takes 4 positional arguments but 5 were given").
Proof. intros H. unfold interpolate. destruct (cls self); [reflexivity..|contradiction]. Qed.


Section Engine.
Context {stats : Statistics} {learn : Learners}.

Lemma run_interpolation_unknown_method df (gap_analysis : pyval) method_name validate
    weather_data structure (name : string) :
  extract_data_structure gap_analysis = Return structure ->
  truthy (time_column structure) = true ->
  truthy (power_columns structure) = true ->
  get_recommended_method gap_analysis method_name = Return (PStr name) ->
  interpolators !! name = None ->
  run_interpolation df gap_analysis method_name validate weather_data
  = Raise (ValueError ("Unknown interpolation method: " +:+ name)).
Proof.
  intros Hs Ht Hp Hm Hn. unfold run_interpolation.
  rewrite Hs. cbn [mbind result_bind]. rewrite Ht, Hp. cbn [negb orb].
  rewrite Hm. cbn [mbind result_bind]. unfold lookup_method. rewrite Hn. reflexivity.
Qed.

(** C2 (code).  A run that resolves to a registered name of any class
    other than the multi-output one raises a TypeError when the engine
    constructs the strategy, whatever the frame and the weather data, and
    so never returns a result record: the engine passes the keyword
    argument [interpolation_config], which only the constructor of the
    multi-output class takes. *)
Theorem C2_engine_cannot_construct (df : DataFrame) (gap_analysis : pyval)
    (method_name : option string) (validate : bool) (weather_data : option weather)
    (structure : Structure) (name : string) (c : strategy)
    (tc : string) (pcs : list string) (interp_config : InterpolationConfig) :
  extract_data_structure gap_analysis = Return structure ->
  truthy (time_column structure) = true ->
  truthy (power_columns structure) = true ->
  as_name (time_column structure) = Return tc ->
  as_names (power_columns structure) = Return pcs ->
  new_InterpolationConfig gap_analysis = Return interp_config ->
  get_recommended_method gap_analysis method_name = Return (PStr name) ->
  interpolators !! name = Some c ->
  c <> MultiOutputRegressionInterpolator ->
  validate = false
  \/ (exists split, create_validation_split df pcs (literal 15 100) = Return split) ->
  run_interpolation df gap_analysis method_name validate weather_data
  = Raise (TypeError
      "__init__() got an unexpected keyword argument 'interpolation_config'").
Proof.
  intros Hs Ht Hp Htc Hpcs Hic Hm Hn Hc Hv. unfold run_interpolation.
  rewrite Hs. cbn [mbind result_bind]. rewrite Ht, Hp. cbn [negb orb].
  rewrite Hm. cbn [mbind result_bind]. unfold lookup_method. rewrite Hn.
  cbn [mbind result_bind fst snd]. rewrite Htc, Hpcs. cbn [mbind result_bind].
  assert (Hcons : construct c [("interpolation_config", interp_config)]
                  = Raise (TypeError
                      "__init__() got an unexpected keyword argument 'interpolation_config'")).
  { rewrite construct_with_config. destruct c; [reflexivity..|contradiction]. }
  destruct validate.
  - destruct Hv as [Hv|[[df_val info] Hsplit]]; [discriminate|].
    rewrite Hsplit. cbn [mbind result_bind snd fst].
    destruct info as [err|idx data n].
    + cbn [mbind result_bind]. rewrite Hic. cbn [mbind result_bind].
      rewrite Hcons. reflexivity.
    + rewrite Hic. cbn [mbind result_bind]. rewrite Hcons. reflexivity.
  - cbn [mbind result_bind]. rewrite Hic. cbn [mbind result_bind].
    rewrite Hcons. reflexivity.
Qed.

End Engine.

(** A run with the registered name spline_interpolation, with
    validation. *)
Lemma C2_witness :
  run_interpolation (stats := sample_statistics) (learn := no_learners)
    (sample_frame 0 [of_int 1; nan; of_int 3]) (sample_document ∅)
    (Some "spline_interpolation") true None
  = Raise (TypeError "__init__() got an unexpected keyword argument 'interpolation_config'").
Proof.
  eapply (C2_engine_cannot_construct (stats := sample_statistics) (learn := no_learners)
            _ _ _ _ _ _ "spline_interpolation" SplineInterpolator "Time" ["power"]);
    try reflexivity; [discriminate|].
  right. eexists. vm_compute. reflexivity.
Defined.

(** ** Rounding of binary64 products *)

Section Rounding.

(** The number of binary digits of a positive number. *)
Lemma digits2_pos_bounds (p : positive) :
  2 ^ (Z.pos (digits2_pos p) - 1) <= Z.pos p < 2 ^ Z.pos (digits2_pos p).
Proof.
  induction p as [p IH|p IH|]; simpl digits2_pos.
  - rewrite Pos2Z.inj_succ.
    replace (Z.succ (Z.pos (digits2_pos p)) - 1) with (Z.succ (Z.pos (digits2_pos p) - 1)) by lia.
    rewrite !Z.pow_succ_r by lia. lia.
  - rewrite Pos2Z.inj_succ.
    replace (Z.succ (Z.pos (digits2_pos p)) - 1) with (Z.succ (Z.pos (digits2_pos p) - 1)) by lia.
    rewrite !Z.pow_succ_r by lia. lia.
  - simpl. lia.
Qed.

Lemma digits2_pos_unique (p : positive) (k : Z) :
  2 ^ (k - 1) <= Z.pos p < 2 ^ k -> Z.pos (digits2_pos p) = k.
Proof.
  intros [Hlo Hhi]. pose proof (digits2_pos_bounds p) as [Hlo' Hhi'].
  assert (0 < k).
  { destruct (Z.lt_ge_cases 0 k); [assumption|].
    assert (2 ^ k <= 2 ^ 0) by (apply Z.pow_le_mono_r; lia). simpl in *. lia. }
  destruct (Z.lt_trichotomy (Z.pos (digits2_pos p)) k) as [Hlt|[Heq|Hgt]]; [|exact Heq|].
  - assert (2 ^ Z.pos (digits2_pos p) <= 2 ^ (k - 1)) by (apply Z.pow_le_mono_r; lia). lia.
  - assert (2 ^ k <= 2 ^ (Z.pos (digits2_pos p) - 1)) by (apply Z.pow_le_mono_r; lia). lia.
Qed.

Lemma iter_xO (p k : positive) : Z.pos (Pos.iter xO p k) = Z.pos p * 2 ^ Z.pos k.
Proof.
  rewrite <- Pos2Z.inj_pow, <- Pos2Z.inj_mul. f_equal.
  revert p. induction k as [|k IH] using Pos.peano_ind; intros p.
  - simpl. lia.
  - rewrite Pos.iter_succ, IH, Pos.pow_succ_r. lia.
Qed.

Lemma shifted_shr_1 P k mrs :
  0 <= k -> shifted P k mrs -> shifted P (k + 1) (shr_1 mrs).
Proof.
  intros Hk (Hm & rem & HP & Hrem & Hloc).
  destruct mrs as [m r s]. unfold shifted. simpl in *.
  rewrite !Z.pow_add_r, !Z.pow_1_r by lia.
  assert (0 < 2 ^ k) by (apply Z.pow_pos_nonneg; lia).
  destruct m as [|[p|p|]|p]; simpl; try lia.
  - split; [lia|]. exists rem. destruct r, s; simpl; lia.
  - split; [lia|]. exists (2 ^ k + rem). destruct r, s; simpl; lia.
  - split; [lia|]. exists rem. destruct r, s; simpl; lia.
  - split; [lia|]. exists (2 ^ k + rem). destruct r, s; simpl; lia.
Qed.

Lemma shifted_iter_pos P (n : positive) : forall k mrs,
  0 <= k -> shifted P k mrs -> shifted P (k + Z.pos n) (SpecFloat.iter_pos shr_1 n mrs).
Proof.
  induction n as [n IH|n IH|]; intros k mrs Hk H; simpl SpecFloat.iter_pos.
  - replace (k + Z.pos n~1) with (k + 1 + Z.pos n + Z.pos n) by lia.
    apply IH; [lia|]. apply IH; [lia|]. apply shifted_shr_1; assumption.
  - replace (k + Z.pos n~0) with (k + Z.pos n + Z.pos n) by lia.
    apply IH; [lia|]. apply IH; assumption.
  - apply shifted_shr_1; assumption.
Qed.

Lemma shifted_start (P : Z) : 0 <= P -> shifted P 0 {| shr_m := P; shr_r := false; shr_s := false |}.
Proof. intros HP. split; [exact HP|]. exists 0. simpl. lia. Qed.

Lemma shr_fexp_large (p : positive) (e : Z) :
  let n := Z.pos (digits2_pos p) - 53 in
  0 < n -> -1074 <= e + n ->
  exists mrs, shr_fexp 53 1024 (Z.pos p) e loc_Exact = (mrs, e + n)
              /\ shifted (Z.pos p) n mrs.
Proof.
  intros n Hn He. unfold shr_fexp, fexp, emin. simpl Zdigits2.
  replace (Z.max (Z.pos (digits2_pos p) + e - 53) (3 - 1024 - 53)
           - e) with n by (unfold n in *; lia).
  destruct n as [|np|np] eqn:Hnp; try lia.
  unfold shr. eexists. split; [reflexivity|].
  apply (shifted_iter_pos (Z.pos p) np 0); [lia|].
  apply shifted_start. lia.
Qed.

Lemma shr_fexp_canonical (m : positive) (e : Z) :
  Z.pos (digits2_pos m) = 53 -> -1074 <= e ->
  shr_fexp 53 1024 (Z.pos m) e loc_Exact
  = ({| shr_m := Z.pos m; shr_r := false; shr_s := false |}, e).
Proof.
  intros Hd He. unfold shr_fexp, fexp, emin. simpl Zdigits2. rewrite Hd.
  replace (Z.max (53 + e - 53) (3 - 1024 - 53) - e) with 0 by lia.
  reflexivity.
Qed.

Lemma shr_fexp_carry (e : Z) :
  -1074 <= e ->
  shr_fexp 53 1024 (2 ^ 53) e loc_Exact
  = ({| shr_m := 2 ^ 52; shr_r := false; shr_s := false |}, e + 1).
Proof.
  intros He. unfold shr_fexp, fexp, emin.
  change (Zdigits2 (2 ^ 53)) with 54.
  replace (Z.max (54 + e - 53) (3 - 1024 - 53) - e) with 1 by lia.
  reflexivity.
Qed.

(** The position of the remainder decides the rounding. *)
Lemma round_nearest_even_shifted (P n : Z) (mrs : shr_record) :
  0 <= n -> shifted P n mrs ->
  let R := round_nearest_even (shr_m mrs) (loc_of_shr_record mrs) in
  P / 2 ^ n <= R <= P / 2 ^ n + 1
  /\ (2 ^ n < 2 * (P mod 2 ^ n) -> R = P / 2 ^ n + 1)
  /\ (2 * (P mod 2 ^ n) < 2 ^ n -> R = P / 2 ^ n).
Proof.
  intros Hn (Hm & rem & HP & Hrem & Hloc).
  assert (Hpow : 0 < 2 ^ n) by (apply Z.pow_pos_nonneg; lia).
  assert (Hq : P / 2 ^ n = shr_m mrs).
  { symmetry. apply (Z.div_unique_pos P (2 ^ n) (shr_m mrs) rem); lia. }
  assert (Hr : P mod 2 ^ n = rem).
  { symmetry. apply (Z.mod_unique_pos P (2 ^ n) (shr_m mrs) rem); lia. }
  rewrite Hq, Hr. destruct mrs as [m r s]. simpl in *.
  destruct r, s; simpl; try destruct (Z.even m); lia.
Qed.

(** Rounding to nearest even of the exact number [P * 2^e] whose
    mantissa has more than 53 digits: the result is one of the two
    neighbours [q * 2^(e+n)] and [(q+1) * 2^(e+n)], where [q] is [P]
    without its last [n] digits, and it is the upper one (the lower one)
    when the dropped digits are more (less) than one half. *)
Lemma binary_round_aux_large (s : bool) (p : positive) (e : Z) :
  let n := Z.pos (digits2_pos p) - 53 in
  0 < n -> -1074 <= e + n -> e + n + 1 <= 971 ->
  exists (m' : positive) (e'' R : Z),
    binary_round_aux 53 1024 s (Z.pos p) e loc_Exact = S754_finite s m' e''
    /\ e + n <= e'' <= e + n + 1
    /\ Z.pos m' * 2 ^ (e'' - (e + n)) = R
    /\ Z.pos p / 2 ^ n <= R <= Z.pos p / 2 ^ n + 1
    /\ (2 ^ n < 2 * (Z.pos p mod 2 ^ n) -> R = Z.pos p / 2 ^ n + 1)
    /\ (2 * (Z.pos p mod 2 ^ n) < 2 ^ n -> R = Z.pos p / 2 ^ n).
Proof.
  intros n Hn He Hmax.
  destruct (shr_fexp_large p e Hn He) as (mrs & Hshr & Hshifted).
  fold n in Hshr, Hshifted.
  pose proof (round_nearest_even_shifted _ _ _ (Z.lt_le_incl _ _ Hn) Hshifted) as HR.
  cbv zeta in HR. set (R := round_nearest_even _ _) in HR.
  destruct HR as (Hbounds & Hup & Hdown).
  pose proof (digits2_pos_bounds p) as [Hlo Hhi].
  assert (Hpow : 0 < 2 ^ n) by (apply Z.pow_pos_nonneg; lia).
  assert (Hq : 2 ^ 52 <= Z.pos p / 2 ^ n < 2 ^ 53).
  { replace (Z.pos (digits2_pos p) - 1) with (52 + n) in Hlo by (unfold n; lia).
    replace (Z.pos (digits2_pos p)) with (53 + n) in Hhi by (unfold n; lia).
    rewrite Z.pow_add_r in Hlo, Hhi by lia.
    split; [apply Z.div_le_lower_bound; lia|apply Z.div_lt_upper_bound; lia]. }
  unfold binary_round_aux. rewrite Hshr. fold R.
  destruct (Z.eq_dec R (2 ^ 53)) as [Hcarry|Hnocarry].
  - rewrite Hcarry, shr_fexp_carry by lia.
    exists (Pos.pow 2 52), (e + n + 1), R. simpl shr_m.
    change (2 ^ 52) with (Z.pos (2 ^ 52)).
    replace (e + n + 1 <=? 1024 - 53) with true by (symmetry; apply Z.leb_le; lia).
    repeat split; try lia.
    replace (e + n + 1 - (e + n)) with 1 by lia. rewrite Hcarry. reflexivity.
  - assert (HRpos : 0 < R) by lia.
    destruct R as [|m|m] eqn:HRm; try lia.
    assert (Hd : Z.pos (digits2_pos m) = 53).
    { apply digits2_pos_unique. change (53 - 1) with 52. lia. }
    rewrite (shr_fexp_canonical m (e + n) Hd He). simpl shr_m.
    replace (e + n <=? 1024 - 53) with true by (symmetry; apply Z.leb_le; lia).
    exists m, (e + n), (Z.pos m).
    repeat split; try lia.
    rewrite Z.sub_diag. simpl. lia.
Qed.

Lemma binary_round_aux_canonical (s : bool) (m : positive) (e : Z) :
  Z.pos (digits2_pos m) = 53 -> -1074 <= e <= 971 ->
  binary_round_aux 53 1024 s (Z.pos m) e loc_Exact = S754_finite s m e.
Proof.
  intros Hd He. unfold binary_round_aux.
  rewrite shr_fexp_canonical by (auto; lia). simpl.
  rewrite shr_fexp_canonical by (auto; lia). simpl.
  replace (e <=? 1024 - 53) with true by (symmetry; apply Z.leb_le; lia).
  reflexivity.
Qed.

Lemma pow2_lt_inv (a b : Z) : 0 <= b -> 2 ^ a < 2 ^ b -> a < b.
Proof.
  intros Hb H. destruct (Z.lt_ge_cases a b) as [|Hge]; [assumption|].
  assert (2 ^ b <= 2 ^ a) by (apply Z.pow_le_mono_r; lia). lia.
Qed.

(** [float(z)] is exact below [2^53]: the mantissa is [z] shifted to 53
    digits. *)
Lemma of_int_pos (z : positive) :
  let d := Z.pos (digits2_pos z) in
  d <= 53 ->
  exists m, of_int (Z.pos z) = S754_finite false m (d - 53)
            /\ Z.pos m = Z.pos z * 2 ^ (53 - d).
Proof.
  intros d Hd. unfold of_int, binary_normalize, binary_round, shl_align, fexp, emin.
  unfold Float64.prec, Float64.emax. fold d.
  replace (Z.max (d + 0 - 53) (3 - 1024 - 53) - 0) with (d - 53) by lia.
  replace (Z.max (d + 0 - 53) (3 - 1024 - 53)) with (d - 53) by lia.
  pose proof (digits2_pos_bounds z) as Hz. fold d in Hz.
  destruct (d - 53) as [|k|k] eqn:Hk; try lia.
  - exists z. replace (53 - d) with 0 by lia.
    rewrite binary_round_aux_canonical by (unfold d in *; lia).
    split; [reflexivity|]. simpl. lia.
  - exists (Pos.iter xO z k).
    assert (Hm : Z.pos (Pos.iter xO z k) = Z.pos z * 2 ^ (53 - d)).
    { rewrite iter_xO. do 2 f_equal. lia. }
    rewrite binary_round_aux_canonical; [auto| |lia].
    apply digits2_pos_unique. rewrite Hm.
    assert (Hpow : 0 < 2 ^ (53 - d)) by (apply Z.pow_pos_nonneg; lia).
    assert (H52 : 2 ^ (53 - 1) = 2 ^ (d - 1) * 2 ^ (53 - d)).
    { rewrite <- Z.pow_add_r by (unfold d; lia). f_equal. lia. }
    assert (H53 : 2 ^ 53 = 2 ^ d * 2 ^ (53 - d)).
    { rewrite <- Z.pow_add_r by (unfold d; lia). f_equal. lia. }
    rewrite H52, H53. nia.
Qed.

Lemma validation_ratio_bits :
  literal 15 100 = S754_finite false 5404319552844595 (-55).
Proof. vm_compute. reflexivity. Qed.

(** Below [2^48] the truncated binary64 product [int(z * 0.15)] is the
    integer part of the exact product. *)
Lemma to_int_mul_ratio (z : Z) :
  0 <= z < 2 ^ 48 ->
  to_int (mul (of_int z) (literal 15 100)) = Return (15 * z / 100).
Proof.
  intros [Hz0 Hz]. rewrite validation_ratio_bits.
  destruct z as [|zp|zp]; [reflexivity| |lia].
  pose proof (digits2_pos_bounds zp) as Hd.
  set (d := Z.pos (digits2_pos zp)) in *.
  assert (Hd1 : 1 <= d) by (unfold d; lia).
  assert (Hd48 : d <= 48).
  { assert (d - 1 < 48) by (apply pow2_lt_inv; lia). lia. }
  destruct (of_int_pos zp) as (m1 & Hof & Hm1); [fold d; lia|].
  fold d in Hof, Hm1. rewrite Hof.
  unfold mul, SFmul, Float64.prec, Float64.emax. simpl xorb.
  set (A := 2 ^ (53 - d)) in *.
  assert (HA : 2 ^ 5 <= A) by (apply Z.pow_le_mono_r; lia).
  assert (H52 : 2 ^ 52 = 2 ^ (d - 1) * A).
  { unfold A. rewrite <- Z.pow_add_r by lia. f_equal. lia. }
  assert (H53 : 2 ^ 53 = 2 ^ d * A).
  { unfold A. rewrite <- Z.pow_add_r by lia. f_equal. lia. }
  assert (Hm1b : 2 ^ 52 <= Z.pos m1 < 2 ^ 53) by (rewrite H52, H53; nia).
  clear H52 H53 Hd.
  pose proof (digits2_pos_bounds (m1 * 5404319552844595)) as HdP.
  set (dP := Z.pos (digits2_pos (m1 * 5404319552844595))) in *.
  rewrite Pos2Z.inj_mul in HdP.
  assert (HdP' : dP = 105 \/ dP = 106).
  { assert (dP - 1 < 106) by (apply pow2_lt_inv; lia).
    assert (104 < dP) by (apply pow2_lt_inv; [unfold dP|]; lia). lia. }
  destruct (binary_round_aux_large false (m1 * 5404319552844595) (d - 53 + -55))
    as (m' & e'' & R & Hres & He'' & Hval & HRb & Hup & Hdown);
    fold dP; [lia..|].
  fold dP in Hres, He'', Hval, HRb, Hup, Hdown.
  rewrite Hres. unfold to_int.
  destruct (decide (0 <= e'')) as [|_]; [lia|]. f_equal.
  rewrite Pos2Z.inj_mul in HRb, Hup, Hdown.
  pose proof (Z.div_mod (15 * Z.pos zp) 100 ltac:(lia)) as HQ.
  pose proof (Z.mod_pos_bound (15 * Z.pos zp) 100 ltac:(lia)) as Hrho.
  set (Q := 15 * Z.pos zp / 100) in *. set (rho := (15 * Z.pos zp) mod 100) in *.
  assert (HQ0 : 0 <= Q) by (unfold Q; apply Z.div_pos; lia).
  assert (Hrho5 : rho = 0 \/ 5 <= rho) by lia.
  assert (HQA : 15 * Z.pos m1 = 100 * (Q * A) + rho * A) by (rewrite Hm1; nia).
  assert (HrhoA : 0 <= rho * A <= 99 * A) by nia.
  assert (HrhoA5 : rho = 0 /\ rho * A = 0 \/ 5 * A <= rho * A) by nia.
  assert (HQA0 : 0 <= Q * A) by nia.
  clear HQ Hrho Hrho5 Hm1 Hof Hres.
  set (QA := Q * A) in *. set (rhoA := rho * A) in *.
  assert (HQAdef : QA = Q * A) by reflexivity.
  set (P := Z.pos m1 * 5404319552844595) in *.
  assert (HW : 2 ^ (- e'') * 2 ^ (e'' - (d - 53 + -55 + (dP - 53)))
               = 2 ^ (108 - d - (dP - 53))).
  { rewrite <- Z.pow_add_r by lia. f_equal. lia. }
  assert (HS : 2 ^ (108 - d - (dP - 53)) * 2 ^ (dP - 53) = 2 ^ 55 * A).
  { unfold A. rewrite <- !Z.pow_add_r by lia. f_equal. lia. }
  assert (Hj : e'' - (d - 53 + -55 + (dP - 53)) = 0
               \/ e'' - (d - 53 + -55 + (dP - 53)) = 1) by lia.
  assert (HWpos : 0 < 2 ^ (- e'')) by (apply Z.pow_pos_nonneg; lia).
  set (W := 2 ^ (- e'')) in *.
  set (S := 2 ^ (108 - d - (dP - 53))) in *.
  pose proof (Z.div_mod P (2 ^ (dP - 53)) ltac:(apply Z.pow_nonzero; lia)) as Hdiv.
  pose proof (Z.mod_pos_bound P (2 ^ (dP - 53)) ltac:(apply Z.pow_pos_nonneg; lia)) as Hmod.
  set (q := P / 2 ^ (dP - 53)) in *. set (r := P mod 2 ^ (dP - 53)) in *.
  assert (HP : P = Z.pos m1 * 5404319552844595) by reflexivity.
  clearbody P QA rhoA q r W S.
  assert (Hgoal : Q * W <= Z.pos m' < Q * W + W).
  { destruct HdP' as [HdP'|HdP']; rewrite HdP' in *;
      change (2 ^ (105 - 53)) with 4503599627370496 in *;
      change (2 ^ (106 - 53)) with 9007199254740992 in *;
      change (2 ^ 55) with 36028797018963968 in *;
      change (2 ^ 52) with 4503599627370496 in *;
      change (2 ^ 53) with 9007199254740992 in *;
      change (2 ^ 5) with 32 in *;
      destruct Hj as [Hj|Hj]; rewrite Hj in *;
      [ change (2 ^ 0) with 1 in * | change (2 ^ 1) with 2 in *
      | change (2 ^ 0) with 1 in * | change (2 ^ 1) with 2 in * ].
    - assert (HWA : W = 8 * A) by lia.
      assert (HQW : Q * W = 8 * QA) by (rewrite HWA, HQAdef; ring).
      rewrite HQW. destruct HrhoA5 as [[Hr0 HrA0]|HrA5]; lia.
    - assert (HWA : W = 4 * A) by lia.
      assert (HQW : Q * W = 4 * QA) by (rewrite HWA, HQAdef; ring).
      rewrite HQW. destruct HrhoA5 as [[Hr0 HrA0]|HrA5]; lia.
    - assert (HWA : W = 4 * A) by lia.
      assert (HQW : Q * W = 4 * QA) by (rewrite HWA, HQAdef; ring).
      rewrite HQW. destruct HrhoA5 as [[Hr0 HrA0]|HrA5]; lia.
    - assert (HWA : W = 2 * A) by lia.
      assert (HQW : Q * W = 2 * QA) by (rewrite HWA, HQAdef; ring).
      rewrite HQW. destruct HrhoA5 as [[Hr0 HrA0]|HrA5]; lia. }
  symmetry. apply (Z.div_unique_pos _ _ _ (Z.pos m' - Q * W)); lia.
Qed.

End Rounding.

(** ** Recommender thresholds *)

(** The comparison [n > total * c] of an integer with the binary64 product
    of an integer below [2^48] and a constant [c] within [4 * 2^-53 / 10]
    of [k/10]: unless [n] is exactly [k/10] of [total], the rounding of the
    product does not change the outcome. *)
Lemma int_gtb_mul_ratio (n total : Z) (c : positive) (ec k delta : Z) :
  0 < total < 2 ^ 48 ->
  2 ^ 52 <= Z.pos c < 2 ^ 53 ->
  -56 <= ec <= -53 ->
  10 * Z.pos c = k * 2 ^ (- ec) + delta ->
  -4 <= delta <= 4 ->
  10 * n <> k * total ->
  int_gtb n (mul (of_int total) (S754_finite false c ec))
  = bool_decide (k * total < 10 * n).
Proof.
  intros [Hz0 Hz] Hc Hec Hk Hdelta Hne.
  destruct total as [|zp|zp]; [lia| |lia].
  pose proof (digits2_pos_bounds zp) as Hd.
  set (d := Z.pos (digits2_pos zp)) in *.
  assert (Hd1 : 1 <= d) by (unfold d; lia).
  assert (Hd48 : d <= 48).
  { assert (d - 1 < 48) by (apply pow2_lt_inv; lia). lia. }
  destruct (of_int_pos zp) as (m1 & Hof & Hm1); [fold d; lia|].
  fold d in Hof, Hm1. rewrite Hof.
  unfold mul, SFmul, Float64.prec, Float64.emax. simpl xorb.
  set (A := 2 ^ (53 - d)) in *.
  assert (HA : 2 ^ 5 <= A) by (apply Z.pow_le_mono_r; lia).
  assert (H52 : 2 ^ 52 = 2 ^ (d - 1) * A).
  { unfold A. rewrite <- Z.pow_add_r by lia. f_equal. lia. }
  assert (H53 : 2 ^ 53 = 2 ^ d * A).
  { unfold A. rewrite <- Z.pow_add_r by lia. f_equal. lia. }
  assert (Hm1b : 2 ^ 52 <= Z.pos m1 < 2 ^ 53) by (rewrite H52, H53; nia).
  clear H52 H53 Hd.
  pose proof (digits2_pos_bounds (m1 * c)) as HdP.
  set (dP := Z.pos (digits2_pos (m1 * c))) in *.
  rewrite Pos2Z.inj_mul in HdP.
  assert (HdP' : dP = 105 \/ dP = 106).
  { assert (dP - 1 < 106).
    { apply pow2_lt_inv; [lia|]. change (2 ^ 106) with (2 ^ 53 * 2 ^ 53). nia. }
    assert (104 < dP).
    { apply pow2_lt_inv; [unfold dP; lia|]. change (2 ^ 104) with (2 ^ 52 * 2 ^ 52). nia. }
    lia. }
  destruct (binary_round_aux_large false (m1 * c) (d - 53 + ec))
    as (m' & e'' & R & Hres & He'' & Hval & HRb & Hup & Hdown);
    fold dP; [lia..|].
  fold dP in Hres, He'', Hval, HRb, Hup, Hdown.
  rewrite Hres. unfold int_gtb.
  destruct (decide (0 <= e'')) as [|_]; [lia|].
  rewrite Pos2Z.inj_mul in HRb. clear Hup Hdown Hres Hof.
  set (E := 2 ^ (- ec)) in *.
  assert (HE : 2 ^ 53 <= E) by (apply Z.pow_le_mono_r; lia).
  set (B := 2 ^ (dP - 53)) in *.
  assert (HB : 0 < B <= 2 ^ 53).
  { split; [apply Z.pow_pos_nonneg; lia|apply Z.pow_le_mono_r; lia]. }
  set (J := 2 ^ (e'' - (d - 53 + ec + (dP - 53)))) in *.
  assert (HJ : 0 < J) by (apply Z.pow_pos_nonneg; lia).
  set (W := 2 ^ (- e'')) in *.
  assert (HWJB : W * J * B = A * E).
  { unfold W, J, B, A, E. rewrite <- !Z.pow_add_r by lia. f_equal. lia. }
  pose proof (Z.div_mod (Z.pos m1 * Z.pos c) B ltac:(lia)) as Hdiv.
  pose proof (Z.mod_pos_bound (Z.pos m1 * Z.pos c) B ltac:(lia)) as Hmod.
  set (q := Z.pos m1 * Z.pos c / B) in *.
  set (r := (Z.pos m1 * Z.pos c) mod B) in *.
  (* the float is within one unit of the exact product *)
  assert (HRB : 10 * (Z.pos m1 * Z.pos c) - 10 * B <= 10 * (R * B)
                <= 10 * (Z.pos m1 * Z.pos c) + 10 * B).
  { assert (HRq : R = q \/ R = q + 1) by lia.
    destruct HRq as [->| ->]; lia. }
  (* the exact product is within 4 m1 of k * total * A * E / 10 *)
  assert (HP : 10 * (Z.pos m1 * Z.pos c) = k * (Z.pos zp * (A * E)) + delta * Z.pos m1).
  { rewrite Hm1. replace (10 * (Z.pos zp * A * Z.pos c))
      with (Z.pos zp * A * (10 * Z.pos c)) by ring. rewrite Hk. ring. }
  change (2 ^ 5) with 32 in HA.
  change (2 ^ 52) with 4503599627370496 in *.
  change (2 ^ 53) with 9007199254740992 in *.
  assert (HE0 : 0 < E) by lia.
  assert (Hdm : -4 * 9007199254740992 <= delta * Z.pos m1 <= 4 * 9007199254740992).
  { clear -Hdelta Hm1b. nia. }
  assert (HAE : 32 * E <= A * E).
  { apply Z.mul_le_mono_nonneg_r; lia. }
  assert (HJB : 0 < J * B) by (apply Z.mul_pos_pos; lia).
  assert (Htest : Z.pos m' < n * W <-> R * B < n * (A * E)).
  { rewrite <- HWJB, <- Hval.
    replace (n * (W * J * B)) with (n * W * (J * B)) by ring.
    replace (Z.pos m' * J * B) with (Z.pos m' * (J * B)) by ring.
    split; intros Hlt.
    - apply Z.mul_lt_mono_pos_r; assumption.
    - apply Z.mul_lt_mono_pos_r in Hlt; assumption. }
  set (H := A * E) in *.
  assert (HH : 0 < H) by lia.
  destruct (decide (k * Z.pos zp < 10 * n)) as [Hlt|Hge].
  - rewrite (bool_decide_eq_true_2 (k * Z.pos zp < 10 * n)) by exact Hlt.
    apply bool_decide_eq_true_2, Htest.
    assert (Hstep : (k * Z.pos zp + 1) * H <= 10 * n * H).
    { apply Z.mul_le_mono_nonneg_r; lia. }
    lia.
  - rewrite (bool_decide_eq_false_2 (k * Z.pos zp < 10 * n)) by exact Hge.
    apply bool_decide_eq_false_2. rewrite Htest.
    assert (Hstep : (10 * n + 1) * H <= k * Z.pos zp * H).
    { apply Z.mul_le_mono_nonneg_r; lia. }
    lia.
Qed.

(** Away from an exact share the binary64 test [n > total * (k/10)] is the
    exact comparison of the share with [k/10]. *)
Lemma exceeds_exact (n total k : Z) :
  k = 7 \/ k = 5 \/ k = 3 \/ k = 2 ->
  0 < total < 2 ^ 48 ->
  10 * n <> k * total ->
  exceeds n total (literal k 10) = bool_decide (k * total < 10 * n).
Proof.
  intros Hk Ht Hne. unfold exceeds.
  destruct Hk as [->|[->|[->| ->]]].
  - change (literal 7 10) with (S754_finite false 6305039478318694 (-53)).
    apply (int_gtb_mul_ratio _ _ _ _ 7 (-4)); try assumption; try lia; reflexivity.
  - change (literal 5 10) with (S754_finite false 4503599627370496 (-53)).
    apply (int_gtb_mul_ratio _ _ _ _ 5 0); try assumption; try lia; reflexivity.
  - change (literal 3 10) with (S754_finite false 5404319552844595 (-54)).
    apply (int_gtb_mul_ratio _ _ _ _ 3 (-2)); try assumption; try lia; reflexivity.
  - change (literal 2 10) with (S754_finite false 7205759403792794 (-55)).
    apply (int_gtb_mul_ratio _ _ _ _ 2 4); try assumption; try lia; reflexivity.
Qed.

(** Away from the exact shares of 70%, 30% and 20%, and below [2^48] gaps,
    the fallback selects by the shares themselves, in the order short,
    medium, long. *)
Lemma recommend_fallback_shares (ps : PatternSummary) (gap_dist : gmap string Z) :
  primary_pattern ps <> "system_wide_failures" ->
  primary_pattern ps <> "individual_equipment_failures" ->
  let short_gaps :=
    dist_get gap_dist "1h" + dist_get gap_dist "2h" + dist_get gap_dist "3h" in
  let medium_gaps :=
    dist_get gap_dist "6h" + dist_get gap_dist "12h" + dist_get gap_dist "1d" in
  let long_gaps :=
    dist_get gap_dist "2d" + dist_get gap_dist "1w" + dist_get gap_dist ">1w" in
  let total_gaps := dist_total gap_dist in
  0 < total_gaps < 2 ^ 48 ->
  10 * short_gaps <> 7 * total_gaps ->
  10 * medium_gaps <> 3 * total_gaps ->
  10 * long_gaps <> 2 * total_gaps ->
  primary_method (recommend_methods_generic ps gap_dist)
  = if bool_decide (7 * total_gaps < 10 * short_gaps) then "spline_interpolation"
    else if bool_decide (3 * total_gaps < 10 * medium_gaps) then "gaussian_process"
    else if bool_decide (2 * total_gaps < 10 * long_gaps) then "physics_based_model"
    else "unknown".
Proof.
  intros Hs Hi short_gaps medium_gaps long_gaps total_gaps Ht H7 H3 H2.
  rewrite recommend_fallback_order by (assumption || (fold total_gaps; lia)).
  cbv zeta. fold short_gaps medium_gaps long_gaps total_gaps.
  rewrite !exceeds_exact by (assumption || tauto). reflexivity.
Qed.

(** ** Validation split *)

Section Masks.

Lemma count_true_cons b mask :
  count_true (b :: mask) = ((if b then 1 else 0) + count_true mask)%nat.
Proof. unfold count_true. simpl. destruct b; reflexivity. Qed.

Lemma count_true_le mask : (count_true mask <= length mask)%nat.
Proof.
  induction mask as [|b mask IH]; [reflexivity|].
  rewrite count_true_cons. simpl. destruct b; lia.
Qed.

Lemma select_seqZ_length mask s :
  length (select mask (seqZ s (Z.of_nat (length mask)))) = count_true mask.
Proof.
  revert s. induction mask as [|b mask IH]; intros s; [reflexivity|].
  cbn [length]. rewrite Nat2Z.inj_succ, seqZ_cons by lia.
  replace (Z.pred (Z.succ (Z.of_nat (length mask)))) with (Z.of_nat (length mask)) by lia.
  rewrite count_true_cons. cbn [select]. destruct b; cbn [length]; rewrite IH; reflexivity.
Qed.

Lemma select_seqZ_elem mask s i :
  i ∈ select mask (seqZ s (Z.of_nat (length mask))) ->
  s <= i < s + Z.of_nat (length mask) /\ mask !! Z.to_nat (i - s) = Some true.
Proof.
  revert s. induction mask as [|b mask IH]; intros s; [intros H; inversion H|].
  cbn [length]. rewrite Nat2Z.inj_succ, seqZ_cons by lia.
  replace (Z.pred (Z.succ (Z.of_nat (length mask)))) with (Z.of_nat (length mask)) by lia.
  cbn [select]. intros Hin.
  assert (Hrest : i ∈ select mask (seqZ (Z.succ s) (Z.of_nat (length mask))) ->
            s <= i < s + Z.succ (Z.of_nat (length mask))
            /\ (b :: mask) !! Z.to_nat (i - s) = Some true).
  { intros H. destruct (IH _ H) as [Hr Hl]. split; [lia|].
    replace (Z.to_nat (i - s)) with (S (Z.to_nat (i - Z.succ s))) by lia. exact Hl. }
  destruct b; [|auto].
  apply elem_of_cons in Hin. destruct Hin as [->|Hin]; [|auto].
  split; [lia|]. rewrite Z.sub_diag. reflexivity.
Qed.

Lemma select_seqZ_NoDup mask s : NoDup (select mask (seqZ s (Z.of_nat (length mask)))).
Proof.
  revert s. induction mask as [|b mask IH]; intros s; [constructor|].
  cbn [length]. rewrite Nat2Z.inj_succ, seqZ_cons by lia.
  replace (Z.pred (Z.succ (Z.of_nat (length mask)))) with (Z.of_nat (length mask)) by lia.
  cbn [select]. destruct b; [|apply IH].
  constructor; [|apply IH].
  intros Hin. apply select_seqZ_elem in Hin. lia.
Qed.

End Masks.

Section CompleteRows.

(** The rows that [complete_mask] marks hold a value in every power
    column. *)
Lemma complete_mask_fold (cs : list (string * column)) power_columns : forall mask0 mask,
  foldM (fun mask col =>
           match col_lookup col cs with
           | Some v => Return (zip_with andb mask (map negb (col_isna v)))
           | None => Raise (KeyError col)
           end) mask0 power_columns = Return mask ->
  (length mask <= length mask0)%nat
  /\ (forall col, col ∈ power_columns -> exists v, col_lookup col cs = Some v)
  /\ (forall i, mask !! i = Some true ->
        mask0 !! i = Some true
        /\ forall col, col ∈ power_columns ->
             exists v, col_lookup col cs = Some v /\ col_isna v !! i = Some false).
Proof.
  induction power_columns as [|col pcs IH]; intros mask0 mask; cbn [foldM].
  - intros [= <-]. split; [lia|]. split; [intros c Hc; inversion Hc|].
    intros i Hi. split; [exact Hi|]. intros c Hc. inversion Hc.
  - destruct (col_lookup col cs) as [v|] eqn:Hv; [|discriminate].
    cbn [mbind result_bind]. intros Hrest.
    destruct (IH _ _ Hrest) as (Hlen & Hex & Hrows).
    split; [rewrite length_zip_with in Hlen; lia|].
    split.
    + intros c Hc. apply elem_of_cons in Hc. destruct Hc as [->|Hc]; eauto.
    + intros i Hi. destruct (Hrows i Hi) as [Hz Hcols].
      apply lookup_zip_with_Some in Hz. destruct Hz as (a & b & Hab & Ha & Hb).
      symmetry in Hab. apply andb_true_iff in Hab. destruct Hab as [-> ->].
      split; [exact Ha|].
      intros c Hc. apply elem_of_cons in Hc. destruct Hc as [->|Hc]; [|auto].
      exists v. split; [exact Hv|].
      rewrite list_lookup_fmap in Hb.
      destruct (col_isna v !! i) as [[|]|]; simpl in Hb; congruence.
Qed.

Lemma complete_mask_spec (df : DataFrame) power_columns mask :
  complete_mask df power_columns = Return mask ->
  (length mask <= nrows df)%nat
  /\ (forall col, col ∈ power_columns -> exists v, col_lookup col (cols df) = Some v)
  /\ (forall i, mask !! i = Some true ->
        forall col, col ∈ power_columns ->
          exists v, col_lookup col (cols df) = Some v /\ col_isna v !! i = Some false).
Proof.
  intros H. destruct (complete_mask_fold _ _ _ _ H) as (Hlen & Hex & Hrows).
  rewrite length_replicate in Hlen.
  split; [exact Hlen|]. split; [exact Hex|].
  intros i Hi. apply (Hrows i Hi).
Qed.

End CompleteRows.

Lemma mapM_Return {A B} (f : A -> result B) (l : list A) :
  (forall x, x ∈ l -> exists y, f x = Return y) ->
  exists ys, mapM f l = Return ys.
Proof.
  induction l as [|x l IH]; intros H; [exists []; reflexivity|].
  destruct (H x) as [y Hy]; [apply elem_of_cons; auto|].
  destruct IH as [ys Hys]; [intros z Hz; apply H, elem_of_cons; auto|].
  exists (y :: ys). cbn [mapM]. rewrite Hy. cbn [mbind result_bind].
  rewrite Hys. reflexivity.
Qed.

Lemma n_validation_floor (n : nat) :
  Z.of_nat n < 2 ^ 48 ->
  n_validation n (literal 15 100) = Return (Z.max 10 (15 * Z.of_nat n / 100)).
Proof.
  intros Hn. unfold n_validation. rewrite to_int_mul_ratio by lia. reflexivity.
Qed.

Section ValidationSplit.
Context {stats : Statistics}.
Hypothesis Hchoice : choice_without_replacement stats.

Lemma validation_data_Return (df : DataFrame) power_columns labels :
  (forall col, col ∈ power_columns -> exists v, col_lookup col (cols df) = Some v) ->
  (forall i, i ∈ labels -> 0 <= i < Z.of_nat (nrows df)) ->
  forall data0, exists data,
    foldM (fun (data : gmap string (list cell)) col =>
             match col_lookup col (cols df) with
             | Some v =>
                 cells ← loc_cells v (nrows df) labels;
                 Return (<[col := cells]> data)
             | None => Raise (KeyError col)
             end) data0 power_columns = Return data.
Proof.
  intros Hcols Hlabels.
  induction power_columns as [|col pcs IH]; intros data0; cbn [foldM]; [eauto|].
  destruct (Hcols col) as [v Hv]; [apply elem_of_cons; auto|].
  rewrite Hv.
  destruct (mapM_Return (fun i => if decide (0 <= i < Z.of_nat (nrows df))
                                  then Return (cell_at v (Z.to_nat i))
                                  else Raise (KeyError "row label")) labels) as [cells Hcells].
  { intros i Hi. destruct (decide _) as [|Hn]; [eauto|]. destruct Hn. auto. }
  unfold loc_cells. rewrite Hcells. cbn [mbind result_bind].
  apply IH. intros c Hc. apply Hcols, elem_of_cons. auto.
Qed.

(** C6 (amended).  For every frame of fewer than 2^48 rows whose power
    columns all exist: with at least 20 complete rows the split succeeds
    and chooses max(10, floor(15%)) of the complete rows, the 15% being
    truncated, not rounded up; the chosen indices are distinct rows of
    the frame in which no power column is missing; with fewer than 20
    complete rows the split returns the frame with the diagnostic marker
    and raises nothing.  The choice is the seeded one, a function of the
    complete rows and of the count. *)
Theorem C6_validation_split (df : DataFrame) (power_columns : list string)
    (mask : list bool) :
  complete_mask df power_columns = Return mask ->
  Z.of_nat (nrows df) < 2 ^ 48 ->
  ((20 <= count_true mask)%nat ->
     exists df_validation validation_indices validation_data,
       create_validation_split df power_columns (literal 15 100)
       = Return (df_validation,
                 ValidationInfo validation_indices validation_data
                                (Z.of_nat (length validation_indices)))
       /\ Z.of_nat (length validation_indices)
          = Z.max 10 (15 * Z.of_nat (count_true mask) / 100)
       /\ NoDup validation_indices
       /\ forall i, i ∈ validation_indices ->
            0 <= i < Z.of_nat (nrows df)
            /\ forall col, col ∈ power_columns ->
                 exists v, col_lookup col (cols df) = Some v
                           /\ col_isna v !! Z.to_nat i = Some false)
  /\ ((count_true mask < 20)%nat ->
        create_validation_split df power_columns (literal 15 100)
        = Return (df, ValidationError "Insufficient complete data for validation")).
Proof.
  intros Hmask Hrows.
  destruct (complete_mask_spec _ _ _ Hmask) as (Hlen & Hcols & Hcomplete).
  pose proof (count_true_le mask) as Hcount.
  unfold create_validation_split. rewrite Hmask. cbn [mbind result_bind].
  unfold indices_where. rewrite select_seqZ_length.
  split; intros Hk.
  - destruct (decide (count_true mask < 20)%nat); [lia|].
    rewrite n_validation_floor by lia. cbn [mbind result_bind].
    set (k := Z.max 10 (15 * Z.of_nat (count_true mask) / 100)).
    assert (Hkle : 10 <= k <= Z.of_nat (count_true mask)).
    { unfold k. split; [lia|]. apply Z.max_lub; [lia|].
      apply Z.div_le_upper_bound; lia. }
    destruct (Hchoice (select mask (seqZ 0 (Z.of_nat (length mask)))) (Z.to_nat k))
      as (chosen & Hch & Hsize & Hsub & Hnodup).
    { rewrite select_seqZ_length. lia. }
    rewrite Hch. cbn [mbind result_bind].
    assert (Hin : forall i, i ∈ chosen ->
              0 <= i < Z.of_nat (length mask) /\ mask !! Z.to_nat i = Some true).
    { intros i Hi. apply Hsub, select_seqZ_elem in Hi.
      rewrite Z.sub_0_r in Hi. exact Hi. }
    destruct (validation_data_Return df power_columns chosen Hcols) with (data0 := (∅ : gmap string (list cell)))
      as [data Hdata].
    { intros i Hi. destruct (Hin i Hi). lia. }
    rewrite Hdata. cbn [mbind result_bind].
    eexists _, chosen, data. split; [reflexivity|].
    split; [rewrite Hsize; lia|].
    split; [apply Hnodup, select_seqZ_NoDup|].
    intros i Hi. destruct (Hin i Hi) as [Hr Ht].
    split; [lia|]. apply Hcomplete. exact Ht.
  - destruct (decide (count_true mask < 20)%nat); [reflexivity|lia].
Qed.

End ValidationSplit.

Lemma sample_choice : choice_without_replacement sample_statistics.
Proof.
  intros population size Hsize. exists (take size population).
  split; [reflexivity|]. split; [rewrite length_take; lia|].
  split; [apply subseteq_take|].
  intros H. eapply sublist_NoDup; [exact H|apply sublist_take].
Qed.

(** Thirty complete rows: ten validation indices. *)
Lemma C6_witness :
  exists df_validation validation_indices validation_data,
    create_validation_split (stats := sample_statistics)
      (sample_frame 0 (replicate 30 (of_int 1))) ["power"] (literal 15 100)
    = Return (df_validation,
              ValidationInfo validation_indices validation_data
                             (Z.of_nat (length validation_indices)))
    /\ Z.of_nat (length validation_indices) = 10.
Proof.
  destruct (C6_validation_split sample_choice
              (sample_frame 0 (replicate 30 (of_int 1))) ["power"] (replicate 30 true))
    as [H _]; [reflexivity|vm_compute; reflexivity|].
  destruct H as (d & i & v & H1 & H2 & _); [vm_compute; lia|].
  exists d, i, v. split; [exact H1|]. rewrite H2. reflexivity.
Defined.

(** C6 as stated fails with 70 complete rows: 15% is 10.5, the claim asks
    for 11 indices and the split chooses 10. *)
Lemma C6_seventy_complete_rows :
  match create_validation_split (stats := sample_statistics)
          (sample_frame 0 (replicate 70 (of_int 1))) ["power"] (literal 15 100) with
  | Return (_, ValidationInfo validation_indices _ _) => Some (length validation_indices)
  | _ => None
  end = Some 10%nat
  /\ Z.max 10 ((15 * 70 + 99) / 100) = 11.
Proof. split; vm_compute; reflexivity. Qed.

(** * Further properties of the code *)

(** ** The solar-constraint post-processor: what it returns *)

Lemma set_where_lookup mask v xs i :
  set_where mask v xs !! i
  = (fun x => if default false (mask !! i) then v else x) <$> xs !! i.
Proof.
  revert mask i. induction xs as [|x xs IH]; intros mask i.
  - destruct mask; reflexivity.
  - destruct mask as [|b mask].
    + simpl. destruct (_ !! i); reflexivity.
    + destruct i as [|i]; simpl; [reflexivity|apply IH].
Qed.

Lemma constrained_lookup night_mask xs i :
  constrained night_mask xs !! i
  = (fun x => if default false (night_mask !! i) then zero
              else if isna x || geb x zero then x else zero) <$> xs !! i.
Proof.
  unfold constrained, clip_lower. rewrite list_lookup_fmap, set_where_lookup.
  destruct (xs !! i) as [x|]; [|reflexivity]. simpl.
  destruct (default false (night_mask !! i)); reflexivity.
Qed.

(** The values of the power columns after a pass: each one is the
    constrained column of the frame, or of a column of missing values when
    the frame has none of that name. *)
Lemma constrain_columns_value n night_mask power_columns : forall cs cs',
  foldM (constrain_column n night_mask) cs power_columns = Return cs' ->
  forall col, col ∈ power_columns ->
    col_lookup col cs'
    = Some (NumCol (constrained night_mask
                      match col_lookup col cs with
                      | Some (NumCol xs) => xs
                      | _ => replicate n nan
                      end)).
Proof.
  induction power_columns as [|c pcs IH]; intros cs cs'; cbn [foldM].
  - intros _ col Hcol. inversion Hcol.
  - destruct (constrain_column n night_mask cs c) as [cs1|e] eqn:Hstep; [|discriminate].
    cbn [mbind result_bind]. intros Hrest col Hcol.
    assert (Hc1 : col_lookup c cs1
                  = Some (NumCol (constrained night_mask
                                    match col_lookup c cs with
                                    | Some (NumCol xs) => xs
                                    | _ => replicate n nan
                                    end))).
    { revert Hstep. unfold constrain_column.
      destruct (col_lookup c cs) as [[ts|xs]|]; [discriminate| |].
      - intros [= <-]. apply col_lookup_set_eq.
      - destruct (decide (n = 0%nat)); [discriminate|].
        intros [= <-]. apply col_lookup_set_eq. }
    destruct (constrain_column_Return _ _ _ _ _ Hstep) as [_ Hother1].
    destruct (decide (col ∈ pcs)) as [Hin|Hnin].
    + rewrite (IH _ _ Hrest col Hin).
      destruct (decide (col = c)) as [->|Hne].
      * rewrite Hc1, constrained_idem. reflexivity.
      * rewrite Hother1 by exact Hne. reflexivity.
    + apply elem_of_cons in Hcol. destruct Hcol as [->|Hcol]; [|contradiction].
      destruct (constrain_columns_Return _ _ _ _ _ Hrest) as (_ & _ & Hother).
      rewrite Hother by exact Hnin. exact Hc1.
Qed.

(** The frame of a successful application, column by column. *)
Lemma solar_constraints_values (df df' : DataFrame) (power_columns : list string)
    (time_column : string) :
  time_column <> "hour" ->
  apply_solar_constraints df power_columns time_column = Return df' ->
  nrows df' = nrows df
  /\ exists ts,
       datetime_of (cols df) time_column = Return ts
       /\ col_lookup time_column (cols df') = Some (TimeCol ts)
       /\ (forall k, k ∉ power_columns -> k <> time_column -> k <> "hour" ->
             col_lookup k (cols df') = col_lookup k (cols df))
       /\ (forall col xs, col ∈ power_columns -> col <> "hour" ->
             col_lookup col (cols df) = Some (NumCol xs) ->
             exists ys,
               col_lookup col (cols df') = Some (NumCol ys)
               /\ length ys = length xs
               /\ forall i x, xs !! i = Some x ->
                    ys !! i = Some (if default false (night <$> ts !! i) then zero
                                    else if isna x || geb x zero then x else zero)).
Proof.
  intros Htc. unfold apply_solar_constraints.
  destruct (datetime_of (cols df) time_column) as [ts|e] eqn:Hts; [|discriminate].
  cbn [mbind result_bind].
  destruct (foldM _ _ power_columns) as [cs1|e] eqn:Hloop; [|discriminate].
  cbn [mbind result_bind]. intros [= <-]. cbn [nrows cols].
  split; [reflexivity|]. exists ts. split; [reflexivity|].
  destruct (constrain_columns_Return _ _ _ _ _ Hloop) as (_ & _ & Hother).
  split; [|split].
  - rewrite col_lookup_drop_ne by congruence.
    eapply constrain_columns_not_time; [exact Hloop|].
    rewrite col_lookup_set_ne by congruence. apply col_lookup_set_eq.
  - intros k Hk Hkt Hkh. rewrite col_lookup_drop_ne by congruence.
    rewrite Hother by exact Hk.
    rewrite !col_lookup_set_ne by congruence. reflexivity.
  - intros col xs Hcol Hne Hxs.
    assert (Hct : col <> time_column).
    { intros ->. pose proof (constrain_columns_value _ _ _ _ _ Hloop _ Hcol) as Hv.
      erewrite constrain_columns_not_time in Hv; [discriminate|exact Hloop|].
      rewrite col_lookup_set_ne by congruence. apply col_lookup_set_eq. }
    exists (constrained (map night ts) xs).
    rewrite col_lookup_drop_ne by congruence.
    rewrite (constrain_columns_value _ _ _ _ _ Hloop _ Hcol).
    rewrite !col_lookup_set_ne by congruence. rewrite Hxs.
    split; [reflexivity|]. split.
    + unfold constrained, clip_lower. rewrite length_map.
      clear. generalize (map night ts). induction xs as [|x xs IH]; intros [|b m];
        simpl; auto.
    + intros i x Hx. rewrite constrained_lookup, Hx. simpl.
      rewrite list_lookup_fmap. reflexivity.
Qed.

(** The columns of the frame that the post-processor returns. *)
Lemma solar_constraints_columns (df df' : DataFrame) (power_columns : list string)
    (time_column : string) :
  time_column <> "hour" ->
  apply_solar_constraints df power_columns time_column = Return df' ->
  (time_column ∉ power_columns)
  /\ exists ts,
       col_lookup time_column (cols df') = Some (TimeCol ts)
       /\ forall col, col ∈ power_columns -> col <> "hour" ->
            exists xs, col_lookup col (cols df')
                       = Some (NumCol (constrained (map night ts) xs)).
Proof.
  intros Htc. unfold apply_solar_constraints.
  destruct (datetime_of (cols df) time_column) as [ts|e] eqn:Hts; [|discriminate].
  cbn [mbind result_bind].
  destruct (foldM _ _ power_columns) as [cs1|e] eqn:Hloop; [|discriminate].
  cbn [mbind result_bind]. intros [= <-]. cbn [nrows cols].
  assert (Htime : col_lookup time_column cs1 = Some (TimeCol ts)).
  { eapply constrain_columns_not_time; [exact Hloop|].
    rewrite col_lookup_set_ne by congruence. apply col_lookup_set_eq. }
  split.
  - intros Hin. pose proof (constrain_columns_value _ _ _ _ _ Hloop _ Hin) as Hv.
    rewrite Htime in Hv. discriminate.
  - exists ts. split; [rewrite col_lookup_drop_ne by congruence; exact Htime|].
    intros col Hcol Hne. rewrite col_lookup_drop_ne by congruence.
    rewrite (constrain_columns_value _ _ _ _ _ Hloop _ Hcol). eauto.
Qed.

Lemma constrained_length (night_mask : list bool) (xs : list float) :
  length (constrained night_mask xs) = length xs.
Proof.
  unfold constrained, clip_lower. rewrite length_map. revert night_mask.
  induction xs as [|x xs IH]; intros [|b m]; simpl; auto.
Qed.

(** The scratch column is removed at the end, and with it a column named
    [hour] that the frame had. *)
Lemma solar_constraints_drop_hour (df df' : DataFrame) (power_columns : list string)
    (time_column : string) :
  apply_solar_constraints df power_columns time_column = Return df' ->
  col_lookup "hour" (cols df') = None.
Proof.
  unfold apply_solar_constraints.
  destruct (datetime_of (cols df) time_column) as [ts|e]; [|discriminate].
  cbn [mbind result_bind].
  destruct (foldM _ _ power_columns) as [cs1|e]; [|discriminate].
  cbn [mbind result_bind]. intros [= <-]. apply col_lookup_drop_eq.
Qed.

(** A power column that the frame does not have is created: 0 in the
    night rows, missing elsewhere. *)
Lemma solar_constraints_created (df df' : DataFrame) (power_columns : list string)
    (time_column : string) (ts : list timestamp) :
  time_column <> "hour" ->
  datetime_of (cols df) time_column = Return ts ->
  apply_solar_constraints df power_columns time_column = Return df' ->
  forall col, col ∈ power_columns -> col <> "hour" ->
    col_lookup col (cols df) = None ->
    exists ys,
      col_lookup col (cols df') = Some (NumCol ys)
      /\ length ys = nrows df
      /\ forall i, (i < nrows df)%nat ->
           ys !! i = Some (if default false (night <$> ts !! i) then zero else nan).
Proof.
  intros Htc Hts. unfold apply_solar_constraints. rewrite Hts.
  cbn [mbind result_bind].
  destruct (foldM _ _ power_columns) as [cs1|e] eqn:Hloop; [|discriminate].
  cbn [mbind result_bind]. intros [= <-] col Hcol Hne Hnone. cbn [nrows cols].
  assert (Hct : col <> time_column).
  { intros ->. unfold datetime_of in Hts. rewrite Hnone in Hts. discriminate. }
  exists (constrained (map night ts) (replicate (nrows df) nan)).
  rewrite col_lookup_drop_ne by congruence.
  rewrite (constrain_columns_value _ _ _ _ _ Hloop _ Hcol).
  rewrite !col_lookup_set_ne by congruence. rewrite Hnone.
  split; [reflexivity|]. split.
  - rewrite constrained_length. apply length_replicate.
  - intros i Hi. rewrite constrained_lookup, list_lookup_fmap.
    rewrite lookup_replicate_2 by exact Hi. reflexivity.
Qed.

(** Every successful application returns a frame with the rows of the
    input and the time column converted to timestamps.  A column named
    [hour] is not in it: the scratch column of that name is removed at
    the end.  Every other column that is not a power column is as it
    was.  A power column of numbers holds 0 in the night rows (hours 0 to
    5 and 19 to 23), also where the value was missing; elsewhere the
    value of the input if it is missing or at least 0, and 0 if it is
    negative.  A power column that the frame does not have is created,
    with 0 in the night rows and missing values elsewhere. *)
Theorem solar_constraints_result (df df' : DataFrame) (power_columns : list string)
    (time_column : string) (ts : list timestamp) :
  time_column <> "hour" ->
  datetime_of (cols df) time_column = Return ts ->
  apply_solar_constraints df power_columns time_column = Return df' ->
  nrows df' = nrows df
  /\ col_lookup time_column (cols df') = Some (TimeCol ts)
  /\ col_lookup "hour" (cols df') = None
  /\ (forall k, k ∉ power_columns -> k <> time_column -> k <> "hour" ->
        col_lookup k (cols df') = col_lookup k (cols df))
  /\ (forall col xs, col ∈ power_columns -> col <> "hour" ->
        col_lookup col (cols df) = Some (NumCol xs) ->
        exists ys,
          col_lookup col (cols df') = Some (NumCol ys)
          /\ length ys = length xs
          /\ forall i x, xs !! i = Some x ->
               ys !! i = Some (if default false (night <$> ts !! i) then zero
                               else if isna x || geb x zero then x else zero))
  /\ (forall col, col ∈ power_columns -> col <> "hour" ->
        col_lookup col (cols df) = None ->
        exists ys,
          col_lookup col (cols df') = Some (NumCol ys)
          /\ length ys = nrows df
          /\ forall i, (i < nrows df)%nat ->
               ys !! i = Some (if default false (night <$> ts !! i) then zero
                               else nan)).
Proof.
  intros Htc Hts Happly.
  destruct (solar_constraints_values _ _ _ _ Htc Happly)
    as (Hrows & ts' & Hts' & Htime & Hother & Hpower).
  rewrite Hts in Hts'. injection Hts' as <-.
  split; [exact Hrows|]. split; [exact Htime|].
  split; [exact (solar_constraints_drop_hour _ _ _ _ Happly)|].
  split; [exact Hother|]. split; [exact Hpower|].
  exact (solar_constraints_created _ _ _ _ _ Htc Hts Happly).
Qed.

(** A frame and the expected result, for the statement above. *)
Lemma solar_constraints_result_witness :
  nrows (sample_frame 4 [zero; zero; zero; nan]) = 4%nat
  /\ col_lookup "Time" (cols (sample_frame 4 [zero; zero; zero; nan]))
     = Some (TimeCol (map hours (seqZ 4 4))).
Proof.
  destruct (solar_constraints_result
              (sample_frame 4 [of_int 5; of_int 7; SFopp (of_int 3); nan])
              (sample_frame 4 [zero; zero; zero; nan]) ["power"] "Time"
              (map hours (seqZ 4 4)))
    as (Hrows & Htime & _); [discriminate|reflexivity|vm_compute; reflexivity|].
  split; [exact Hrows|exact Htime].
Defined.

(** ** Strategies *)

Section StrategyProperties.
Context {learn : Learners}.

Lemma datetime_of_set cs time_column ts :
  datetime_of (col_set time_column (TimeCol ts) cs) time_column = Return ts.
Proof. unfold datetime_of. rewrite col_lookup_set_eq. reflexivity. Qed.

Lemma col_set_set c v cs : col_set c v (col_set c v cs) = col_set c v cs.
Proof. apply col_set_same, col_lookup_set_eq. Qed.

Lemma apply_solar_constraints_converted df power_columns time_column ts :
  datetime_of (cols df) time_column = Return ts ->
  apply_solar_constraints
    {| nrows := nrows df; cols := col_set time_column (TimeCol ts) (cols df) |}
    power_columns time_column
  = apply_solar_constraints df power_columns time_column.
Proof.
  intros Hts. unfold apply_solar_constraints. cbn [nrows cols].
  rewrite datetime_of_set, Hts. cbn [mbind result_bind].
  rewrite col_set_set. reflexivity.
Qed.

(** The spline strategy interpolates a column only when more than three
    of its values are known: on a frame whose power columns all have three
    known values or fewer (or are absent), it returns what the solar
    post-processor alone returns. *)
Theorem spline_needs_four_points (self : interpolator) (df : DataFrame)
    (power_columns : list string) (time_column : string) :
  time_column ∉ power_columns ->
  (forall col v, col ∈ power_columns -> col_lookup col (cols df) = Some v ->
     (count_true (map negb (col_isna v)) <= 3)%nat) ->
  Spline_interpolate self df power_columns time_column
  = apply_solar_constraints df power_columns time_column.
Proof.
  intros Htc Hsparse. unfold Spline_interpolate.
  destruct (datetime_of (cols df) time_column) as [ts|e] eqn:Hts.
  2:{ unfold apply_solar_constraints. rewrite Hts. reflexivity. }
  cbn [mbind result_bind].
  assert (Hloop : forall pcs cs,
            (forall col v, col ∈ pcs -> col_lookup col cs = Some v ->
               (count_true (map negb (col_isna v)) <= 3)%nat) ->
            foldM (fun cs col =>
                match col_lookup col cs with
                | Some (NumCol xs) =>
                    let mask := map notna xs in
                    if decide (3 < count_true mask)%nat then
                      spline ← interp1d_cubic (select mask (map to_numeric_time ts))
                                 (select mask xs);
                      let missing_mask := map isna xs in
                      if decide (0 < count_true missing_mask)%nat then
                        assign_where (nrows df) missing_mask
                          (spline (select missing_mask (map to_numeric_time ts))) col cs
                      else Return cs
                    else Return cs
                | Some (TimeCol ts') =>
                    if decide (3 < count_true (map negb (col_isna (TimeCol ts'))))%nat
                    then Raise (TypeError "datetime values cannot be interpolated")
                    else Return cs
                | None => Return cs
                end) cs pcs = Return cs).
  { induction pcs as [|c pcs IH]; intros cs Hcs; cbn [foldM]; [reflexivity|].
    assert (Hstep : forall v, col_lookup c cs = Some v ->
              (count_true (map negb (col_isna v)) <= 3)%nat).
    { intros v. apply Hcs. apply elem_of_cons. auto. }
    destruct (col_lookup c cs) as [[ts'|xs]|].
    - specialize (Hstep _ eq_refl).
      destruct (decide (3 < _)%nat); [lia|]. cbn [mbind result_bind].
      apply IH. intros col v Hcol. apply Hcs. apply elem_of_cons. auto.
    - specialize (Hstep _ eq_refl). cbn [col_isna] in Hstep.
      rewrite map_map in Hstep. cbv zeta.
      change (map (fun x => negb (isna x)) xs) with (map notna xs) in Hstep.
      destruct (decide (3 < _)%nat); [lia|]. cbn [mbind result_bind].
      apply IH. intros col v Hcol. apply Hcs. apply elem_of_cons. auto.
    - cbn [mbind result_bind].
      apply IH. intros col v Hcol. apply Hcs. apply elem_of_cons. auto. }
  rewrite Hloop.
  - cbn [mbind result_bind]. apply apply_solar_constraints_converted. exact Hts.
  - intros col v Hcol. rewrite col_lookup_set_ne.
    + apply Hsparse. exact Hcol.
    + intros ->. contradiction.
Qed.

End StrategyProperties.

Lemma spline_needs_four_points_witness :
  Spline_interpolate (learn := no_learners) (Spline_fit
      {| cls := SplineInterpolator; is_fitted := false; metadata := [];
         interp_config := None; gp_models := ∅; system_parameters := ∅;
         model := ModelNone |})
    (sample_frame 10 [of_int 5; nan; SFopp (of_int 3)]) ["power"] "Time"
  = Return (sample_frame 10 [of_int 5; nan; zero]).
Proof.
  rewrite spline_needs_four_points.
  - vm_compute. reflexivity.
  - intros H. apply list_elem_of_singleton in H. discriminate.
  - intros col v Hcol. apply list_elem_of_singleton in Hcol. subst col.
    intros [= <-]. vm_compute. lia.
Defined.

Section Refit.
Context {learn : Learners}.

(** A loop that only inserts keys keeps the keys it starts with, and
    leaves the entries of the keys it does not visit. *)
Lemma foldM_insert_only {V} (step : gmap string V -> string -> result (gmap string V))
    (l : list string) :
  (forall m k m', step m k = Return m' -> m' = m \/ exists v, m' = <[k := v]> m) ->
  forall m m', foldM step m l = Return m' ->
    (forall k, is_Some (m !! k) -> is_Some (m' !! k))
    /\ (forall k, k ∉ l -> m' !! k = m !! k).
Proof.
  intros Hstep. induction l as [|x l IH]; intros m m'; cbn [foldM].
  - intros [= <-]. auto.
  - destruct (step m x) as [m1|e] eqn:Hx; [|discriminate]. cbn [mbind result_bind].
    intros Hrest. destruct (IH _ _ Hrest) as [Hkeep Hother].
    destruct (Hstep _ _ _ Hx) as [->|[v ->]].
    + split; [exact Hkeep|]. intros k Hk. apply Hother.
      intros Hin. apply Hk. apply elem_of_cons. auto.
    + split.
      * intros k Hk. apply Hkeep.
        destruct (decide (k = x)) as [->|Hne].
        -- rewrite lookup_insert_eq. eauto.
        -- rewrite lookup_insert_ne by congruence. exact Hk.
      * intros k Hk. apply not_elem_of_cons in Hk. destruct Hk as [Hk1 Hk2].
        rewrite Hother by exact Hk2. apply lookup_insert_ne. congruence.
Qed.

(** Fitting the Gaussian-process or the physics-based strategy never
    discards what an earlier fit of the same instance has stored: every
    column that had a model (parameters) still has one, and a column that
    is not among the power columns of this fit keeps the one it had. *)
Theorem refit_keeps_models (self fitted_self : interpolator) (df : DataFrame)
    (power_columns : list string) (time_column : string) :
  cls self = GaussianProcessInterpolator \/ cls self = PhysicsBasedInterpolator ->
  fit self df power_columns time_column [] = Return fitted_self ->
  is_fitted fitted_self = true
  /\ (forall col, is_Some (gp_models self !! col) ->
        is_Some (gp_models fitted_self !! col))
  /\ (forall col, is_Some (system_parameters self !! col) ->
        is_Some (system_parameters fitted_self !! col))
  /\ (forall col, col ∉ power_columns ->
        gp_models fitted_self !! col = gp_models self !! col
        /\ system_parameters fitted_self !! col = system_parameters self !! col).
Proof.
  intros Hcls. unfold fit.
  destruct Hcls as [Hcls|Hcls]; rewrite Hcls; cbn [fit_signature bind_call];
    cbn [mbind result_bind].
  - change (bind_call "fit" _ _ _) with (Return (A := unit) tt).
    cbn [mbind result_bind]. unfold GP_fit.
    destruct (create_features df time_column None) as [df_features|e]; [|discriminate].
    cbn [mbind result_bind].
    destruct (foldM _ (gp_models self) power_columns) as [models|e] eqn:Hloop;
      [|discriminate].
    cbn [mbind result_bind]. intros [= <-]. cbn.
    apply foldM_insert_only in Hloop.
    + destruct Hloop as [Hkeep Hother]. repeat split; auto.
    + intros m k m'. destruct (col_lookup k (cols df_features)) as [v|].
      * destruct (decide (10 < _)%nat).
        -- destruct (gp_train _ _ _) as [gp|e]; [|discriminate].
           cbn [mbind result_bind]. intros [= <-]. eauto.
        -- intros [= <-]. auto.
      * intros [= <-]. auto.
  - change (bind_call "fit" _ _ _) with (Return (A := unit) tt).
    cbn [mbind result_bind]. unfold Physics_fit.
    destruct (datetime_of (cols df) time_column) as [ts|e]; [|discriminate].
    cbn [mbind result_bind].
    destruct (foldM _ (system_parameters self) power_columns) as [parameters|e] eqn:Hloop;
      [|discriminate].
    cbn [mbind result_bind]. intros [= <-]. cbn.
    apply foldM_insert_only in Hloop.
    + destruct Hloop as [Hkeep Hother]. repeat split; auto.
    + intros m k m'. destruct (col_lookup k _) as [[ts'|xs]|].
      * destruct (decide (0 < _)%nat); [discriminate|]. intros [= <-]. auto.
      * destruct (decide (0 < _)%nat).
        -- intros [= <-]. eauto.
        -- intros [= <-]. auto.
      * intros [= <-]. auto.
Qed.

End Refit.

(** ** Validation split: what is removed and what is kept *)

Lemma lookup_foldl_insert {A} (a : A) (labels : list Z) : forall (xs : list A) (j : nat),
  foldl (fun xs i => <[Z.to_nat i := a]> xs) xs labels !! j
  = (fun x => if bool_decide (j ∈ map Z.to_nat labels) then a else x) <$> xs !! j.
Proof.
  induction labels as [|i labels IH]; intros xs j; cbn [foldl map].
  - destruct (xs !! j); reflexivity.
  - rewrite IH. destruct (decide (j = Z.to_nat i)) as [->|Hne].
    + rewrite (bool_decide_eq_true_2 (Z.to_nat i ∈ Z.to_nat i :: _))
        by (apply elem_of_cons; auto).
      destruct (xs !! Z.to_nat i) as [x|] eqn:Hx.
      * rewrite list_lookup_insert_eq by (eapply lookup_lt_Some; eauto).
        simpl. destruct (bool_decide _); reflexivity.
      * rewrite list_insert_ge by (apply lookup_ge_None; exact Hx).
        rewrite Hx. reflexivity.
    + rewrite list_lookup_insert_ne by congruence.
      destruct (xs !! j) as [x|]; [|reflexivity]. simpl. f_equal.
      destruct (decide (j ∈ map Z.to_nat labels)) as [Hin|Hnin].
      * rewrite !bool_decide_eq_true_2; auto. apply elem_of_cons. auto.
      * rewrite !bool_decide_eq_false_2; auto.
        intros Hc. apply elem_of_cons in Hc. destruct Hc; auto.
Qed.

Lemma cell_at_set_missing (labels : list Z) (v : column) (j : nat) :
  (forall i, i ∈ labels -> 0 <= i) ->
  cell_at (set_missing labels v) j
  = if bool_decide (Z.of_nat j ∈ labels) then missing_cell v else cell_at v j.
Proof.
  intros Hpos.
  assert (Hmem : bool_decide (j ∈ map Z.to_nat labels) = bool_decide (Z.of_nat j ∈ labels)).
  { apply bool_decide_ext. rewrite list_elem_of_fmap. split.
    - intros (i & -> & Hi). rewrite Z2Nat.id by auto. exact Hi.
    - intros Hj. exists (Z.of_nat j). split; [lia|exact Hj]. }
  destruct v as [ts|xs]; cbn [set_missing cell_at missing_cell];
    rewrite lookup_foldl_insert, Hmem.
  - clear Hmem. destruct (ts !! j) as [t|]; simpl;
      destruct (bool_decide (Z.of_nat j ∈ labels)); reflexivity.
  - clear Hmem. destruct (xs !! j) as [x|]; simpl;
      destruct (bool_decide (Z.of_nat j ∈ labels)); reflexivity.
Qed.

Lemma loc_cells_Return (v : column) (n : nat) (labels : list Z) (cells : list cell) :
  loc_cells v n labels = Return cells ->
  (forall i, i ∈ labels -> 0 <= i < Z.of_nat n)
  /\ cells = map (fun i => cell_at v (Z.to_nat i)) labels.
Proof.
  unfold loc_cells. revert cells.
  induction labels as [|i labels IH]; intros cells; cbn [mapM].
  - intros [= <-]. split; [intros i Hi; inversion Hi|reflexivity].
  - destruct (decide (0 <= i < Z.of_nat n)) as [Hi|]; [|discriminate].
    cbn [mbind result_bind].
    destruct (mapM _ labels) as [cells'|e]; [|discriminate].
    cbn [mbind result_bind]. intros [= <-].
    destruct (IH _ eq_refl) as [Hr ->]. split; [|reflexivity].
    intros k Hk. apply elem_of_cons in Hk. destruct Hk as [->|Hk]; auto.
Qed.

Lemma validation_data_other (cs : list (string * column)) (n : nat) (labels : list Z)
    (c : string) (power_columns : list string) : forall data0 data,
  foldM (fun (data : gmap string (list cell)) col =>
           match col_lookup col cs with
           | Some v =>
               cells ← loc_cells v n labels;
               Return (<[col := cells]> data)
           | None => Raise (KeyError col)
           end) data0 power_columns = Return data ->
  c ∉ power_columns -> data !! c = data0 !! c.
Proof.
  induction power_columns as [|c' pcs IH]; intros d0 d; cbn [foldM].
  - intros [= <-]. reflexivity.
  - destruct (col_lookup c' cs) as [v'|]; [|discriminate].
    destruct (loc_cells v' n labels) as [cells'|]; [|discriminate].
    cbn [mbind result_bind]. intros Hrest Hc.
    apply not_elem_of_cons in Hc. destruct Hc as [Hc1 Hc2].
    rewrite (IH _ _ Hrest Hc2). apply lookup_insert_ne. congruence.
Qed.

Lemma validation_data_spec (cs : list (string * column)) (n : nat) (labels : list Z)
    (power_columns : list string) : forall data0 data,
  foldM (fun (data : gmap string (list cell)) col =>
           match col_lookup col cs with
           | Some v =>
               cells ← loc_cells v n labels;
               Return (<[col := cells]> data)
           | None => Raise (KeyError col)
           end) data0 power_columns = Return data ->
  forall col, col ∈ power_columns ->
    (forall i, i ∈ labels -> 0 <= i < Z.of_nat n)
    /\ exists v, col_lookup col cs = Some v
         /\ data !! col = Some (map (fun i => cell_at v (Z.to_nat i)) labels).
Proof.
  induction power_columns as [|c pcs IH]; intros data0 data; cbn [foldM].
  - intros _ col Hcol. inversion Hcol.
  - destruct (col_lookup c cs) as [v|] eqn:Hv; [|discriminate].
    destruct (loc_cells v n labels) as [cells|e] eqn:Hcells; [|discriminate].
    cbn [mbind result_bind]. intros Hrest col Hcol.
    destruct (loc_cells_Return _ _ _ _ Hcells) as [Hrange ->].
    destruct (decide (col ∈ pcs)) as [Hin|Hnin]; [exact (IH _ _ Hrest col Hin)|].
    apply elem_of_cons in Hcol. destruct Hcol as [->|Hcol]; [|contradiction].
    split; [exact Hrange|]. exists v. split; [exact Hv|].
    rewrite (validation_data_other _ _ _ _ _ _ _ Hrest Hnin). apply lookup_insert_eq.
Qed.

(** The cells of a column after the loop that removes the validation
    values. *)
Lemma removed_cells (labels : list Z) (power_columns : list string) :
  (forall i, i ∈ labels -> 0 <= i) ->
  forall cs,
  let cs' := foldl (fun cs col =>
                      match col_lookup col cs with
                      | Some v => col_set col (set_missing labels v) cs
                      | None => cs
                      end) cs power_columns in
  (forall k, k ∉ power_columns -> col_lookup k cs' = col_lookup k cs)
  /\ (forall col v, col ∈ power_columns -> col_lookup col cs = Some v ->
        exists v', col_lookup col cs' = Some v'
          /\ missing_cell v' = missing_cell v
          /\ forall j, cell_at v' j
                       = if bool_decide (Z.of_nat j ∈ labels) then missing_cell v
                         else cell_at v j).
Proof.
  intros Hpos. induction power_columns as [|c pcs IH]; intros cs; cbn [foldl].
  - split; [reflexivity|]. intros col v Hcol. inversion Hcol.
  - set (cs1 := match col_lookup c cs with
                | Some v => col_set c (set_missing labels v) cs
                | None => cs
                end).
    destruct (IH cs1) as [Hother Hin]. cbv zeta in Hother, Hin.
    assert (H1 : forall k, k <> c -> col_lookup k cs1 = col_lookup k cs).
    { intros k Hk. unfold cs1. destruct (col_lookup c cs); [|reflexivity].
      apply col_lookup_set_ne. congruence. }
    split.
    + intros k Hk. apply not_elem_of_cons in Hk. destruct Hk as [Hk1 Hk2].
      rewrite Hother by exact Hk2. apply H1. exact Hk1.
    + intros col v Hcol Hv.
      destruct (decide (col = c)) as [->|Hne].
      * assert (Hc1 : col_lookup c cs1 = Some (set_missing labels v)).
        { unfold cs1. rewrite Hv. apply col_lookup_set_eq. }
        assert (Hkind : missing_cell (set_missing labels v) = missing_cell v)
          by (destruct v; reflexivity).
        destruct (decide (c ∈ pcs)) as [Hcin|Hcnin].
        -- destruct (Hin c _ Hcin Hc1) as (v' & Hv' & Hk' & Hcells).
           exists v'. split; [exact Hv'|]. split; [congruence|].
           intros j. rewrite Hcells, Hkind, cell_at_set_missing by exact Hpos.
           destruct (bool_decide _); reflexivity.
        -- exists (set_missing labels v). rewrite Hother by exact Hcnin.
           split; [exact Hc1|]. split; [exact Hkind|].
           intros j. apply cell_at_set_missing. exact Hpos.
      * apply elem_of_cons in Hcol. destruct Hcol as [->|Hcol]; [contradiction|].
        apply (Hin col v Hcol). rewrite H1 by exact Hne. exact Hv.
Qed.

Section SplitContents.
Context {stats : Statistics}.

(** When the split chooses indices, the validation data of each power
    column are the values of the frame at the chosen rows, in the order of
    the indices; the validation frame has the cells of the chosen rows of
    the power columns missing and every other cell as in the frame; the
    chosen indices are rows of the frame. *)
Theorem validation_split_contents (df df_validation : DataFrame)
    (power_columns : list string) (validation_ratio : float)
    (validation_indices : list Z) (validation_data : gmap string (list cell))
    (n_validation_points : Z) :
  power_columns <> [] ->
  create_validation_split df power_columns validation_ratio
  = Return (df_validation,
            ValidationInfo validation_indices validation_data n_validation_points) ->
  nrows df_validation = nrows df
  /\ n_validation_points = Z.of_nat (length validation_indices)
  /\ (forall i, i ∈ validation_indices -> 0 <= i < Z.of_nat (nrows df))
  /\ (forall k, k ∉ power_columns ->
        col_lookup k (cols df_validation) = col_lookup k (cols df))
  /\ (forall col, col ∈ power_columns ->
        exists v v',
          col_lookup col (cols df) = Some v
          /\ col_lookup col (cols df_validation) = Some v'
          /\ validation_data !! col
             = Some (map (fun i => cell_at v (Z.to_nat i)) validation_indices)
          /\ forall j, cell_at v' j
                       = if bool_decide (Z.of_nat j ∈ validation_indices)
                         then missing_cell v else cell_at v j).
Proof.
  intros Hne. unfold create_validation_split.
  destruct (complete_mask df power_columns) as [mask|e]; [|discriminate].
  cbn [mbind result_bind].
  destruct (decide (_ < 20)%nat); [discriminate|].
  destruct (n_validation _ _) as [nv|e]; [|discriminate]. cbn [mbind result_bind].
  destruct (np_random_choice _ _) as [chosen|e]; [|discriminate].
  cbn [mbind result_bind].
  destruct (foldM _ ∅ power_columns) as [data|e] eqn:Hdata; [|discriminate].
  cbn [mbind result_bind]. intros [= <- <- <- <-]. cbn [nrows cols].
  pose proof (validation_data_spec _ _ _ _ _ _ Hdata) as Hspec.
  assert (Hrange : forall i, i ∈ chosen -> 0 <= i < Z.of_nat (nrows df)).
  { destruct power_columns as [|c pcs]; [contradiction|].
    apply (Hspec c). apply elem_of_cons. auto. }
  destruct (removed_cells chosen power_columns
              ltac:(intros i Hi; apply Hrange in Hi; lia) (cols df)) as [Hother Hin].
  cbv zeta in Hother, Hin.
  split; [reflexivity|]. split; [reflexivity|]. split; [exact Hrange|].
  split; [exact Hother|].
  intros col Hcol. destruct (Hspec col Hcol) as (_ & v & Hv & Hd).
  destruct (Hin col v Hcol Hv) as (v' & Hv' & _ & Hcells).
  exists v, v'. auto.
Qed.

End SplitContents.

(** ** Recommender: what it emits *)

Lemma count_in_none (P : Z -> bool) (a : list Z) :
  Forall (fun x => P x = false) a -> count_in P a = 0.
Proof.
  induction 1 as [|x a Hx _ IH]; [reflexivity|].
  rewrite count_in_cons, Hx, IH. reflexivity.
Qed.

(** Gaps longer than 1000 rows are in no bin, so a data set whose gaps
    are all that long has a distribution that sums to 0, and the
    recommender answers that there are no gaps: the method is unknown and
    nothing but this reason is given, whatever the failure patterns. *)
Theorem long_gaps_are_no_gaps (pattern_summary : PatternSummary) (gap_lengths : list Z) :
  Forall (fun x => 1000 < x) gap_lengths ->
  (gap_dist ← _bin_gap_lengths _default_config gap_lengths;
   Return (recommend_methods_generic pattern_summary gap_dist))
  = Return {| primary_method := "unknown"; method_parameters := ∅;
              reasoning := ["No gaps found - no interpolation needed"];
              gap_specific_recommendations := ∅ |}.
Proof.
  intros Hlong.
  assert (Hbin : _bin_gap_lengths _default_config gap_lengths
    = Return
    (<["1w":=count_in (fun x => (168 <=? x) && (x <=? 1000)) gap_lengths]>
     (<["2d":=count_in (fun x => (48 <=? x) && (x <? 168)) gap_lengths]>
      (<["1d":=count_in (fun x => (24 <=? x) && (x <? 48)) gap_lengths]>
       (<["12h":=count_in (fun x => (12 <=? x) && (x <? 24)) gap_lengths]>
        (<["6h":=count_in (fun x => (6 <=? x) && (x <? 12)) gap_lengths]>
         (<["3h":=count_in (fun x => (3 <=? x) && (x <? 6)) gap_lengths]>
          (<["2h":=count_in (fun x => (2 <=? x) && (x <? 3)) gap_lengths]>
           (<["1h":=count_in (fun x => (1 <=? x) && (x <? 2)) gap_lengths]> ∅)))))))))
    by reflexivity.
  rewrite Hbin. cbn [mbind result_bind]. f_equal.
  unfold recommend_methods_generic.
  rewrite !dist_total_insert by reflexivity.
  rewrite dist_total_empty.
  pose proof (bins_partition gap_lengths) as Hsum.
  rewrite (count_in_none (fun x => (1 <=? x) && (x <=? 1000))) in Hsum.
  2:{ eapply Forall_impl; [exact Hlong|]. intros x Hx. cbv beta in *.
      decide_comparisons. reflexivity. }
  destruct (decide (_ = 0)) as [|Hn]; [reflexivity|]. exfalso. apply Hn. lia.
Qed.

Lemma long_gaps_are_no_gaps_witness :
  (gap_dist ← _bin_gap_lengths _default_config [1500; 2000];
   Return (primary_method
             (recommend_methods_generic
                {| primary_pattern := "unknown"; secondary_patterns := [] |} gap_dist)))
  = Return "unknown".
Proof.
  pose proof (long_gaps_are_no_gaps
                {| primary_pattern := "unknown"; secondary_patterns := [] |} [1500; 2000]) as H.
  destruct (_bin_gap_lengths _default_config [1500; 2000]) as [d|e];
    cbn [mbind result_bind] in *.
  - rewrite (f_equal (fun r => match r with Return x => primary_method x | Raise _ => "" end)
               (H ltac:(repeat constructor; lia))).
    reflexivity.
  - specialize (H ltac:(repeat constructor; lia)). discriminate.
Defined.

(** Whatever the pattern summary and the distribution, the primary method
    of the recommender is [unknown] or one of the eight registered names of
    the engine; [unknown] itself is not registered. *)
Theorem recommended_method_is_registered (pattern_summary : PatternSummary)
    (gap_dist : gmap string Z) :
  let method := primary_method (recommend_methods_generic pattern_summary gap_dist) in
  (method = "unknown" \/ is_Some (interpolators !! method))
  /\ lookup_method (PStr "unknown")
     = Raise (ValueError "Unknown interpolation method: unknown").
Proof.
  split; [|reflexivity].
  unfold recommend_methods_generic.
  destruct (decide (dist_total gap_dist = 0)); [left; reflexivity|].
  destruct (decide (primary_pattern pattern_summary = "system_wide_failures"));
    [right; eexists; reflexivity|].
  destruct (decide (primary_pattern pattern_summary = "individual_equipment_failures")).
  - destruct (decide ("equipment_degradation" ∈ _)); [right; eexists; reflexivity|].
    destruct (decide ("maintenance_patterns" ∈ _)); [right; eexists; reflexivity|].
    destruct (decide ("random_failures" ∈ _)); right; eexists; reflexivity.
  - destruct (exceeds _ _ (literal 7 10)); [right; eexists; reflexivity|].
    destruct (exceeds _ _ (literal 3 10)); [right; eexists; reflexivity|].
    destruct (exceeds _ _ (literal 2 10)); [right; eexists; reflexivity|].
    left. reflexivity.
Qed.

(** ** Engine: documents it rejects *)

Lemma extract_data_structure_dict (d s : gmap string pyval) :
  d !! "structure" = Some (PDict s) ->
  extract_data_structure (PDict d)
  = Return {| time_column := default PNone (s !! "time_column");
              power_columns := default (PList []) (s !! "power_columns");
              time_frequency := default PNone (s !! "time_frequency");
              total_rows := default PNone (s !! "total_rows") |}.
Proof.
  intros Hd. unfold extract_data_structure. cbn [py_get]. rewrite Hd. reflexivity.
Qed.

Section EngineErrors.
Context {stats : Statistics} {learn : Learners}.

(** A document without a structure section, without a time column or
    without power columns is rejected before the method is looked at:
    the run raises the same ValueError for every method name, registered
    or not, and every frame. *)
Theorem run_requires_structure (df : DataFrame) (d : gmap string pyval)
    (method_name : option string) (validate : bool) (weather_data : option weather) :
  d !! "structure" = None
  \/ (exists s, d !! "structure" = Some (PDict s)
        /\ (truthy (default PNone (s !! "time_column")) = false
            \/ truthy (default (PList []) (s !! "power_columns")) = false)) ->
  run_interpolation df (PDict d) method_name validate weather_data
  = Raise (ValueError "Could not extract data structure from gap analysis").
Proof.
  intros [Hd|(s & Hd & Hs)]; unfold run_interpolation.
  - replace (extract_data_structure (PDict d))
      with (Return {| time_column := PNone; power_columns := PList [];
                      time_frequency := PNone; total_rows := PNone |})
      by (unfold extract_data_structure; cbn [py_get]; rewrite Hd; reflexivity).
    reflexivity.
  - rewrite (extract_data_structure_dict _ _ Hd). cbn [mbind result_bind].
    cbn [time_column power_columns].
    destruct Hs as [-> | ->]; [reflexivity|].
    rewrite orb_true_r. reflexivity.
Qed.

End EngineErrors.

(** Without an override (or with an empty one), recommendations that hold
    an empty list of primary methods and no primary method make the
    resolution raise an IndexError. *)
Theorem empty_method_list_raises (d r : gmap string pyval) (user_method : option string) :
  user_method = None \/ user_method = Some "" ->
  d !! "recommendations" = Some (PDict r) ->
  r !! "primary_methods" = Some (PList []) ->
  truthy (default PNone (r !! "primary_method")) = false ->
  get_recommended_method (PDict d) user_method
  = Raise (IndexError "list index out of range").
Proof.
  intros Hu Hd Hl Hm. unfold get_recommended_method.
  destruct Hu as [-> | ->]; simpl; rewrite Hd; simpl; rewrite Hl; simpl;
    destruct (r !! "primary_method") as [m|]; simpl in *; try rewrite Hm; reflexivity.
Qed.

Lemma shift1_lookup (l : list bool) (i : nat) :
  (i < length l)%nat -> shift1 l !! i = Some (before l i).
Proof.
  intros Hi. unfold shift1. rewrite lookup_take_lt by exact Hi.
  destruct i as [|k]; [reflexivity|]. simpl.
  destruct (l !! k) eqn:Hk; [reflexivity|].
  apply lookup_ge_None in Hk. lia.
Qed.

Lemma scan_items_lookup (is_missing : list bool) (i : nat) (b : bool) :
  is_missing !! i = Some b ->
  enumerate (zip (zip is_missing
                    (zip_with andb is_missing (shift1 (map negb is_missing))))
               (zip_with andb (map negb is_missing) (shift1 is_missing))) !! i
  = Some (i, (b, b && before (map negb is_missing) i,
              negb b && before is_missing i)).
Proof.
  intros Hb. pose proof (lookup_lt_Some _ _ _ Hb) as Hi.
  unfold enumerate. rewrite list_lookup_imap.
  assert (H1 : zip_with andb is_missing (shift1 (map negb is_missing)) !! i
               = Some (b && before (map negb is_missing) i)).
  { rewrite lookup_zip_with, Hb. simpl.
    rewrite shift1_lookup by (rewrite length_map; exact Hi). reflexivity. }
  assert (H2 : zip_with andb (map negb is_missing) (shift1 is_missing) !! i
               = Some (negb b && before is_missing i)).
  { rewrite lookup_zip_with, list_lookup_fmap, Hb. simpl.
    rewrite shift1_lookup by exact Hi. reflexivity. }
  assert (H3 : zip is_missing
                 (zip_with andb is_missing (shift1 (map negb is_missing))) !! i
               = Some (b, b && before (map negb is_missing) i)).
  { apply lookup_zip_with_Some. eauto 10. }
  assert (H4 : zip (zip is_missing
                      (zip_with andb is_missing (shift1 (map negb is_missing))))
                 (zip_with andb (map negb is_missing) (shift1 is_missing)) !! i
               = Some (b, b && before (map negb is_missing) i,
                       negb b && before is_missing i)).
  { apply lookup_zip_with_Some. eauto 10. }
  rewrite H4. reflexivity.
Qed.

Lemma scan_items_length (is_missing : list bool) :
  length (enumerate (zip (zip is_missing
                    (zip_with andb is_missing (shift1 (map negb is_missing))))
               (zip_with andb (map negb is_missing) (shift1 is_missing))))
  = length is_missing.
Proof.
  unfold enumerate, shift1. rewrite length_imap, !length_zip_with, !length_take.
  simpl. rewrite !length_map. lia.
Qed.

Section Scan.
Variables (df : DataFrame) (time_col : string) (is_missing : list bool).

Lemma before_known (i : nat) :
  (i < length is_missing)%nat ->
  before (map negb is_missing) i = true ->
  (1 <= i)%nat /\ is_missing !! (i - 1)%nat = Some false.
Proof.
  destruct i as [|k]; [discriminate|]. simpl. intros Hi.
  rewrite list_lookup_fmap, Nat.sub_0_r.
  destruct (is_missing !! k) as [[|]|]; simpl; try discriminate.
  intros _. split; [lia|reflexivity].
Qed.

Lemma before_not_known (i : nat) :
  (i < length is_missing)%nat ->
  before (map negb is_missing) i = false ->
  i = 0%nat \/ is_missing !! (i - 1)%nat = Some true.
Proof.
  destruct i as [|k]; [auto|]. simpl. intros Hi.
  rewrite list_lookup_fmap, Nat.sub_0_r.
  destruct (is_missing !! k) as [[|]|] eqn:Hk; simpl; try discriminate; auto.
  apply lookup_ge_None in Hk. lia.
Qed.

Lemma before_missing (i : nat) :
  before is_missing i = true -> (1 <= i)%nat /\ is_missing !! (i - 1)%nat = Some true.
Proof.
  destruct i as [|k]; [discriminate|]. simpl. rewrite Nat.sub_0_r.
  destruct (is_missing !! k) as [[|]|]; simpl; try discriminate.
  intros _. split; [lia|reflexivity].
Qed.

Lemma scanned_weaken (gaps : list Gap.t) (i : nat) :
  Forall (fun g => missing_run is_missing g /\ gap_times df time_col g
                   /\ Gap.end_index g + 1 < Z.of_nat i) gaps ->
  Forall (fun g => missing_run is_missing g /\ gap_times df time_col g
                   /\ Gap.end_index g + 1 < Z.of_nat (S i)) gaps.
Proof.
  intros H. eapply Forall_impl; [exact H|].
  intros g (H1 & H2 & H3). split; [exact H1|]. split; [exact H2|]. lia.
Qed.

Lemma count_true_app (l k : list bool) :
  count_true (l ++ k) = (count_true l + count_true k)%nat.
Proof. unfold count_true. rewrite List.filter_app, length_app. reflexivity. Qed.

Lemma missing_after_known_snoc (l : list bool) (b : bool) :
  missing_after_known (l ++ [b])
  = (missing_after_known l + if b && existsb negb l then 1 else 0)%nat.
Proof.
  induction l as [|[|] l IH]; cbn [app missing_after_known existsb negb orb].
  - destruct b; reflexivity.
  - exact IH.
  - rewrite count_true_app, andb_true_r. destruct b; reflexivity.
Qed.

Lemma known_before (i : nat) :
  existsb negb (take i is_missing) = true
  <-> exists k, (k < i)%nat /\ is_missing !! k = Some false.
Proof.
  rewrite existsb_exists. split.
  - intros (x & Hx & Hn). destruct x; [discriminate|].
    apply list_elem_of_In, list_elem_of_lookup in Hx. destruct Hx as [k Hk].
    apply lookup_take_Some in Hk. destruct Hk as [Hk Hki]. eauto.
  - intros (k & Hk & Hf). exists false. split; [|reflexivity].
    apply list_elem_of_In, list_elem_of_lookup. exists k.
    rewrite lookup_take_lt by exact Hk. exact Hf.
Qed.

Lemma total_missing_values_app (gaps : list Gap.t) (g : Gap.t) :
  total_missing_values (gaps ++ [g]) = total_missing_values gaps + Gap.length g.
Proof.
  unfold total_missing_values. induction gaps as [|h gaps IH]; cbn [app foldr]; lia.
Qed.

(** The number of missing rows after a known value grows by one with a
    missing row that has a known value before it. *)
Lemma missing_after_known_step (i : nat) (b : bool) :
  is_missing !! i = Some b ->
  Z.of_nat (missing_after_known (take (S i) is_missing))
  = Z.of_nat (missing_after_known (take i is_missing))
    + (if b && existsb negb (take i is_missing) then 1 else 0).
Proof.
  intros Hb. erewrite take_S_r by exact Hb. rewrite missing_after_known_snoc.
  destruct (b && _); lia.
Qed.

Lemma scan_step_scanned (i : nat) (b : bool) (st : scan_state) :
  is_missing !! i = Some b ->
  scanned df time_col is_missing i st ->
  scanned df time_col is_missing (S i)
    (scan_step df time_col st
       (i, (b, b && before (map negb is_missing) i, negb b && before is_missing i))).
Proof.
  intros Hb. pose proof (lookup_lt_Some _ _ _ Hb) as Hi.
  pose proof (missing_after_known_step i b Hb) as Hcount.
  destruct st as [[cur len] gaps]. intros (Hgaps & Hsorted & Hcur & Hcover & Htotal).
  unfold scan_step.
  destruct (b && before (map negb is_missing) i) eqn:Hstart.
  - (* a gap starts at row i *)
    apply andb_true_iff in Hstart. destruct Hstart as [-> Hknown].
    destruct (before_known i Hi Hknown) as [Hi1 Hprev].
    assert (Hnone : cur = None).
    { destruct cur as [s|]; [|reflexivity]. exfalso.
      destruct Hcur as (Hs & _ & _ & Hrun & _).
      specialize (Hrun (i - 1)%nat ltac:(lia)). congruence. }
    subst cur.
    assert (Hex : existsb negb (take i is_missing) = true).
    { apply known_before. exists (i - 1)%nat. split; [lia|exact Hprev]. }
    rewrite Hex in Hcount. cbn [andb] in Hcount.
    split; [apply scanned_weaken, Hgaps|]. split; [exact Hsorted|].
    split; [|split].
    + split; [lia|]. split; [lia|]. split; [exact Hprev|]. split.
      * intros j Hj. replace j with i by lia. exact Hb.
      * eapply Forall_impl; [exact Hgaps|]. intros g (_ & _ & Hg). simpl in Hg. lia.
    + intros j Hj Hmj Hk.
      destruct (decide (j = i)) as [->|Hne]; [right; exists i; split; [reflexivity|lia]|].
      destruct (Hcover j ltac:(lia) Hmj Hk) as [Hg|(s & Hs & _)]; [left; exact Hg|].
      discriminate.
    + lia.
  - destruct (b && bool_decide (is_Some cur)) eqn:Hin.
    + (* the open gap goes on *)
      apply andb_true_iff in Hin. destruct Hin as [-> Hsome].
      apply bool_decide_eq_true in Hsome. destruct Hsome as [s ->].
      destruct Hcur as (Hs & Hlen & Hprev & Hrun & Hbefore).
      assert (Hex : existsb negb (take i is_missing) = true).
      { apply known_before. exists (s - 1)%nat. split; [lia|exact Hprev]. }
      rewrite Hex in Hcount. cbn [andb] in Hcount.
      split; [apply scanned_weaken, Hgaps|]. split; [exact Hsorted|].
      split; [|split].
      * split; [lia|]. split; [lia|]. split; [exact Hprev|]. split; [|exact Hbefore].
        intros j Hj. destruct (decide (j = i)) as [->|Hne]; [exact Hb|].
        apply Hrun. lia.
      * intros j Hj Hmj Hk.
        destruct (decide (j = i)) as [->|Hne];
          [right; exists s; split; [reflexivity|lia]|].
        destruct (Hcover j ltac:(lia) Hmj Hk) as [Hg|(s' & [= <-] & Hs')];
          [left; exact Hg|].
        right. exists s. auto.
      * lia.
    + destruct (negb b && before is_missing i && bool_decide (is_Some cur)) eqn:Hend.
      * (* the open gap ends before row i *)
        apply andb_true_iff in Hend. destruct Hend as [Hend Hsome].
        apply andb_true_iff in Hend. destruct Hend as [Hnb Hmiss].
        apply negb_true_iff in Hnb. subst b. cbn [andb] in Hcount.
        apply bool_decide_eq_true in Hsome. destruct Hsome as [s ->].
        destruct Hcur as (Hs & Hlen & Hprev & Hrun & Hbefore).
        assert (Hnew : missing_run is_missing
                         (mk_gap df time_col s (Z.of_nat i - 1) len)
                       /\ gap_times df time_col
                            (mk_gap df time_col s (Z.of_nat i - 1) len)).
        { split.
          - unfold missing_run, mk_gap. cbn.
            split; [lia|]. split; [lia|]. split.
            { replace (Z.to_nat (Z.of_nat s - 1)) with (s - 1)%nat by lia. exact Hprev. }
            split.
            { intros j Hj. apply Hrun. lia. }
            left. replace (Z.to_nat (Z.of_nat i - 1 + 1)) with i by lia. exact Hb.
          - unfold gap_times, mk_gap. cbn.
            rewrite Nat2Z.id. split; reflexivity. }
        split.
        { apply Forall_app. split; [apply scanned_weaken, Hgaps|].
          constructor; [|constructor]. destruct Hnew as [Hrun' Htimes].
          split; [exact Hrun'|]. split; [exact Htimes|]. cbn. lia. }
        split.
        { clear Hcover Hgaps Htotal.
          induction Hsorted as [|g gaps Hst IH Hg]; cbn.
          - repeat constructor.
          - apply Forall_cons in Hbefore. destruct Hbefore as [Hgs Hbefore].
            constructor; [apply IH; exact Hbefore|].
            apply Forall_app. split; [exact Hg|].
            constructor; [|constructor]. cbn. lia. }
        split; [right; left; replace (S i - 1)%nat with i by lia; exact Hb|].
        split.
        -- intros j Hj Hmj Hk.
           assert (Hji : j <> i) by congruence.
           destruct (Hcover j ltac:(lia) Hmj Hk)
             as [(g & Hg & Hgj)|(s' & [= <-] & Hs')].
           ++ left. exists g. split; [apply elem_of_app; auto|exact Hgj].
           ++ left. exists (mk_gap df time_col s (Z.of_nat i - 1) len).
              split; [apply elem_of_app; right; apply list_elem_of_singleton;
                      reflexivity|].
              cbn. lia.
        -- rewrite total_missing_values_app. cbn [mk_gap Gap.length]. lia.
      * (* nothing changes *)
        assert (Hnone : cur = None).
        { destruct cur as [s|]; [|reflexivity]. exfalso.
          destruct Hcur as (Hs & _ & _ & Hrun & _).
          pose proof (Hrun (i - 1)%nat ltac:(lia)) as Hlast.
          rewrite (bool_decide_eq_true_2 (is_Some (Some s))) in Hin, Hend by eauto.
          rewrite andb_true_r in Hin, Hend. subst b. simpl in Hend.
          destruct i as [|k]; [lia|]. simpl in Hend, Hlast.
          rewrite Nat.sub_0_r in Hlast. rewrite Hlast in Hend. discriminate. }
        subst cur.
        split; [apply scanned_weaken, Hgaps|]. split; [exact Hsorted|].
        destruct b.
        -- (* a missing row of the leading run *)
           simpl in Hstart.
           assert (Hall : forall j, (j < i)%nat -> is_missing !! j = Some true).
           { destruct (before_not_known i Hi Hstart) as [->|Hprev]; [intros; lia|].
             destruct Hcur as [->|[Hc|Hc]]; [intros; lia| |exact Hc]. congruence. }
           assert (Hex : existsb negb (take i is_missing) = false).
           { destruct (existsb negb (take i is_missing)) eqn:Hex; [|reflexivity].
             apply known_before in Hex. destruct Hex as (k & Hk & Hf).
             rewrite Hall in Hf by exact Hk. discriminate. }
           rewrite Hex in Hcount. cbn [andb] in Hcount.
           split; [|split].
           ++ right. right. intros j Hj.
              destruct (decide (j = i)) as [->|Hne]; [exact Hb|]. apply Hall. lia.
           ++ intros j Hj Hmj (k & Hk & Hkf).
              destruct (decide (j = i)) as [->|Hne].
              ** rewrite Hall in Hkf by exact Hk. discriminate.
              ** rewrite Hall in Hkf by lia. discriminate.
           ++ lia.
        -- cbn [andb] in Hcount.
           split; [right; left; replace (S i - 1)%nat with i by lia; exact Hb|].
           split; [|lia].
           intros j Hj Hmj Hk.
           assert (Hji : j <> i) by congruence.
           destruct (Hcover j ltac:(lia) Hmj Hk) as [Hg|(s & Hs & _)];
             [left; exact Hg|discriminate].
Qed.

Lemma scan_prefix_scanned (i : nat) :
  (i <= length is_missing)%nat ->
  scanned df time_col is_missing i
    (foldl (scan_step df time_col) (None, 0, [])
       (take i (enumerate (zip (zip is_missing
                    (zip_with andb is_missing (shift1 (map negb is_missing))))
               (zip_with andb (map negb is_missing) (shift1 is_missing)))))).
Proof.
  induction i as [|i IH]; intros Hi.
  - cbn. split; [constructor|]. split; [constructor|]. split; [auto|].
    split; [intros j Hj; lia|reflexivity].
  - destruct (is_missing !! i) as [b|] eqn:Hb.
    2:{ apply lookup_ge_None in Hb. lia. }
    erewrite take_S_r by (apply scan_items_lookup; exact Hb).
    rewrite foldl_app. cbn [foldl].
    apply scan_step_scanned; [exact Hb|]. apply IH. lia.
Qed.

End Scan.

Lemma find_gaps_scanned (df : DataFrame) (column time_col : string) (series : Frame.column) :
  col_lookup column (cols df) = Some series ->
  length (to_numeric_isna series) = nrows df ->
  let is_missing := to_numeric_isna series in
  let gaps := find_gaps_generic df column time_col in
  Forall (fun g => missing_run is_missing g /\ gap_times df time_col g) gaps
  /\ StronglySorted (fun g h => Gap.end_index g + 1 < Gap.start_index h) gaps
  /\ (forall j, is_missing !! j = Some true ->
        (exists k, (k < j)%nat /\ is_missing !! k = Some false) ->
        exists g, g ∈ gaps /\ Gap.start_index g <= Z.of_nat j <= Gap.end_index g)
  /\ total_missing_values gaps = Z.of_nat (missing_after_known is_missing).
Proof.
  intros Hcol Hrows is_missing gaps. subst gaps. unfold find_gaps_generic.
  rewrite Hcol. fold is_missing.
  pose proof (scan_prefix_scanned df time_col is_missing (length is_missing)
                (Nat.le_refl _)) as Hscan.
  rewrite firstn_all2 in Hscan by (rewrite scan_items_length; lia).
  destruct (foldl _ _ _) as [[cur len] gaps].
  destruct Hscan as (Hgaps & Hsorted & Hcur & Hcover & Htotal).
  assert (Hgaps' : Forall (fun g => missing_run is_missing g /\ gap_times df time_col g)
                     gaps).
  { eapply Forall_impl; [exact Hgaps|]. intros g (H1 & H2 & _). auto. }
  destruct cur as [s|].
  - destruct Hcur as (Hs & Hlen & Hprev & Hrun & Hbefore).
    assert (Hend : Z.of_nat (nrows df) - 1 = Z.of_nat (length is_missing) - 1)
      by (unfold is_missing; lia).
    split; [|split; [|split]].
    + apply Forall_app. split; [exact Hgaps'|]. constructor; [|constructor]. split.
      * unfold missing_run, mk_gap. cbn.
        split; [lia|]. split; [lia|]. split.
        { replace (Z.to_nat (Z.of_nat s - 1)) with (s - 1)%nat by lia. exact Hprev. }
        split; [intros j Hj; apply Hrun; lia|]. right. lia.
      * unfold gap_times, mk_gap. cbn. rewrite Nat2Z.id. split; reflexivity.
    + clear Hcover Hgaps Hgaps' Htotal. induction Hsorted as [|g gaps Hst IH Hg]; cbn.
      * repeat constructor.
      * apply Forall_cons in Hbefore. destruct Hbefore as [Hgs Hbefore].
        constructor; [apply IH; exact Hbefore|].
        apply Forall_app. split; [exact Hg|].
        constructor; [|constructor]. cbn. lia.
    + intros j Hmj Hk. pose proof (lookup_lt_Some _ _ _ Hmj) as Hj.
      destruct (Hcover j Hj Hmj Hk) as [(g & Hg & Hgj)|(s' & [= <-] & Hs')].
      * exists g. split; [apply elem_of_app; auto|exact Hgj].
      * exists (mk_gap df time_col s (Z.of_nat (nrows df) - 1) len).
        split; [apply elem_of_app; right; apply list_elem_of_singleton; reflexivity|].
        cbn. lia.
    + rewrite total_missing_values_app. cbn [mk_gap Gap.length].
      rewrite firstn_all in Htotal. exact Htotal.
  - rewrite firstn_all, Z.add_0_r in Htotal.
    split; [exact Hgaps'|]. split; [exact Hsorted|]. split; [|exact Htotal].
    intros j Hmj Hk. pose proof (lookup_lt_Some _ _ _ Hmj) as Hj.
    destruct (Hcover j Hj Hmj Hk) as [Hg|(s & Hs & _)]; [exact Hg|discriminate].
Qed.

(** Every gap record of the detector is a maximal run of missing rows
    that follows a known value: its first row is 1 or later and the row
    before it is known, all its rows are missing, the row after its last
    row is known or the series ends there, its length is the number of
    its rows, and its times are the cells of the time column at its first
    and last row.  The records come in the order of the rows and do not
    touch. *)
Theorem find_gaps_are_runs (df : DataFrame) (column time_col : string) (series : Frame.column) :
  col_lookup column (cols df) = Some series ->
  length (to_numeric_isna series) = nrows df ->
  Forall (fun g => missing_run (to_numeric_isna series) g /\ gap_times df time_col g)
         (find_gaps_generic df column time_col)
  /\ StronglySorted (fun g h => Gap.end_index g + 1 < Gap.start_index h)
       (find_gaps_generic df column time_col).
Proof.
  intros Hcol Hrows.
  destruct (find_gaps_scanned df column time_col series Hcol Hrows) as (H1 & H2 & _).
  split; assumption.
Qed.

(** Every missing row that comes after a known value lies in one of the
    gap records of the detector. *)
Theorem find_gaps_cover (df : DataFrame) (column time_col : string) (series : Frame.column)
    (j : nat) :
  col_lookup column (cols df) = Some series ->
  length (to_numeric_isna series) = nrows df ->
  to_numeric_isna series !! j = Some true ->
  (exists k, (k < j)%nat /\ to_numeric_isna series !! k = Some false) ->
  exists g, g ∈ find_gaps_generic df column time_col
            /\ Gap.start_index g <= Z.of_nat j <= Gap.end_index g.
Proof.
  intros Hcol Hrows.
  destruct (find_gaps_scanned df column time_col series Hcol Hrows) as (_ & _ & H3 & _).
  apply H3.
Qed.

Lemma find_gaps_are_runs_witness :
  Forall (fun g => missing_run [false; true; true; false; true] g
                   /\ gap_times (sample_frame 0 [of_int 1; nan; nan; of_int 2; nan])
                        "Time" g)
         (find_gaps_generic (sample_frame 0 [of_int 1; nan; nan; of_int 2; nan])
            "power" "Time").
Proof.
  apply (find_gaps_are_runs (sample_frame 0 [of_int 1; nan; nan; of_int 2; nan])
           "power" "Time" (NumCol [of_int 1; nan; nan; of_int 2; nan]));
    reflexivity.
Defined.

Lemma find_gaps_cover_witness :
  exists g, g ∈ find_gaps_generic (sample_frame 0 [of_int 1; nan; nan; of_int 2; nan])
                  "power" "Time"
            /\ Gap.start_index g <= 4 <= Gap.end_index g.
Proof.
  apply (find_gaps_cover (sample_frame 0 [of_int 1; nan; nan; of_int 2; nan])
           "power" "Time" (NumCol [of_int 1; nan; nan; of_int 2; nan]) 4);
    try reflexivity.
  exists 3%nat. split; [lia|reflexivity].
Defined.

(** The lengths of the gap records of a column add up to the number of
    its missing rows that come after a known value: the analysis counts
    no row twice and leaves out the rows of a leading run only. *)
Theorem find_gaps_total (df : DataFrame) (column time_col : string) (series : Frame.column) :
  col_lookup column (cols df) = Some series ->
  length (to_numeric_isna series) = nrows df ->
  total_missing_values (find_gaps_generic df column time_col)
  = Z.of_nat (missing_after_known (to_numeric_isna series)).
Proof.
  intros Hcol Hrows.
  destruct (find_gaps_scanned df column time_col series Hcol Hrows) as (_ & _ & _ & H4).
  exact H4.
Qed.

Lemma find_gaps_total_witness :
  total_missing_values
    (find_gaps_generic (sample_frame 0 [nan; of_int 1; nan; nan; of_int 2; nan])
       "power" "Time")
  = 3.
Proof.
  apply (find_gaps_total (sample_frame 0 [nan; of_int 1; nan; nan; of_int 2; nan])
           "power" "Time" (NumCol [nan; of_int 1; nan; nan; of_int 2; nan]));
    reflexivity.
Defined.

(** ** Solar-physics violations *)

Lemma count_bounds (b : bool) : 0 <= count b <= 1.
Proof. destruct b; simpl; lia. Qed.

Lemma check_row_counts cs ts power_columns v i v' :
  check_row cs ts power_columns v i = Return v' ->
  nighttime_data_present v <= nighttime_data_present v' <= nighttime_data_present v + 1
  /\ daytime_zero_unexpected v <= daytime_zero_unexpected v'
     <= daytime_zero_unexpected v + 1
  /\ power_exceeds_capacity v <= power_exceeds_capacity v' <= power_exceeds_capacity v + 1
  /\ negative_power v <= negative_power v' <= negative_power v + 1
  /\ total_violations v' = total_violations v.
Proof.
  unfold check_row.
  destruct (mapM _ power_columns) as [values|e]; [|discriminate].
  cbn [mbind result_bind].
  destruct (List.filter cell_notna values) as [|p power_vals].
  - intros [= <-]. lia.
  - destruct (if night _ then _ else _) as [a|e]; [|discriminate].
    cbn [mbind result_bind].
    destruct (any (cell_lt 0) _) as [n|e]; [|discriminate]. cbn [mbind result_bind].
    destruct (any (cell_gt 10000) _) as [x|e]; [|discriminate]. cbn [mbind result_bind].
    intros [= <-]. cbn [nighttime_data_present daytime_zero_unexpected
                          power_exceeds_capacity negative_power total_violations].
    repeat match goal with
           | |- context [count ?b] =>
               pose proof (count_bounds b); generalize dependent (count b); intros
           end.
    lia.
Qed.

Lemma check_rows_counts cs ts power_columns rows : forall v v',
  foldM (check_row cs ts power_columns) v rows = Return v' ->
  nighttime_data_present v <= nighttime_data_present v'
    <= nighttime_data_present v + Z.of_nat (length rows)
  /\ daytime_zero_unexpected v <= daytime_zero_unexpected v'
     <= daytime_zero_unexpected v + Z.of_nat (length rows)
  /\ power_exceeds_capacity v <= power_exceeds_capacity v'
     <= power_exceeds_capacity v + Z.of_nat (length rows)
  /\ negative_power v <= negative_power v' <= negative_power v + Z.of_nat (length rows)
  /\ total_violations v' = total_violations v.
Proof.
  induction rows as [|i rows IH]; intros v v'; cbn [foldM].
  - intros [= <-]. simpl. lia.
  - destruct (check_row cs ts power_columns v i) as [v1|e] eqn:Hrow; [|discriminate].
    cbn [mbind result_bind]. intros Hrest.
    apply check_row_counts in Hrow. apply IH in Hrest. simpl length. lia.
Qed.

(** Each of the four counts is a number of rows, so between 0 and the
    number of rows of the frame, and the total is their sum; a row may
    count in several of them. *)
Theorem violations_are_row_counts (df : DataFrame) (power_columns : list string)
    (violations : Violations) :
  _analyze_solar_physics_violations df power_columns = Return violations ->
  0 <= nighttime_data_present violations <= Z.of_nat (nrows df)
  /\ 0 <= daytime_zero_unexpected violations <= Z.of_nat (nrows df)
  /\ 0 <= power_exceeds_capacity violations <= Z.of_nat (nrows df)
  /\ 0 <= negative_power violations <= Z.of_nat (nrows df)
  /\ total_violations violations
     = nighttime_data_present violations + daytime_zero_unexpected violations
       + power_exceeds_capacity violations + negative_power violations.
Proof.
  unfold _analyze_solar_physics_violations.
  destruct (col_lookup "Time" (cols df)) as [v|].
  - destruct (to_datetime v) as [ts|e]; [|discriminate]. cbn [mbind result_bind].
    destruct (foldM _ _ _) as [vs|e] eqn:Hloop; [|discriminate].
    cbn [mbind result_bind]. intros [= <-]. cbn.
    apply check_rows_counts in Hloop. rewrite length_seq in Hloop. cbn in Hloop. lia.
  - intros [= <-]. cbn. lia.
Qed.

Lemma geb_zero_not_negative (y : float) : geb y zero = true -> ltb y (of_int 0) = false.
Proof. destruct y as [s|s| |s m e]; try destruct s; try discriminate; reflexivity. Qed.

Lemma any_admissible_lt (t : timestamp) (l : list cell) :
  Forall (admissible t) l -> Forall (fun c => cell_notna c = true) l ->
  any (cell_lt 0) l = Return false.
Proof.
  induction 1 as [|c l (y & -> & Hy) _ IH]; intros Hn; [reflexivity|].
  apply Forall_cons in Hn. destruct Hn as [Hc Hn]. cbn [any cell_lt mbind result_bind].
  destruct Hy as [Hy|[_ Hy]].
  - cbn in Hc. unfold notna in Hc. rewrite Hy in Hc. discriminate.
  - rewrite (geb_zero_not_negative _ Hy). apply IH. exact Hn.
Qed.

Lemma any_admissible_night (t : timestamp) (l : list cell) :
  night t = true ->
  Forall (admissible t) l -> Forall (fun c => cell_notna c = true) l ->
  any (cell_gt 10) l = Return false.
Proof.
  intros Ht. induction 1 as [|c l (y & -> & Hy) _ IH]; intros Hn; [reflexivity|].
  apply Forall_cons in Hn. destruct Hn as [Hc Hn]. cbn [any cell_gt mbind result_bind].
  destruct Hy as [Hy|[Hy _]].
  - cbn in Hc. unfold notna in Hc. rewrite Hy in Hc. discriminate.
  - rewrite (Hy Ht). change (gtb zero (of_int 10)) with false. apply IH. exact Hn.
Qed.

Lemma any_numbers (z : Z) (t : timestamp) (l : list cell) :
  Forall (admissible t) l -> exists b, any (cell_gt z) l = Return b.
Proof.
  induction 1 as [|c l (y & -> & _) _ [b IH]]; [exists false; reflexivity|].
  cbn [any cell_gt mbind result_bind]. destruct (gtb y (of_int z)); eauto.
Qed.

Section AfterConstraints.
Variables (cs : list (string * column)) (ts : list timestamp)
  (power_columns : list string).

(** Every power column is a column of numbers that are missing, or are
    at least 0 and exactly 0 in the night rows. *)
Hypothesis Hclean : forall col, col ∈ power_columns ->
  exists ys, col_lookup col cs = Some (NumCol ys)
    /\ forall i y, ys !! i = Some y ->
         isna y = true
         \/ ((night (default None (ts !! i)) = true -> y = zero) /\ geb y zero = true).

Lemma row_values_admissible (i : nat) : forall pcs,
  pcs ⊆ power_columns ->
  exists values, mapM (row_value cs i) pcs = Return values
    /\ Forall (admissible (default None (ts !! i))) values.
Proof.
  induction pcs as [|col pcs IH]; intros Hsub.
  - exists []. split; [reflexivity|constructor].
  - destruct (Hclean col) as (ys & Hys & Hvals); [apply Hsub, elem_of_cons; auto|].
    destruct IH as (values & Hvalues & Hadm).
    { intros c Hc. apply Hsub, elem_of_cons. auto. }
    exists (cell_at (NumCol ys) i :: values).
    assert (Hcol : row_value cs i col = Return (cell_at (NumCol ys) i))
      by (unfold row_value; rewrite Hys; reflexivity).
    change (mapM (row_value cs i) (col :: pcs))
      with (y ← row_value cs i col; k ← mapM (row_value cs i) pcs; mret (y :: k)).
    rewrite Hcol, Hvalues. split; [reflexivity|].
    constructor; [|exact Hadm].
    cbn [cell_at]. exists (default nan (ys !! i)). split; [reflexivity|].
    destruct (ys !! i) as [y|] eqn:Hy; [|left; reflexivity].
    apply (Hvals i y Hy).
Qed.

Lemma check_row_clean (v : Violations) (i : nat) :
  exists v', check_row cs ts power_columns v i = Return v'
    /\ nighttime_data_present v' = nighttime_data_present v
    /\ negative_power v' = negative_power v.
Proof.
  unfold check_row.
  destruct (row_values_admissible i power_columns) as (values & -> & Hadm);
    [reflexivity|].
  cbn [mbind result_bind].
  assert (Hadm' : Forall (admissible (default None (ts !! i)))
                    (List.filter cell_notna values)).
  { apply Forall_forall. intros c Hc. apply list_elem_of_In, filter_In in Hc.
    destruct Hc as [Hc _]. apply list_elem_of_In in Hc.
    rewrite Forall_forall in Hadm. auto. }
  assert (Hnotna : Forall (fun c => cell_notna c = true) (List.filter cell_notna values)).
  { apply Forall_forall. intros c Hc. apply list_elem_of_In, filter_In in Hc.
    apply Hc. }
  destruct (List.filter cell_notna values) as [|p power_vals] eqn:Hvals; [eauto|].
  rewrite (any_admissible_lt _ _ Hadm' Hnotna).
  destruct (any_numbers 10000 _ _ Hadm') as [x ->].
  destruct (night (default None (ts !! i))) eqn:Hnight.
  - rewrite (any_admissible_night _ _ Hnight Hadm' Hnotna).
    cbn [mbind result_bind]. eexists. split; [reflexivity|]. cbn. lia.
  - cbn [mbind result_bind]. eexists. split; [reflexivity|]. cbn. lia.
Qed.

Lemma check_rows_clean (rows : list nat) : forall v,
  exists v', foldM (check_row cs ts power_columns) v rows = Return v'
    /\ nighttime_data_present v' = nighttime_data_present v
    /\ negative_power v' = negative_power v.
Proof.
  induction rows as [|i rows IH]; intros v; cbn [foldM]; [eauto|].
  destruct (check_row_clean v i) as (v1 & -> & Hn1 & Hp1). cbn [mbind result_bind].
  destruct (IH v1) as (v' & Hv' & Hn & Hp). exists v'.
  split; [exact Hv'|]. split; congruence.
Qed.

End AfterConstraints.

(** A frame that the post-processor has returned, with [Time] as its
    time column and no power column named [hour], violates neither of
    the two rules the post-processor enforces: the analysis of that frame
    succeeds and counts no row with power at night and no row with
    negative power. *)
Theorem constrained_frame_violations (df df' : DataFrame) (power_columns : list string) :
  "hour" ∉ power_columns ->
  apply_solar_constraints df power_columns "Time" = Return df' ->
  exists violations,
    _analyze_solar_physics_violations df' power_columns = Return violations
    /\ nighttime_data_present violations = 0
    /\ negative_power violations = 0.
Proof.
  intros Hhour Happly.
  destruct (solar_constraints_columns df df' power_columns "Time"
              ltac:(discriminate) Happly)
    as (Htime & ts & Hts & Hcols).
  unfold _analyze_solar_physics_violations. rewrite Hts.
  cbn [to_datetime mbind result_bind].
  assert (Hclean : forall col, col ∈ power_columns ->
            exists ys,
              col_lookup col (col_set "hour" (NumCol (hour_column ts))
                                (col_set "Time" (TimeCol ts) (cols df')))
              = Some (NumCol ys)
              /\ forall i y, ys !! i = Some y ->
                   isna y = true
                   \/ ((night (default None (ts !! i)) = true -> y = zero)
                       /\ geb y zero = true)).
  { intros col Hcol.
    assert (Hne1 : col <> "hour") by (intros ->; contradiction).
    assert (Hne2 : col <> "Time") by (intros ->; contradiction).
    destruct (Hcols col Hcol Hne1) as [xs Hxs].
    exists (constrained (map night ts) xs).
    rewrite !col_lookup_set_ne by congruence. split; [exact Hxs|].
    intros i y Hy. rewrite constrained_lookup in Hy.
    destruct (xs !! i) as [x|]; [|discriminate].
    rewrite list_lookup_fmap in Hy.
    assert (Hmask : default false (night <$> ts !! i) = night (default None (ts !! i)))
      by (destruct (ts !! i); reflexivity).
    rewrite Hmask in Hy. cbn [fmap option_fmap option_map] in Hy.
    injection Hy as <-.
    destruct (night (default None (ts !! i))); [right; split; reflexivity|].
    destruct (isna x || geb x zero) eqn:Hx.
    - apply orb_true_iff in Hx. destruct Hx as [Hx|Hx]; [left; exact Hx|].
      right. split; [discriminate|exact Hx].
    - right. split; reflexivity. }
  destruct (check_rows_clean _ ts power_columns Hclean (seq 0 (nrows df')) no_violations)
    as (v' & Hv' & Hn & Hp).
  - rewrite Hv'. cbn [mbind result_bind]. eexists. split; [reflexivity|].
    cbn. split; assumption.
Qed.

Lemma constrained_frame_violations_witness :
  exists violations,
    _analyze_solar_physics_violations (sample_frame 4 [zero; zero; zero; nan]) ["power"]
    = Return violations
    /\ nighttime_data_present violations = 0
    /\ negative_power violations = 0.
Proof.
  apply (constrained_frame_violations
           (sample_frame 4 [of_int 5; of_int 7; SFopp (of_int 3); nan])).
  - intros H. apply list_elem_of_singleton in H. discriminate.
  - vm_compute. reflexivity.
Defined.

Lemma violations_are_row_counts_witness :
  0 <= 1 <= Z.of_nat 4 /\ 0 <= 0 <= Z.of_nat 4 /\ 0 <= 0 <= Z.of_nat 4
  /\ 0 <= 1 <= Z.of_nat 4 /\ 2 = 1 + 0 + 0 + 1.
Proof.
  exact (violations_are_row_counts
           (sample_frame 4 [of_int 50; of_int 7; SFopp (of_int 3); nan]) ["power"]
           {| nighttime_data_present := 1; daytime_zero_unexpected := 0;
              power_exceeds_capacity := 0; negative_power := 1; total_violations := 2 |}
           eq_refl).
Defined.

(** ** Gap impact *)

(** The overall impact follows from the three criteria: the peak-hour
    criterion sets two of the four assessments, so it alone makes the
    overall impact high; the full-day and the short-gap criterion make it
    high only together, and medium when exactly one of them holds; with
    none of the three it is low.  The daily-energy assessment is always
    the peak-power one. *)
Theorem overall_impact_levels (gaps : list Gap.t) (df : DataFrame) (impact : Impact) :
  _assess_gap_impact gaps df = Return impact ->
  daily_energy_calculation impact = peak_power_analysis impact
  /\ overall_impact impact
     = (if is_high (peak_power_analysis impact)
           || (is_high (performance_ratio_calculation impact)
               && is_high (fault_detection impact))
        then impact_high
        else if is_high (performance_ratio_calculation impact)
                || is_high (fault_detection impact)
        then impact_medium
        else impact_low).
Proof.
  unfold _assess_gap_impact.
  destruct gaps as [|g gaps]; [intros [= <-]; split; reflexivity|].
  destruct (col_lookup "Time" (cols df)) as [v|]; [|intros [= <-]; split; reflexivity].
  destruct (to_datetime v) as [ts|e]; [|discriminate]. cbn [mbind result_bind].
  destruct (foldM _ _ _) as [[[peak full] short]|e]; [|discriminate].
  cbn [mbind result_bind]. intros [= <-].
  cbn [daily_energy_calculation peak_power_analysis performance_ratio_calculation
       fault_detection overall_impact].
  split; [reflexivity|].
  destruct (exceeds peak _ _), (exceeds full _ _), (exceeds short _ _); reflexivity.
Qed.

Lemma overall_impact_levels_witness :
  overall_impact
    {| daily_energy_calculation := impact_low; peak_power_analysis := impact_low;
       performance_ratio_calculation := impact_low; fault_detection := impact_high;
       overall_impact := impact_medium |}
  = impact_medium.
Proof.
  destruct (overall_impact_levels
              [ {| Gap.start_index := 1; Gap.end_index := 1; Gap.length := 1;
                   Gap.start_time := Some (CTime (hours 1));
                   Gap.end_time := Some (CTime (hours 1)) |} ]
              (sample_frame 0 [of_int 1; nan; of_int 1])
              {| daily_energy_calculation := impact_low; peak_power_analysis := impact_low;
                 performance_ratio_calculation := impact_low;
                 fault_detection := impact_high; overall_impact := impact_medium |}
              ltac:(vm_compute; reflexivity)) as [_ H].
  exact H.
Defined.

Lemma peak_count (gaps : list Gap.t) : forall peak full short,
  Forall starts_at_peak gaps ->
  exists full' short',
    foldM tally_gap (peak, full, short) gaps
    = Return (peak + Z.of_nat (length gaps), full', short').
Proof.
  induction gaps as [|g gaps IH]; intros peak full short Hall; cbn [foldM].
  - exists full, short. f_equal. f_equal. f_equal. simpl. lia.
  - apply Forall_cons in Hall. destruct Hall as [(z & Hz & Hhour) Hall].
    assert (Hstep : tally_gap (peak, full, short) g
                    = Return (peak + 1, full + count (24 <=? Gap.length g),
                              short + count (Gap.length g <=? 2))).
    { unfold tally_gap, has_start_time, start_timestamp. rewrite Hz.
      cbn [negb mbind result_bind in_peak_hours].
      replace ((10 <=? hour_of z) && (hour_of z <=? 14)) with true
        by (symmetry; apply andb_true_iff; split; [apply Z.leb_le|apply Z.leb_le]; lia).
      reflexivity. }
    rewrite Hstep. cbn [mbind result_bind].
    destruct (IH (peak + 1) (full + count (24 <=? Gap.length g))
                (short + count (Gap.length g <=? 2)) Hall) as (full' & short' & ->).
    exists full', short'. f_equal. f_equal. f_equal. simpl length. lia.
Qed.

(** When the frame has a column [Time] of timestamps and every gap
    starts in the hours 10 to 14, the peak-power and the daily-energy
    assessment are high, and so is the overall impact. *)
Theorem peak_hour_gaps_have_high_impact (gaps : list Gap.t) (df : DataFrame)
    (ts : list timestamp) :
  gaps <> [] ->
  Z.of_nat (length gaps) < 2 ^ 48 ->
  col_lookup "Time" (cols df) = Some (TimeCol ts) ->
  Forall starts_at_peak gaps ->
  exists impact,
    _assess_gap_impact gaps df = Return impact
    /\ peak_power_analysis impact = impact_high
    /\ daily_energy_calculation impact = impact_high
    /\ overall_impact impact = impact_high.
Proof.
  intros Hne Hlen Htime Hall. unfold _assess_gap_impact. rewrite Htime.
  destruct gaps as [|g gaps]; [contradiction|].
  cbn [to_datetime mbind result_bind].
  destruct (peak_count (g :: gaps) 0 0 0 Hall) as (full & short & ->).
  cbn [mbind result_bind].
  rewrite (exceeds_exact _ _ 3) by (try tauto; simpl length in *; lia).
  rewrite bool_decide_eq_true_2 by (simpl length; lia).
  eexists. split; [reflexivity|]. cbn.
  repeat split.
  destruct (exceeds full _ _), (exceeds short _ _); reflexivity.
Qed.

Lemma peak_hour_gaps_have_high_impact_witness :
  exists impact,
    _assess_gap_impact
      [ {| Gap.start_index := 1; Gap.end_index := 1; Gap.length := 1;
           Gap.start_time := Some (CTime (hours 11));
           Gap.end_time := Some (CTime (hours 11)) |} ]
      (sample_frame 10 [of_int 1; nan; of_int 1]) = Return impact
    /\ peak_power_analysis impact = impact_high
    /\ daily_energy_calculation impact = impact_high
    /\ overall_impact impact = impact_high.
Proof.
  apply (peak_hour_gaps_have_high_impact _ _ (map hours (seqZ 10 3)));
    [discriminate|vm_compute; reflexivity|reflexivity|].
  repeat constructor. exists (11 * 3600000000000). split; [reflexivity|].
  vm_compute. split; discriminate.
Defined.

(** ** Failure patterns and the recommender *)

(** The recommender selects no method for an analysis that holds an
    error or in which no column was analysed: it returns the error. *)
Lemma no_columns_no_method classify_columns temporal_clustering (analysis : Analysis) :
  recommend_methods_of_analysis classify_columns temporal_clustering analysis
  = match analysis_error analysis, analysis_columns analysis with
    | Some error, _ => Return (ErrorDict error)
    | None, [] => Return (ErrorDict "No column data available for pattern analysis")
    | None, _ =>
        recommend_methods_of_analysis classify_columns temporal_clustering analysis
    end.
Proof.
  unfold recommend_methods_of_analysis, classify_failure_patterns.
  destruct (analysis_error analysis); [reflexivity|].
  destruct (analysis_columns analysis); reflexivity.
Qed.

(** With exactly one analysed column there is no cross-equipment
    analysis: its three labels stay unknown, the primary pattern of the
    summary is unknown, and the recommender decides by the gap-length
    thresholds alone, whatever the temporal clustering and the failure
    types of the column. *)
Theorem single_column_uses_thresholds
    (classify_columns : Columns -> result (list (string * Patterns)))
    (temporal_clustering : Columns -> result TemporalClustering)
    (analysis : Analysis) (failure_types : list (string * Patterns))
    (temporal : TemporalClustering) :
  analysis_error analysis = None ->
  length (analysis_columns analysis) = 1%nat ->
  classify_columns (analysis_columns analysis) = Return failure_types ->
  temporal_clustering (analysis_columns analysis) = Return temporal ->
  dist_total (gap_length_distribution analysis) <> 0 ->
  _analyze_cross_equipment_correlation (analysis_columns analysis)
  = Return {| simultaneous_failures := unknown; independent_failures := unknown;
              cascading_failures := unknown |}
  /\ exists summary recs,
       classify_failure_patterns classify_columns temporal_clustering analysis
       = Return (Done summary)
       /\ primary_pattern summary = "unknown"
       /\ recommend_methods_of_analysis classify_columns temporal_clustering analysis
          = Return (Done recs)
       /\ let gap_dist := gap_length_distribution analysis in
          let short_gaps :=
            dist_get gap_dist "1h" + dist_get gap_dist "2h" + dist_get gap_dist "3h" in
          let medium_gaps :=
            dist_get gap_dist "6h" + dist_get gap_dist "12h" + dist_get gap_dist "1d" in
          let long_gaps :=
            dist_get gap_dist "2d" + dist_get gap_dist "1w" + dist_get gap_dist ">1w" in
          primary_method recs
          = if exceeds short_gaps (dist_total gap_dist) (literal 7 10)
            then "spline_interpolation"
            else if exceeds medium_gaps (dist_total gap_dist) (literal 3 10)
            then "gaussian_process"
            else if exceeds long_gaps (dist_total gap_dist) (literal 2 10)
            then "physics_based_model"
            else "unknown".
Proof.
  intros Herror Hone Hclassify Htemporal Htotal.
  assert (Hcross : _analyze_cross_equipment_correlation (analysis_columns analysis)
                   = Return {| simultaneous_failures := unknown;
                               independent_failures := unknown;
                               cascading_failures := unknown |}).
  { unfold _analyze_cross_equipment_correlation.
    destruct (decide (length (analysis_columns analysis) < 2)%nat); [reflexivity|lia]. }
  split; [exact Hcross|].
  assert (Hsummary : classify_failure_patterns classify_columns temporal_clustering
                       analysis
                     = Return (Done (_generate_pattern_summary
                                       {| simultaneous_failures := unknown;
                                          independent_failures := unknown;
                                          cascading_failures := unknown |}
                                       temporal failure_types).1)).
  { unfold classify_failure_patterns. rewrite Herror.
    destruct (analysis_columns analysis) as [|column columns] eqn:Hcolumns;
      [discriminate|].
    rewrite Hclassify. cbn [mbind result_bind]. rewrite Hcross.
    cbn [mbind result_bind]. rewrite Htemporal. reflexivity. }
  eexists. eexists. split; [exact Hsummary|]. split; [reflexivity|].
  split.
  - unfold recommend_methods_of_analysis. rewrite Herror, Hsummary. reflexivity.
  - cbv zeta. apply recommend_fallback_order; [discriminate|discriminate|exact Htotal].
Qed.

Lemma single_column_uses_thresholds_witness :
  _analyze_cross_equipment_correlation one_column
  = Return {| simultaneous_failures := unknown; independent_failures := unknown;
              cascading_failures := unknown |}.
Proof.
  destruct (single_column_uses_thresholds
              (fun _ => Return []) (fun _ => Return no_clustering)
              {| analysis_error := None; analysis_columns := one_column;
                 gap_length_distribution := {[ "1h" := 1 ]} |}
              [] no_clustering) as [Hcross _].
  - reflexivity.
  - reflexivity.
  - reflexivity.
  - reflexivity.
  - vm_compute. discriminate.
  - exact Hcross.
Defined.

Lemma count_pair_apart (t1 : timestamp) (col2_times : list timestamp) :
  (forall t2, t2 ∈ col2_times -> within_hour t1 t2 = Return false) ->
  forall counters,
    foldM (count_pair t1) counters col2_times
    = Return (counters.1, counters.2 + Z.of_nat (length col2_times)).
Proof.
  induction col2_times as [|t2 l2 IH]; intros Hsep [s t]; cbn [foldM fst snd length].
  - rewrite Z.add_0_r. reflexivity.
  - assert (Hstep : count_pair t1 (s, t) t2 = Return (s, t + 1)).
    { unfold count_pair. rewrite Hsep by (apply elem_of_cons; auto).
      cbn [mbind result_bind fst snd count]. rewrite Z.add_0_r. reflexivity. }
    rewrite Hstep. cbn [mbind result_bind]. rewrite IH.
    + cbn [fst snd]. f_equal. f_equal; lia.
    + intros t2' Ht2'. apply Hsep. apply elem_of_cons. auto.
Qed.

Lemma count_pairs_apart (col1_times col2_times : list timestamp) :
  (forall t1 t2, t1 ∈ col1_times -> t2 ∈ col2_times ->
     within_hour t1 t2 = Return false) ->
  forall counters,
    count_pairs col1_times col2_times counters
    = Return (counters.1,
              counters.2
              + Z.of_nat (length col1_times) * Z.of_nat (length col2_times)).
Proof.
  unfold count_pairs. induction col1_times as [|t1 l1 IH]; intros Hsep [s t];
    cbn [foldM fst snd length].
  - rewrite Z.add_0_r. reflexivity.
  - rewrite count_pair_apart by (intros t2 Ht2; apply Hsep; [apply elem_of_cons; auto|exact Ht2]).
    cbn [mbind result_bind fst snd]. rewrite IH.
    + cbn [fst snd]. f_equal. f_equal; lia.
    + intros a b Ha. apply Hsep. apply elem_of_cons. auto.
Qed.

Lemma count_all_pairs_apart (all_gap_times : list (list timestamp)) :
  apart all_gap_times ->
  forall counters,
    count_all_pairs all_gap_times counters
    = Return (counters.1, counters.2 + n_pairs all_gap_times).
Proof.
  induction all_gap_times as [|l1 rest IH]; intros Hsep [s t];
    cbn [count_all_pairs n_pairs fst snd].
  - rewrite Z.add_0_r. reflexivity.
  - destruct Hsep as [Hfirst Hrest].
    assert (Hrow : forall counters,
               foldM (fun counters col2_times => count_pairs l1 col2_times counters)
                     counters rest
               = Return (counters.1,
                         counters.2
                         + Z.of_nat (length l1) * Z.of_nat (length (concat rest)))).
    { clear IH Hrest. induction Hfirst as [|l2 rest Hl2 _ IHrow]; intros [s' t'];
        cbn [foldM fst snd concat length].
      - rewrite Z.mul_0_r, Z.add_0_r. reflexivity.
      - rewrite count_pairs_apart by exact Hl2. cbn [mbind result_bind fst snd].
        rewrite IHrow. cbn [fst snd]. rewrite length_app. f_equal. f_equal; lia. }
    rewrite Hrow. cbn [mbind result_bind fst snd]. rewrite IH by exact Hrest.
    cbn [fst snd]. f_equal. f_equal; lia.
Qed.

Lemma ratio_of_none (total : Z) :
  0 < total < 2 ^ 53 ->
  exists s, div (of_int 0) (of_int total) = S754_zero s.
Proof.
  intros [Hpos Hlt]. destruct total as [|p|p]; try lia.
  destruct (of_int_pos p) as (m & -> & _).
  - pose proof (digits2_pos_bounds p) as [Hlo _].
    assert (Z.pos (digits2_pos p) - 1 < 53) by (apply pow2_lt_inv; lia). lia.
  - exists false. reflexivity.
Qed.

(** When the analysed columns are at least two, some two of them have a
    gap each, and every gap of a column starts an hour or more from every
    gap of another column, the failures are classified as independent, the
    primary pattern is that of individual equipment failures, and the
    recommender (given gaps in the distribution) selects one of its four
    equipment-level methods, never one of the gap-length ones. *)
Theorem separate_failures_are_individual (columns : Columns)
    (all_gap_times : list (list timestamp)) (temporal : TemporalClustering)
    (failure_types : list (string * Patterns)) (gap_dist : gmap string Z) :
  (2 <= length columns)%nat ->
  mapM (fun kv => gap_start_times kv.2) columns = Return all_gap_times ->
  apart all_gap_times ->
  0 < n_pairs all_gap_times < 2 ^ 53 ->
  dist_total gap_dist <> 0 ->
  exists cross_corr,
    _analyze_cross_equipment_correlation columns = Return cross_corr
    /\ independent_failures cross_corr = high
    /\ let summary := (_generate_pattern_summary cross_corr temporal failure_types).1 in
       primary_pattern summary = "individual_equipment_failures"
       /\ primary_method (recommend_methods_generic summary gap_dist)
          ∈ ["degradation_aware_interpolation"; "maintenance_aware_interpolation";
             "equipment_specific_interpolation"; "multi_output_regression"].
Proof.
  intros Hlen Htimes Hsep Htotal Hdist. unfold _analyze_cross_equipment_correlation.
  destruct (decide (length columns < 2)%nat); [lia|].
  rewrite Htimes. cbn [mbind result_bind].
  rewrite (count_all_pairs_apart _ Hsep (0, 0)). cbn [mbind result_bind fst snd].
  rewrite Z.add_0_l.
  rewrite (proj2 (Z.ltb_lt 0 (n_pairs all_gap_times))) by lia.
  destruct (ratio_of_none _ Htotal) as [s ->].
  assert (H3 : gtb (S754_zero s) (literal 3 10) = false) by (destruct s; reflexivity).
  assert (H1 : gtb (S754_zero s) (literal 1 10) = false) by (destruct s; reflexivity).
  rewrite H3, H1. eexists. split; [reflexivity|]. split; [reflexivity|].
  cbv zeta. split; [reflexivity|].
  unfold recommend_methods_generic, _generate_pattern_summary.
  cbn [simultaneous_failures independent_failures label_is fst primary_pattern].
  destruct (decide (dist_total gap_dist = 0)); [contradiction|].
  destruct (decide (_ = "system_wide_failures")); [discriminate|].
  destruct (decide (_ = "individual_equipment_failures")); [|contradiction].
  destruct (decide ("equipment_degradation" ∈ _));
    [cbn [primary_method]; apply elem_of_cons; left; reflexivity|].
  destruct (decide ("maintenance_patterns" ∈ _));
    [cbn [primary_method]; do 1 (apply elem_of_cons; right);
     apply elem_of_cons; left; reflexivity|].
  destruct (decide ("random_failures" ∈ _)); cbn [primary_method].
  - do 2 (apply elem_of_cons; right). apply elem_of_cons; left; reflexivity.
  - do 3 (apply elem_of_cons; right). apply elem_of_cons; left; reflexivity.
Qed.

Lemma separate_failures_are_individual_witness :
  exists cross_corr,
    _analyze_cross_equipment_correlation two_columns = Return cross_corr
    /\ independent_failures cross_corr = high.
Proof.
  destruct (separate_failures_are_individual two_columns [[hours 1]; [hours 5]]
              {| clustered := unknown; distributed := unknown; seasonal := unknown |}
              [] {[ "1h" := 1; "2h" := 1 ]})
    as (cross_corr & Hcross & Hind & _).
  - simpl. lia.
  - reflexivity.
  - split; [|split; [constructor|exact I]].
    constructor; [|constructor]. intros t1 t2 H1 H2.
    apply list_elem_of_singleton in H1, H2. subst. reflexivity.
  - vm_compute. split; reflexivity.
  - vm_compute. discriminate.
  - exists cross_corr. split; assumption.
Defined.

(** ** Interpolation keeps the known values *)

Lemma keeps_known_refl cs : keeps_known cs cs.
Proof.
  intros col. destruct (col_lookup col cs) as [[ts|xs]|]; [reflexivity| |exact I].
  exists xs. auto.
Qed.

Lemma fill_where_length mask values xs :
  length (fill_where mask values xs) = length xs.
Proof.
  revert mask values. induction xs as [|x xs IH]; intros [|[|] mask] values;
    try reflexivity.
  - destruct values; simpl; rewrite IH; reflexivity.
  - simpl. rewrite IH. reflexivity.
Qed.

Lemma fill_where_known mask values xs i x :
  xs !! i = Some x -> mask !! i = Some false ->
  fill_where mask values xs !! i = Some x.
Proof.
  revert mask values i. induction xs as [|y xs IH]; intros mask values i; [discriminate|].
  destruct mask as [|b mask]; [discriminate|].
  destruct i as [|i]; simpl.
  - intros [= ->] [= ->]. reflexivity.
  - intros Hx Hm. destruct b; [destruct values|]; simpl; apply IH; assumption.
Qed.

(** Filling the missing cells of a column keeps the known values. *)
Lemma assign_missing_keeps cs0 cs n values col zs cs' :
  keeps_known cs0 cs ->
  col_lookup col cs = Some (NumCol zs) ->
  assign_where n (map isna zs) values col cs = Return cs' ->
  keeps_known cs0 cs'.
Proof.
  intros Hkeep Hcol. unfold assign_where. rewrite Hcol. intros [= <-] c.
  specialize (Hkeep c).
  destruct (decide (c = col)) as [->|Hne].
  - rewrite col_lookup_set_eq.
    destruct (col_lookup col cs0) as [[ts|xs]|]; [congruence| |exact I].
    destruct Hkeep as (zs' & Hzs' & Hlen & Hvals).
    assert (zs' = zs) as -> by congruence.
    eexists. split; [reflexivity|]. split; [rewrite fill_where_length; exact Hlen|].
    intros i x Hx Hn. apply fill_where_known; [auto|].
    rewrite list_lookup_fmap, (Hvals i x Hx Hn). simpl.
    unfold notna in Hn. destruct (isna x); [discriminate|reflexivity].
  - rewrite col_lookup_set_ne by congruence. exact Hkeep.
Qed.

Section Known.
Context {learn : Learners}.

Lemma spline_loop_keeps (df : DataFrame) (ts : list timestamp) cs0 power_columns :
  forall cs cs',
  keeps_known cs0 cs ->
  foldM (fun cs col =>
           match col_lookup col cs with
           | Some (NumCol xs) =>
               let mask := map notna xs in
               if decide (3 < count_true mask)%nat then
                 spline ← interp1d_cubic (select mask (map to_numeric_time ts))
                            (select mask xs);
                 let missing_mask := map isna xs in
                 if decide (0 < count_true missing_mask)%nat then
                   assign_where (nrows df) missing_mask
                     (spline (select missing_mask (map to_numeric_time ts))) col cs
                 else Return cs
               else Return cs
           | Some (TimeCol ts') =>
               if decide (3 < count_true (map negb (col_isna (TimeCol ts'))))%nat
               then Raise (TypeError "datetime values cannot be interpolated")
               else Return cs
           | None => Return cs
           end) cs power_columns = Return cs' ->
  keeps_known cs0 cs'.
Proof.
  induction power_columns as [|c pcs IH]; intros cs cs' Hkeep; cbn [foldM].
  - intros [= <-]. exact Hkeep.
  - destruct (col_lookup c cs) as [[ts'|xs]|] eqn:Hc.
    + destruct (decide (3 < _)%nat); [discriminate|]. cbn [mbind result_bind].
      apply IH. exact Hkeep.
    + cbv zeta. destruct (decide (3 < _)%nat).
      * destruct (interp1d_cubic _ _) as [spline|e]; [|discriminate].
        cbn [mbind result_bind].
        destruct (decide (0 < _)%nat).
        -- destruct (assign_where _ _ _ _ _) as [cs1|e] eqn:Hassign; [|discriminate].
           cbn [mbind result_bind]. apply IH.
           eapply assign_missing_keeps; eauto.
        -- cbn [mbind result_bind]. apply IH. exact Hkeep.
      * cbn [mbind result_bind]. apply IH. exact Hkeep.
    + cbn [mbind result_bind]. apply IH. exact Hkeep.
Qed.

Lemma keeps_known_set_time cs (time_column : string) (ts : list timestamp) :
  datetime_of cs time_column = Return ts ->
  forall col, col <> time_column ->
    col_lookup col (col_set time_column (TimeCol ts) cs) = col_lookup col cs.
Proof. intros _ col Hne. apply col_lookup_set_ne. congruence. Qed.

(** The spline strategy changes a known value only through the solar
    post-processor: in the frame it returns, a power column holds, where
    the input has a value, 0 in the night rows and otherwise that value,
    or 0 if it is negative; the columns of numbers that are not power
    columns keep their known values.  Whatever the spline library
    computes goes into the missing cells only. *)
Lemma spline_keeps_known_values (self : interpolator) (df df' : DataFrame)
    (power_columns : list string) (time_column : string) (ts : list timestamp) :
  time_column <> "hour" ->
  datetime_of (cols df) time_column = Return ts ->
  Spline_interpolate self df power_columns time_column = Return df' ->
  forall col xs, col_lookup col (cols df) = Some (NumCol xs) ->
    col <> "hour" -> col <> time_column ->
    exists ys, col_lookup col (cols df') = Some (NumCol ys)
      /\ length ys = length xs
      /\ forall i x, xs !! i = Some x -> notna x = true ->
           ys !! i
           = Some (if bool_decide (col ∈ power_columns) then
                     if default false (night <$> ts !! i) then zero
                     else if geb x zero then x else zero
                   else x).
Proof.
  intros Htc Hts. unfold Spline_interpolate. rewrite Hts. cbn [mbind result_bind].
  destruct (foldM _ _ power_columns) as [cs|e] eqn:Hloop; [|discriminate].
  cbn [mbind result_bind]. intros Happly col xs Hxs Hhour Hcol.
  pose proof (spline_loop_keeps df ts _ power_columns _ _
                (keeps_known_refl _) Hloop) as Hkeep.
  pose proof (Hkeep time_column) as Htime. rewrite col_lookup_set_eq in Htime.
  pose proof (Hkeep col) as Hk.
  rewrite col_lookup_set_ne, Hxs in Hk by congruence.
  destruct Hk as (zs & Hzs & Hlen & Hvals).
  destruct (solar_constraints_values _ _ _ _ Htc Happly)
    as (_ & ts' & Hts' & _ & Hother & Hpower).
  cbn [cols] in Hts', Hother, Hpower.
  unfold datetime_of in Hts'. rewrite Htime in Hts'. injection Hts' as <-.
  destruct (decide (col ∈ power_columns)) as [Hin|Hnin].
  - destruct (Hpower col zs Hin Hhour Hzs) as (ys & Hys & Hlen' & Hval').
    exists ys. split; [exact Hys|]. split; [congruence|].
    intros i x Hx Hn. rewrite (Hval' i x (Hvals i x Hx Hn)).
    rewrite bool_decide_eq_true_2 by exact Hin.
    unfold notna in Hn. destruct (isna x); [discriminate|]. reflexivity.
  - exists zs. rewrite Hother by assumption.
    split; [exact Hzs|]. split; [exact Hlen|].
    intros i x Hx Hn. rewrite bool_decide_eq_false_2 by exact Hnin. auto.
Qed.

Lemma physics_loop_keeps (self : interpolator) (n : nat) cs0 power_columns :
  forall cs cs',
  keeps_known cs0 cs ->
  foldM (fun cs col =>
           match system_parameters self !! col, col_lookup col cs with
           | Some parameters, Some v =>
               let missing_mask := col_isna v in
               if decide (0 < count_true missing_mask)%nat then
                 match col_lookup "hour" cs with
                 | Some (NumCol hours) =>
                     assign_where n missing_mask
                       (calculate_theoretical_solar_curve
                          (select missing_mask hours) parameters) col cs
                 | _ => Raise (KeyError "hour")
                 end
               else Return cs
           | _, _ => Return cs
           end) cs power_columns = Return cs' ->
  keeps_known cs0 cs'.
Proof.
  induction power_columns as [|c pcs IH]; intros cs cs' Hkeep; cbn [foldM].
  - intros [= <-]. exact Hkeep.
  - destruct (system_parameters self !! c) as [parameters|];
      [|cbn [mbind result_bind]; apply IH; exact Hkeep].
    destruct (col_lookup c cs) as [v|] eqn:Hc;
      [|cbn [mbind result_bind]; apply IH; exact Hkeep].
    cbv zeta. destruct (decide (0 < _)%nat);
      [|cbn [mbind result_bind]; apply IH; exact Hkeep].
    destruct (col_lookup "hour" cs) as [[hs|hs]|]; try discriminate.
    destruct (assign_where _ _ _ _ _) as [cs1|e] eqn:Hassign; [|discriminate].
    cbn [mbind result_bind]. apply IH.
    destruct v as [ts'|zs].
    + unfold assign_where in Hassign. rewrite Hc in Hassign. discriminate.
    + eapply assign_missing_keeps; eauto.
Qed.

Lemma physics_keeps_known_values (self : interpolator) (df df' : DataFrame)
    (power_columns : list string) (time_column : string) (ts : list timestamp) :
  time_column <> "hour" ->
  datetime_of (cols df) time_column = Return ts ->
  Physics_interpolate self df power_columns time_column = Return df' ->
  forall col xs, col_lookup col (cols df) = Some (NumCol xs) ->
    col <> "hour" -> col <> time_column ->
    exists ys, col_lookup col (cols df') = Some (NumCol ys)
      /\ length ys = length xs
      /\ forall i x, xs !! i = Some x -> notna x = true ->
           ys !! i
           = Some (if bool_decide (col ∈ power_columns) then
                     if default false (night <$> ts !! i) then zero
                     else if geb x zero then x else zero
                   else x).
Proof.
  intros Htc Hts. unfold Physics_interpolate.
  destruct (negb (is_fitted self)); [discriminate|].
  rewrite Hts. cbn [mbind result_bind].
  destruct (foldM _ _ power_columns) as [cs|e] eqn:Hloop; [|discriminate].
  cbn [mbind result_bind]. intros Happly col xs Hxs Hhour Hcol.
  pose proof (physics_loop_keeps self (nrows df) _ power_columns _ _
                (keeps_known_refl _) Hloop) as Hkeep.
  pose proof (Hkeep time_column) as Htime.
  rewrite col_lookup_set_ne, col_lookup_set_eq in Htime by congruence.
  pose proof (Hkeep col) as Hk.
  rewrite !col_lookup_set_ne, Hxs in Hk by congruence.
  destruct Hk as (zs & Hzs & Hlen & Hvals).
  destruct (solar_constraints_values _ _ _ _ Htc Happly)
    as (_ & ts' & Hts' & _ & Hother & Hpower).
  cbn [cols] in Hts', Hother, Hpower.
  unfold datetime_of in Hts'. rewrite col_lookup_drop_ne, Htime in Hts' by congruence.
  injection Hts' as <-.
  destruct (decide (col ∈ power_columns)) as [Hin|Hnin].
  - destruct (Hpower col zs Hin Hhour) as (ys & Hys & Hlen' & Hval').
    { rewrite col_lookup_drop_ne by congruence. exact Hzs. }
    exists ys. split; [exact Hys|]. split; [congruence|].
    intros i x Hx Hn. rewrite (Hval' i x (Hvals i x Hx Hn)).
    rewrite bool_decide_eq_true_2 by exact Hin.
    unfold notna in Hn. destruct (isna x); [discriminate|]. reflexivity.
  - exists zs. rewrite Hother by assumption.
    rewrite col_lookup_drop_ne by congruence.
    split; [exact Hzs|]. split; [exact Hlen|].
    intros i x Hx Hn. rewrite bool_decide_eq_false_2 by exact Hnin. auto.
Qed.

Lemma assign_where_other n mask values col cs cs' k :
  assign_where n mask values col cs = Return cs' -> k <> col ->
  col_lookup k cs' = col_lookup k cs.
Proof.
  unfold assign_where. intros H Hk.
  destruct (col_lookup col cs) as [[ts|xs]|]; [discriminate| |];
    injection H as <-; apply col_lookup_set_ne; congruence.
Qed.

Lemma gp_loop_keeps (self : interpolator) (n : nat) (features cs0 : list (string * column))
    power_columns :
  forall pcs cs cs',
  pcs ⊆ power_columns ->
  (forall col, col ∈ power_columns -> col_lookup col features = col_lookup col cs0) ->
  keeps_known cs0 cs ->
  foldM (fun cs col =>
           match gp_models self !! col, col_lookup col features with
           | Some gp, Some v =>
               let missing_mask := col_isna v in
               if decide (0 < count_true missing_mask)%nat then
                 y_pred ← gp_predict gp features missing_mask;
                 assign_where n missing_mask y_pred col cs
               else Return cs
           | _, _ => Return cs
           end) cs pcs = Return cs' ->
  keeps_known cs0 cs'
  /\ forall k, k ∉ pcs -> col_lookup k cs' = col_lookup k cs.
Proof.
  induction pcs as [|c pcs IH]; intros cs cs' Hsub Hfeat Hkeep; cbn [foldM].
  - intros [= <-]. auto.
  - assert (Hsub' : pcs ⊆ power_columns).
    { intros x Hx. apply Hsub, elem_of_cons. auto. }
    assert (Hskip : forall cs2,
              keeps_known cs0 cs2
              /\ (forall k, k ∉ pcs -> col_lookup k cs2 = col_lookup k cs) ->
              keeps_known cs0 cs2
              /\ forall k, k ∉ c :: pcs -> col_lookup k cs2 = col_lookup k cs).
    { intros cs2 [H1 H2]. split; [exact H1|]. intros k Hk. apply H2.
      intros Hin. apply Hk, elem_of_cons. auto. }
    destruct (gp_models self !! c) as [gp|];
      [|cbn [mbind result_bind]; intros Hrest; apply Hskip, (IH cs); auto].
    destruct (col_lookup c features) as [v|] eqn:Hv;
      [|cbn [mbind result_bind]; intros Hrest; apply Hskip, (IH cs); auto].
    cbv zeta. destruct (decide (0 < _)%nat);
      [|cbn [mbind result_bind]; intros Hrest; apply Hskip, (IH cs); auto].
    clear Hskip.
    destruct (gp_predict _ _ _) as [y_pred|e]; [|discriminate].
    cbn [mbind result_bind].
    destruct (assign_where _ _ _ _ _) as [cs1|e] eqn:Hassign; [|discriminate].
    cbn [mbind result_bind]. intros Hrest.
    assert (Hkeep1 : keeps_known cs0 cs1).
    { rewrite Hfeat in Hv by (apply Hsub, elem_of_cons; auto).
      pose proof (Hkeep c) as Hc. rewrite Hv in Hc.
      destruct v as [ts'|xs].
      - unfold assign_where in Hassign. rewrite Hc in Hassign. discriminate.
      - destruct Hc as (zs & Hzs & Hlen & Hvals).
        unfold assign_where in Hassign. rewrite Hzs in Hassign.
        injection Hassign as <-. intros k. specialize (Hkeep k).
        destruct (decide (k = c)) as [->|Hne].
        + rewrite col_lookup_set_eq, Hv.
          eexists. split; [reflexivity|].
          split; [rewrite fill_where_length; exact Hlen|].
          intros i x Hx Hn. apply fill_where_known; [auto|].
          cbn [col_isna]. rewrite list_lookup_fmap, Hx. simpl.
          unfold notna in Hn. destruct (isna x); [discriminate|reflexivity].
        + rewrite col_lookup_set_ne by congruence. exact Hkeep. }
    destruct (IH _ _ Hsub' Hfeat Hkeep1 Hrest) as [H1 H2].
    split; [exact H1|].
    intros k Hk. apply not_elem_of_cons in Hk. destruct Hk as [Hk1 Hk2].
    rewrite H2 by exact Hk2. eapply assign_where_other; eauto.
Qed.

Lemma features_lookup (fcs : list (string * column)) (col : string) :
  col ∉ fcs.*1 ->
  forall cs, col_lookup col (foldl (fun cs kv => col_set kv.1 kv.2 cs) cs fcs)
             = col_lookup col cs.
Proof.
  induction fcs as [|[k v] fcs IH]; intros Hcol cs; [reflexivity|].
  cbn [foldl fst snd]. cbn [fmap list_fmap fst] in Hcol.
  apply not_elem_of_cons in Hcol. destruct Hcol as [Hk Hcol].
  rewrite IH by exact Hcol. apply col_lookup_set_ne. congruence.
Qed.

Lemma gp_keeps_known_values (self : interpolator) (df df' : DataFrame)
    (power_columns : list string) (time_column : string) (ts : list timestamp) :
  time_column <> "hour" ->
  datetime_of (cols df) time_column = Return ts ->
  (forall fcs, feature_columns ts None = Return fcs ->
     forall col, col ∈ power_columns -> col ∉ fcs.*1) ->
  GP_interpolate self df power_columns time_column = Return df' ->
  forall col xs, col_lookup col (cols df) = Some (NumCol xs) ->
    col <> "hour" -> col <> time_column ->
    exists ys, col_lookup col (cols df') = Some (NumCol ys)
      /\ length ys = length xs
      /\ forall i x, xs !! i = Some x -> notna x = true ->
           ys !! i
           = Some (if bool_decide (col ∈ power_columns) then
                     if default false (night <$> ts !! i) then zero
                     else if geb x zero then x else zero
                   else x).
Proof.
  intros Htc Hts Hnames. unfold GP_interpolate.
  destruct (negb (is_fitted self)); [discriminate|].
  unfold create_features. rewrite Hts. cbn [mbind result_bind].
  destruct (feature_columns ts None) as [fcs|e] eqn:Hfcs; [|discriminate].
  cbn [mbind result_bind cols nrows].
  destruct (foldM _ _ power_columns) as [cs|e] eqn:Hloop; [|discriminate].
  cbn [mbind result_bind]. intros Happly col xs Hxs Hhour Hcol.
  destruct (solar_constraints_columns _ _ _ _ Htc Happly) as [Htime _].
  assert (Hfeat : forall c, c ∈ power_columns ->
            col_lookup c (foldl (fun cs kv => col_set kv.1 kv.2 cs)
                            (col_set time_column (TimeCol ts) (cols df)) fcs)
            = col_lookup c (cols df)).
  { intros c Hc. rewrite features_lookup by (eapply Hnames; eauto).
    apply col_lookup_set_ne. intros ->. contradiction. }
  destruct (gp_loop_keeps self (nrows df) _ (cols df) power_columns power_columns
              _ _ (reflexivity _) Hfeat (keeps_known_refl _) Hloop) as [Hkeep Hsame].
  pose proof (Hkeep col) as Hk. rewrite Hxs in Hk.
  destruct Hk as (zs & Hzs & Hlen & Hvals).
  destruct (solar_constraints_values _ _ _ _ Htc Happly)
    as (_ & ts' & Hts' & _ & Hother & Hpower).
  cbn [cols] in Hts', Hother, Hpower.
  unfold datetime_of in Hts'. rewrite (Hsame _ Htime) in Hts'.
  unfold datetime_of in Hts. rewrite Hts in Hts'. injection Hts' as <-.
  destruct (decide (col ∈ power_columns)) as [Hin|Hnin].
  - destruct (Hpower col zs Hin Hhour Hzs) as (ys & Hys & Hlen' & Hval').
    exists ys. split; [exact Hys|]. split; [congruence|].
    intros i x Hx Hn. rewrite (Hval' i x (Hvals i x Hx Hn)).
    rewrite bool_decide_eq_true_2 by exact Hin.
    unfold notna in Hn. destruct (isna x); [discriminate|]. reflexivity.
  - exists zs. rewrite Hother by assumption.
    split; [exact Hzs|]. split; [exact Hlen|].
    intros i x Hx Hn. rewrite bool_decide_eq_false_2 by exact Hnin. auto.
Qed.

(** The three strategies end in the post-processor, so the frame they
    return has no column named [hour]. *)
Lemma interpolate_drops_hour (self : interpolator) (df df' : DataFrame)
    (power_columns : list string) (time_column : string) :
  cls self <> MultiOutputRegressionInterpolator ->
  interpolate self df power_columns time_column [] = Return df' ->
  col_lookup "hour" (cols df') = None.
Proof.
  intros Hcls. unfold interpolate.
  destruct (cls self) eqn:Hc; [| | |contradiction];
    change (bind_call "interpolate" _ _ _) with (Return (A := unit) tt);
    cbn [mbind result_bind].
  - unfold Spline_interpolate.
    destruct (datetime_of _ _) as [ts|e]; [|discriminate]. cbn [mbind result_bind].
    destruct (foldM _ _ power_columns) as [cs|e]; [|discriminate].
    cbn [mbind result_bind]. apply solar_constraints_drop_hour.
  - unfold GP_interpolate.
    destruct (negb (is_fitted self)); [discriminate|].
    destruct (create_features _ _ _) as [df_features|e]; [|discriminate].
    cbn [mbind result_bind].
    destruct (foldM _ _ power_columns) as [cs|e]; [|discriminate].
    cbn [mbind result_bind]. apply solar_constraints_drop_hour.
  - unfold Physics_interpolate.
    destruct (negb (is_fitted self)); [discriminate|].
    destruct (datetime_of _ _) as [ts|e]; [|discriminate]. cbn [mbind result_bind].
    destruct (foldM _ _ power_columns) as [cs|e]; [|discriminate].
    cbn [mbind result_bind]. apply solar_constraints_drop_hour.
Qed.

(** The spline, the Gaussian-process and the physics-based strategy
    change a known value only through the solar post-processor.  The
    frame that [interpolate] returns has no column named [hour]: the
    post-processor removes the column of that name, also one that the
    input had.  In every other column of numbers the known values are
    kept, except that in a power column a known value becomes 0 in the
    night rows and 0 if it is negative.  What the numerical libraries
    compute goes into missing cells only.  For the Gaussian-process
    strategy this needs that no power column has the name of a feature
    column. *)
Theorem interpolate_keeps_known_values (self : interpolator) (df df' : DataFrame)
    (power_columns : list string) (time_column : string) (ts : list timestamp) :
  cls self <> MultiOutputRegressionInterpolator ->
  (cls self = GaussianProcessInterpolator ->
   forall fcs, feature_columns ts None = Return fcs ->
     forall col, col ∈ power_columns -> col ∉ fcs.*1) ->
  time_column <> "hour" ->
  datetime_of (cols df) time_column = Return ts ->
  interpolate self df power_columns time_column [] = Return df' ->
  col_lookup "hour" (cols df') = None
  /\ forall col xs, col_lookup col (cols df) = Some (NumCol xs) ->
       col <> "hour" -> col <> time_column ->
       exists ys, col_lookup col (cols df') = Some (NumCol ys)
         /\ length ys = length xs
         /\ forall i x, xs !! i = Some x -> notna x = true ->
              ys !! i
              = Some (if bool_decide (col ∈ power_columns) then
                        if default false (night <$> ts !! i) then zero
                        else if geb x zero then x else zero
                      else x).
Proof.
  intros Hcls Hnames Htc Hts Hrun. split.
  - revert Hrun. apply interpolate_drops_hour. exact Hcls.
  - revert Hrun. unfold interpolate.
    destruct (cls self) eqn:Hc; [| | |contradiction];
      change (bind_call "interpolate" _ _ _) with (Return (A := unit) tt);
      cbn [mbind result_bind].
    + apply spline_keeps_known_values; assumption.
    + apply gp_keeps_known_values; auto.
    + apply physics_keeps_known_values; assumption.
Qed.

End Known.

(** ** The configuration section, read back *)

Lemma new_InterpolationConfig_dict (d r : gmap string pyval) (c : pyval) :
  d !! "recommendations" = Some (PDict r) ->
  r !! "configuration" = Some c ->
  new_InterpolationConfig (PDict d)
  = Return {| gap_analysis := PDict d; recommendations := PDict r; config := c |}.
Proof.
  intros Hd Hr. unfold new_InterpolationConfig. simpl. rewrite Hd. simpl.
  rewrite Hr. reflexivity.
Qed.

(** A document whose configuration section is the one the recommender
    writes validates for exactly the four method names that the section
    configures, without warnings; for every other name, among them the
    four equipment-level names that the recommender itself selects, the
    report is invalid with the error that no configuration was found. *)
Theorem written_configuration_validates (d r : gmap string pyval)
    (method_parameters : gmap string bool) (n_columns : nat) (method_name : string) :
  d !! "recommendations" = Some (PDict r) ->
  r !! "configuration" = Some (Configuration.configuration method_parameters n_columns) ->
  (interp_config ← new_InterpolationConfig (PDict d);
   Configuration.validate_configuration interp_config method_name)
  = Return (if bool_decide (method_name ∈ ["multi_output_regression";
                                           "spline_interpolation"; "gaussian_process";
                                           "physics_based_model"])
            then {| Configuration.valid := true; Configuration.warnings := [];
                    Configuration.errors := [] |}
            else {| Configuration.valid := false; Configuration.warnings := [];
                    Configuration.errors :=
                      ["No configuration found for method: " +:+ method_name] |}).
Proof.
  intros Hd Hr. rewrite (new_InterpolationConfig_dict _ _ _ Hd Hr).
  cbn [mbind result_bind].
  unfold Configuration.validate_configuration, get_method_config,
    Configuration.configuration. cbn [config py_get].
  destruct (decide (method_name = "multi_output_regression")) as [->|H1];
    [reflexivity|].
  destruct (decide (method_name = "spline_interpolation")) as [->|H2]; [reflexivity|].
  destruct (decide (method_name = "gaussian_process")) as [->|H3]; [reflexivity|].
  destruct (decide (method_name = "physics_based_model")) as [->|H4]; [reflexivity|].
  rewrite !lookup_insert_ne, lookup_singleton_ne by congruence.
  cbn [default mbind result_bind].
  assert (Hempty : truthy (PDict ∅) = false).
  { unfold truthy. rewrite bool_decide_eq_true_2 by reflexivity. reflexivity. }
  rewrite Hempty. cbn [negb].
  rewrite bool_decide_eq_false_2; [reflexivity|].
  rewrite !elem_of_cons. intros [?|[?|[?|[?|Hn]]]]; try contradiction. inversion Hn.
Qed.

Section Modes.
Context {learn : Learners}.

Lemma MO_fit_mode (self : interpolator) (ic : InterpolationConfig)
    (m : gmap string pyval) (a b : bool) df power_columns time_column weather_data :
  interp_config self = Some ic ->
  get_method_config ic "multi_output_regression" = Return (PDict m) ->
  m !! "model_equipment_independently" = Some (PBool a) ->
  m !! "use_equipment_correlation" = Some (PBool b) ->
  MO_fit self df power_columns time_column weather_data
  = if a && b then
      _fit_independent_with_correlation self df power_columns time_column
        weather_data (PDict m)
    else if a then
      _fit_independent_models self df power_columns time_column weather_data (PDict m)
    else
      _fit_multi_output_model self df power_columns time_column weather_data (PDict m).
Proof.
  intros Hic Hcfg Ha Hb. unfold MO_fit. rewrite Hic, Hcfg.
  cbn [mbind result_bind py_get]. rewrite Ha, Hb. reflexivity.
Qed.

(** The method parameters that the recommender chooses never turn the
    independent modelling off, and turn the correlation off only for the
    equipment-specific method. *)
Lemma recommended_parameters (pattern_summary : PatternSummary)
    (gap_dist : gmap string Z) :
  let recs := recommend_methods_generic pattern_summary gap_dist in
  default true (method_parameters recs !! "model_equipment_independently") = true
  /\ default true (method_parameters recs !! "use_equipment_correlation")
     = negb (bool_decide (primary_method recs = "equipment_specific_interpolation")).
Proof.
  unfold recommend_methods_generic.
  destruct (decide (dist_total gap_dist = 0)); [split; reflexivity|].
  destruct (decide (primary_pattern pattern_summary = "system_wide_failures"));
    [split; reflexivity|].
  destruct (decide (primary_pattern pattern_summary = "individual_equipment_failures")).
  - destruct (decide ("equipment_degradation" ∈ _)); [split; reflexivity|].
    destruct (decide ("maintenance_patterns" ∈ _)); [split; reflexivity|].
    destruct (decide ("random_failures" ∈ _)); split; reflexivity.
  - destruct (exceeds _ _ (literal 7 10)); [split; reflexivity|].
    destruct (exceeds _ _ (literal 3 10)); [split; reflexivity|].
    destruct (exceeds _ _ (literal 2 10)); split; reflexivity.
Qed.

(** With the configuration section that the recommender writes for its
    own recommendations, the multi-output strategy never trains the
    single joint model: it fits the independent models without
    correlation features when the recommended method is the
    equipment-specific one, and the independent models with correlation
    features in every other case. *)
Theorem recommended_configuration_mode (pattern_summary : PatternSummary)
    (gap_dist : gmap string Z) (n_columns : nat) (d r : gmap string pyval)
    (self : interpolator) (interp_config : InterpolationConfig)
    df power_columns time_column weather_data :
  let recs := recommend_methods_generic pattern_summary gap_dist in
  d !! "recommendations" = Some (PDict r) ->
  r !! "configuration"
  = Some (Configuration.configuration (method_parameters recs) n_columns) ->
  new_InterpolationConfig (PDict d) = Return interp_config ->
  Interpolation.interp_config self = Some interp_config ->
  exists method_config,
    get_method_config interp_config "multi_output_regression" = Return method_config
    /\ MO_fit self df power_columns time_column weather_data
       = if bool_decide (primary_method recs = "equipment_specific_interpolation")
         then _fit_independent_models self df power_columns time_column
                weather_data method_config
         else _fit_independent_with_correlation self df power_columns time_column
                weather_data method_config.
Proof.
  intros recs Hd Hr Hnew Hself.
  rewrite (new_InterpolationConfig_dict _ _ _ Hd Hr) in Hnew. injection Hnew as <-.
  destruct (recommended_parameters pattern_summary gap_dist) as [Ha Hb].
  fold recs in Ha, Hb.
  eexists. split; [reflexivity|].
  erewrite MO_fit_mode; [|exact Hself|reflexivity|reflexivity|reflexivity].
  rewrite Ha, Hb. cbn [andb].
  destruct (bool_decide _); reflexivity.
Qed.

End Modes.

Lemma refit_keeps_models_witness :
  exists fitted_self,
    fit fitted_on_old (sample_frame 10 [of_int 5; nan]) ["power"] "Time" []
    = Return fitted_self
    /\ is_Some (system_parameters fitted_self !! "old").
Proof.
  destruct (fit fitted_on_old (sample_frame 10 [of_int 5; nan]) ["power"] "Time" [])
    as [fitted_self|e] eqn:Hfit; [|vm_compute in Hfit; discriminate].
  exists fitted_self. split; [reflexivity|].
  destruct (refit_keeps_models fitted_on_old fitted_self _ _ _ (or_intror eq_refl) Hfit)
    as (_ & _ & Hkept & _).
  apply Hkept. exists tt. reflexivity.
Defined.

Lemma validation_split_contents_witness :
  exists df_validation validation_indices validation_data n_validation_points,
    create_validation_split (stats := sample_statistics)
      (sample_frame 0 (replicate 30 (of_int 1))) ["power"] (literal 15 100)
    = Return (df_validation,
              ValidationInfo validation_indices validation_data n_validation_points)
    /\ nrows df_validation = 30%nat
    /\ n_validation_points = Z.of_nat (length validation_indices).
Proof.
  destruct (create_validation_split (stats := sample_statistics)
              (sample_frame 0 (replicate 30 (of_int 1))) ["power"] (literal 15 100))
    as [[df_validation [error|indices data n]]|e] eqn:Hsplit;
    [vm_compute in Hsplit; discriminate| |vm_compute in Hsplit; discriminate].
  exists df_validation, indices, data, n. split; [reflexivity|].
  assert (Hcolumns : ["power"] <> @nil string) by discriminate.
  pose proof (validation_split_contents (stats := sample_statistics)
                (sample_frame 0 (replicate 30 (of_int 1))) df_validation ["power"]
                (literal 15 100) indices data n Hcolumns Hsplit) as Hcontents.
  destruct Hcontents as (Hrows & Hn & _).
  split; [exact Hrows|exact Hn].
Defined.

Lemma run_requires_structure_witness :
  run_interpolation (stats := sample_statistics) (learn := no_learners)
    (sample_frame 0 [of_int 1; nan])
    (PDict {[ "structure" := PDict {[ "time_column" := PStr "Time";
                                      "power_columns" := PList [] ]} ]})
    (Some "spline_interpolation") false None
  = Raise (ValueError "Could not extract data structure from gap analysis").
Proof.
  apply run_requires_structure. right.
  exists {[ "time_column" := PStr "Time"; "power_columns" := PList [] ]}.
  split; [reflexivity|right; reflexivity].
Defined.

Lemma empty_method_list_raises_witness :
  get_recommended_method
    (PDict {[ "recommendations" := PDict {[ "primary_methods" := PList [] ]} ]}) None
  = Raise (IndexError "list index out of range").
Proof.
  apply (empty_method_list_raises _ {[ "primary_methods" := PList [] ]});
    [left; reflexivity|reflexivity|reflexivity|reflexivity].
Defined.

Lemma interpolate_keeps_known_values_witness :
  exists ys,
    col_lookup "power" (cols (sample_frame 10 [of_int 5; nan; zero])) = Some (NumCol ys)
    /\ ys !! 0%nat = Some (of_int 5).
Proof.
  destruct (interpolate_keeps_known_values (learn := no_learners)
              {| cls := SplineInterpolator; is_fitted := false; metadata := [];
                 interp_config := None; gp_models := ∅; system_parameters := ∅;
                 model := ModelNone |}
              (sample_frame 10 [of_int 5; nan; SFopp (of_int 3)])
              (sample_frame 10 [of_int 5; nan; zero]) ["power"] "Time"
              (map hours (seqZ 10 3)))
    as [_ Hkeep];
    [discriminate|discriminate|discriminate|reflexivity|vm_compute; reflexivity|].
  destruct (Hkeep "power" [of_int 5; nan; SFopp (of_int 3)])
    as (ys & Hys & _ & Hvalues); [reflexivity|discriminate|discriminate|].
  exists ys. split; [exact Hys|].
  rewrite (Hvalues 0%nat (of_int 5) eq_refl eq_refl). reflexivity.
Defined.

Lemma written_configuration_validates_witness :
  (interp_config ← new_InterpolationConfig (PDict configured_document);
   Configuration.validate_configuration interp_config "equipment_specific_interpolation")
  = Return {| Configuration.valid := false; Configuration.warnings := [];
              Configuration.errors :=
                ["No configuration found for method: equipment_specific_interpolation"] |}.
Proof.
  apply (written_configuration_validates configured_document configured_recommendations
           (method_parameters (recommend_methods_generic random_failures {[ "1h" := 1 ]}))
           1 "equipment_specific_interpolation"); reflexivity.
Defined.

Lemma recommended_configuration_mode_witness :
  exists method_config,
    MO_fit configured_interpolator (sample_frame 0 [of_int 1; nan]) ["power"] "Time" None
    = _fit_independent_models configured_interpolator (sample_frame 0 [of_int 1; nan])
        ["power"] "Time" None method_config.
Proof.
  destruct (recommended_configuration_mode (learn := no_learners) random_failures
              {[ "1h" := 1 ]} 1 configured_document configured_recommendations
              configured_interpolator
              {| gap_analysis := PDict configured_document;
                 recommendations := PDict configured_recommendations;
                 config := Configuration.configuration
                             (method_parameters
                                (recommend_methods_generic random_failures {[ "1h" := 1 ]}))
                             1 |}
              (sample_frame 0 [of_int 1; nan]) ["power"] "Time" None)
    as (method_config & _ & Hmode); [reflexivity|reflexivity|reflexivity|reflexivity|].
  exists method_config. exact Hmode.
Defined.
